(** * ask-answer-hub: vote aggregation, row-level policies and the
    department-admin notification function

    The development follows the repository layer by layer:
    - [Schema]      the tables of the first migration (columns as declared)
                    and the two role functions;
    - [Js]          truthiness, [||] and [trim] as the handlers use them;
    - [Votes]       the trigger function [update_question_votes] and the
                    row-level statements on [public.votes] that fire it;
    - [Rls]         policies, SQL's three-valued booleans, and every policy
                    the migrations create on profiles, user_roles,
                    questions and answers;
    - [Migrations]  the migration files as transformers of the policy
                    catalogue, and the statements issued under it;
    - [Client]      the pieces of the single-page application that decide
                    what is sent to the store ([useAuth],
                    [handleSubmitAnswer], [handleRemoveRole]);
    - [Notify]      the edge function [notify-department-admins];
    - [Demo]        a small installation to run all of this on.
    Further modules cover more of the same code:
    - [NotifyCases], [NotifyUnverified]  the quiet and failing outcomes of
                    the function, and the earlier variant of its handler;
    - [VotesAccess] the policies on [public.votes], the statements issued
                    under them and the vote buttons ([handleVote]);
    - [Accounts]    sign-up ([handle_new_user]), role management and the
                    moderation of questions;
    - [AskQuestion] the question form ([handleSubmit]);
    - [OtherTables] the policies on departments, comments and
                    department_admins.
    The modules whose name ends in [Facts] hold the properties.

    Identifiers (UUIDs on the SQL side, strings on the TypeScript side) are
    strings.  Timestamps ([created_at], [updated_at]) play no part in any
    statement below and are left out of the rows. *)

From stdpp Require Import base tactics option strings list gmap pretty.
From Stdlib Require Import ZArith Lia.

Module Schema.

Abbreviation uuid := string.

(** CREATE TYPE public.app_role AS ENUM ('admin', 'responder', 'employee') *)
Inductive app_role := admin | responder | employee.

#[global] Instance app_role_eq_dec : EqDecision app_role.
Proof. solve_decision. Defined.

(** Rows.  Nullable columns are options.  Where a table is held as a map
    its primary key [id] is the key of the map; the surrogate [id] of
    user_roles and department_admins is read by no code and is left out. *)
Record department := {
  d_name : string;
  d_description : option string }.

Record profile := {
  p_id : uuid;
  p_user_id : uuid;
  p_email : string;
  p_full_name : option string;
  p_avatar_url : option string;
  p_department_id : option uuid }.

Record user_role := {
  ur_user_id : uuid;
  ur_role : app_role }.

Record question := {
  q_title : string;
  q_content : string;
  q_department_id : option uuid;
  q_is_anonymous : bool;
  q_author_id : option uuid;
  q_status : option string;
  q_upvotes : Z;
  q_downvotes : Z }.

Record answer := {
  a_question_id : uuid;
  a_content : string;
  a_author_id : uuid;
  a_is_official : bool }.

Record vote := {
  v_question_id : uuid;
  v_user_id : uuid;
  v_vote_type : string }.

Record department_admin := {
  da_user_id : uuid;
  da_department_id : uuid }.

#[global] Instance user_role_eq_dec : EqDecision user_role.
Proof. solve_decision. Defined.
#[global] Instance vote_eq_dec : EqDecision vote.
Proof. solve_decision. Defined.
#[global] Instance answer_eq_dec : EqDecision answer.
Proof. solve_decision. Defined.
#[global] Instance question_eq_dec : EqDecision question.
Proof. solve_decision. Defined.

(** The store.  Tables that the code addresses by primary key are maps
    from the key; [user_roles], [profiles] and [department_admins] are
    only ever scanned and are kept as row lists. *)
Record db := {
  departments : gmap uuid department;
  profiles : list profile;
  user_roles : list user_role;
  questions : gmap uuid question;
  answers : gmap uuid answer;
  votes : gmap uuid vote;
  department_admins : list department_admin }.

Definition set_questions (qs : gmap uuid question) (s : db) : db :=
  {| departments := departments s; profiles := profiles s;
     user_roles := user_roles s; questions := qs; answers := answers s;
     votes := votes s; department_admins := department_admins s |}.

Definition set_votes (vs : gmap uuid vote) (s : db) : db :=
  {| departments := departments s; profiles := profiles s;
     user_roles := user_roles s; questions := questions s;
     answers := answers s; votes := vs;
     department_admins := department_admins s |}.

Definition set_answers (ans : gmap uuid answer) (s : db) : db :=
  {| departments := departments s; profiles := profiles s;
     user_roles := user_roles s; questions := questions s;
     answers := ans; votes := votes s;
     department_admins := department_admins s |}.

Definition set_user_roles (rs : list user_role) (s : db) : db :=
  {| departments := departments s; profiles := profiles s;
     user_roles := rs; questions := questions s; answers := answers s;
     votes := votes s; department_admins := department_admins s |}.

Definition set_upvotes (n : Z) (q : question) : question :=
  {| q_title := q_title q; q_content := q_content q;
     q_department_id := q_department_id q;
     q_is_anonymous := q_is_anonymous q; q_author_id := q_author_id q;
     q_status := q_status q; q_upvotes := n; q_downvotes := q_downvotes q |}.

Definition set_downvotes (n : Z) (q : question) : question :=
  {| q_title := q_title q; q_content := q_content q;
     q_department_id := q_department_id q;
     q_is_anonymous := q_is_anonymous q; q_author_id := q_author_id q;
     q_status := q_status q; q_upvotes := q_upvotes q; q_downvotes := n |}.

Definition set_status (st : option string) (q : question) : question :=
  {| q_title := q_title q; q_content := q_content q;
     q_department_id := q_department_id q;
     q_is_anonymous := q_is_anonymous q; q_author_id := q_author_id q;
     q_status := st; q_upvotes := q_upvotes q;
     q_downvotes := q_downvotes q |}.

(** has_role(_user_id, _role): EXISTS over user_roles. *)
Definition has_role (rs : list user_role) (_user_id : option uuid)
    (_role : app_role) : bool :=
  match _user_id with
  | None => false
  | Some u =>
      existsb (λ r, bool_decide (ur_user_id r = u)
                    && bool_decide (ur_role r = _role)) rs
  end.

(** is_admin_or_responder(_user_id): role IN ('admin', 'responder'). *)
Definition is_admin_or_responder (rs : list user_role)
    (_user_id : option uuid) : bool :=
  match _user_id with
  | None => false
  | Some u =>
      existsb (λ r, bool_decide (ur_user_id r = u)
                    && (bool_decide (ur_role r = admin)
                        || bool_decide (ur_role r = responder))) rs
  end.

End Schema.

(** * JavaScript values as the handlers use them *)

Module Js.

(** A text is held as the bytes of its UTF-8 encoding.  A JavaScript
    string can also hold a surrogate on its own (a cut at a fixed index
    can leave one): it is held as the three bytes the same scheme gives
    to its code unit. *)

(** JavaScript truthiness of a string and of a nullable string, and
    [a || b] on them. *)
Definition truthy (s : string) : bool := negb (bool_decide (s = EmptyString)).

Definition truthy_opt (s : option string) : bool :=
  match s with Some x => truthy x | None => false end.

Definition or_else (a : option string) (b : string) : string :=
  match a with
  | Some x => if truthy x then x else b
  | None => b
  end.

(** String.prototype.trim removes white space and line terminators:
    TAB, LF, VT, FF, CR and SPACE (one byte each), U+00A0 (two bytes),
    and U+1680, U+2000 to U+200A, U+2028, U+2029, U+202F, U+205F, U+3000
    and U+FEFF (three bytes each). *)
Definition is_space (a : Ascii.ascii) : bool :=
  bool_decide (Ascii.nat_of_ascii a ∈ [9; 10; 11; 12; 13; 32]).

Definition is_space2 (a b : Ascii.ascii) : bool :=
  bool_decide (Ascii.nat_of_ascii a = 194)
  && bool_decide (Ascii.nat_of_ascii b = 160).

Definition is_space3 (a b c : Ascii.ascii) : bool :=
  let x := Ascii.nat_of_ascii a in
  let y := Ascii.nat_of_ascii b in
  let z := Ascii.nat_of_ascii c in
  bool_decide (x = 225) && bool_decide (y = 154) && bool_decide (z = 128)
  || bool_decide (x = 226) && bool_decide (y = 128)
     && (bool_decide (128 ≤ z ≤ 138) || bool_decide (z ∈ [168; 169; 175]))
  || bool_decide (x = 226) && bool_decide (y = 129) && bool_decide (z = 159)
  || bool_decide (x = 227) && bool_decide (y = 128) && bool_decide (z = 128)
  || bool_decide (x = 239) && bool_decide (y = 187) && bool_decide (z = 191).

(** Leading characters are dropped as long as they are among those
    recognised by [p1] (one byte), [p2] (two bytes) or [p3] (three). *)
Fixpoint strip (p1 : Ascii.ascii → bool) (p2 : Ascii.ascii → Ascii.ascii → bool)
    (p3 : Ascii.ascii → Ascii.ascii → Ascii.ascii → bool) (s : string) : string :=
  match s with
  | String a s1 =>
      if p1 a then strip p1 p2 p3 s1
      else
        match s1 with
        | String b s2 =>
            if p2 a b then strip p1 p2 p3 s2
            else
              match s2 with
              | String c s3 => if p3 a b c then strip p1 p2 p3 s3 else s
              | EmptyString => s
              end
        | EmptyString => s
        end
  | EmptyString => EmptyString
  end.

Definition trim_start (s : string) : string :=
  strip is_space is_space2 is_space3 s.

(** The same from the end: on the reversed text the bytes of a character
    come last byte first. *)
Definition trim_end (s : string) : string :=
  String.rev (strip is_space (λ b a, is_space2 a b) (λ c b a, is_space3 a b c)
                (String.rev s)).

Definition trim (s : string) : string := trim_end (trim_start s).

(** A byte 10xxxxxx continues the character begun before it. *)
Definition continuation (a : Ascii.ascii) : bool :=
  bool_decide (128 ≤ Ascii.nat_of_ascii a < 192).

(** char_length(s) of PostgreSQL: the characters (code points). *)
Fixpoint char_length (s : string) : nat :=
  match s with
  | String a s' => (if continuation a then 0 else 1) + char_length s'
  | EmptyString => 0
  end.

(** The UTF-16 code units that the character begun by a byte takes: two
    when the byte begins a four-byte encoding, one for any other first
    byte, none for a continuation byte. *)
Definition utf16_units (a : Ascii.ascii) : nat :=
  if continuation a then 0
  else if bool_decide (Ascii.nat_of_ascii a < 240) then 1 else 2.

(** s.length *)
Fixpoint utf16_length (s : string) : nat :=
  match s with
  | String a s' => utf16_units a + utf16_length s'
  | EmptyString => 0
  end.

(** The high surrogate of the character whose four-byte encoding
    11110uuu 10uuzzzz 10yyyyyy 10xxxxxx begins with [a] and goes on with
    [s']: the code unit 110110wwwwzzzzyy with wwww = uuuuu - 1, as the
    three bytes 11101101 1010wwww 10zzzzyy. *)
Definition high_surrogate (a : Ascii.ascii) (s' : string) : string :=
  let b2 := match s' with String b _ => Ascii.nat_of_ascii b | _ => 128 end in
  let b3 := match s' with
            | String _ (String c _) => Ascii.nat_of_ascii c
            | _ => 128
            end in
  let uuuuu := (Ascii.nat_of_ascii a `mod` 8) * 4 + (b2 `div` 16) `mod` 4 in
  let zzzz := b2 `mod` 16 in
  let yy := (b3 `div` 16) `mod` 4 in
  String (Ascii.ascii_of_nat 237)
    (String (Ascii.ascii_of_nat (160 + (uuuuu - 1) `mod` 16))
       (String (Ascii.ascii_of_nat (128 + (zzzz * 4 + yy) `mod` 64))
          EmptyString)).

(** s.substring(0, n): the first [n] code units.  A character of two
    code units of which only the first is within [n] leaves its high
    surrogate. *)
Fixpoint substring_0 (n : nat) (s : string) : string :=
  match s with
  | String a s' =>
      match utf16_units a, n with
      | 0, _ => String a (substring_0 n s')
      | _, 0 => EmptyString
      | 1, S n' => String a (substring_0 n' s')
      | _, 1 => high_surrogate a s'
      | _, S (S n'') => String a (substring_0 n'' s')
      end
  | EmptyString => EmptyString
  end.

End Js.

(** * The vote ledger and its trigger *)

Module Votes.
Import Schema.

(** [upvotes] and [downvotes] are INTEGER columns: an assignment outside
    the 32-bit range raises, which aborts the statement that fired the
    trigger. *)
Definition INT4_MIN : Z := -2147483648.
Definition INT4_MAX : Z := 2147483647.

Definition int4_range (z : Z) : bool :=
  bool_decide (INT4_MIN ≤ z ≤ INT4_MAX)%Z.

(** UPDATE public.questions SET upvotes = upvotes + d WHERE id = qid.
    No row with that id: nothing is updated and nothing is raised. *)
Definition add_upvotes (d : Z) (qid : uuid) (qs : gmap uuid question)
    : option (gmap uuid question) :=
  match qs !! qid with
  | None => Some qs
  | Some q =>
      if int4_range (q_upvotes q + d)
      then Some (<[qid := set_upvotes (q_upvotes q + d) q]> qs)
      else None
  end.

(** UPDATE public.questions SET downvotes = downvotes + d WHERE id = qid. *)
Definition add_downvotes (d : Z) (qid : uuid) (qs : gmap uuid question)
    : option (gmap uuid question) :=
  match qs !! qid with
  | None => Some qs
  | Some q =>
      if int4_range (q_downvotes q + d)
      then Some (<[qid := set_downvotes (q_downvotes q + d) q]> qs)
      else None
  end.

(** TG_OP together with the OLD and NEW rows it makes available. *)
Inductive trigger_event :=
| TG_INSERT (NEW : vote)
| TG_DELETE (OLD : vote)
| TG_UPDATE (OLD NEW : vote).

(** public.update_question_votes(), branch by branch.  [None] is a raised
    error.  The function is SECURITY DEFINER: its UPDATEs on questions are
    not filtered by the policies of the voting user. *)
Definition update_question_votes (ev : trigger_event)
    (qs : gmap uuid question) : option (gmap uuid question) :=
  match ev with
  | TG_INSERT NEW =>
      if bool_decide (v_vote_type NEW = "up")
      then add_upvotes 1 (v_question_id NEW) qs
      else add_downvotes 1 (v_question_id NEW) qs
  | TG_DELETE OLD =>
      if bool_decide (v_vote_type OLD = "up")
      then add_upvotes (-1) (v_question_id OLD) qs
      else add_downvotes (-1) (v_question_id OLD) qs
  | TG_UPDATE OLD NEW =>
      qs1 ← (if bool_decide (v_vote_type OLD = "up")
             then add_upvotes (-1) (v_question_id OLD) qs
             else add_downvotes (-1) (v_question_id OLD) qs);
      if bool_decide (v_vote_type NEW = "up")
      then add_upvotes 1 (v_question_id NEW) qs1
      else add_downvotes 1 (v_question_id NEW) qs1
  end.

(** Constraints of public.votes on a row that is to sit under key [id]:
    CHECK (vote_type IN ('up', 'down')), the foreign key to questions and
    UNIQUE (question_id, user_id) against every other row. *)
Definition vote_type_check (v : vote) : bool :=
  bool_decide (v_vote_type v = "up") || bool_decide (v_vote_type v = "down").

Definition same_pair (v w : vote) : bool :=
  bool_decide (v_question_id v = v_question_id w)
  && bool_decide (v_user_id v = v_user_id w).

Definition pair_free (id : uuid) (v : vote) (vs : gmap uuid vote) : bool :=
  bool_decide (map_Forall (λ id' w, id' = id ∨ same_pair v w = false) vs).

Definition vote_constraints (id : uuid) (v : vote) (s : db) : bool :=
  vote_type_check v
  && bool_decide (is_Some (questions s !! v_question_id v))
  && pair_free id v (votes s).

(** One row-level statement on public.votes followed by its AFTER ...
    FOR EACH ROW trigger.  [None]: the statement raised (constraint or
    trigger) and the store is left as it was. *)
Definition insert_vote (id : uuid) (NEW : vote) (s : db) : option db :=
  match votes s !! id with
  | Some _ => None
  | None =>
      if vote_constraints id NEW s then
        qs ← update_question_votes (TG_INSERT NEW) (questions s);
        Some (set_questions qs (set_votes (<[id := NEW]> (votes s)) s))
      else None
  end.

(** The surrogate key [id] is never rewritten by any caller; an UPDATE
    replaces the other three columns of the row. *)
Definition update_vote (id : uuid) (NEW : vote) (s : db) : option db :=
  match votes s !! id with
  | None => Some s
  | Some OLD =>
      if vote_constraints id NEW s then
        qs ← update_question_votes (TG_UPDATE OLD NEW) (questions s);
        Some (set_questions qs (set_votes (<[id := NEW]> (votes s)) s))
      else None
  end.

Definition delete_vote (id : uuid) (s : db) : option db :=
  match votes s !! id with
  | None => Some s
  | Some OLD =>
      qs ← update_question_votes (TG_DELETE OLD) (questions s);
      Some (set_questions qs (set_votes (delete id (votes s)) s))
  end.

Inductive statement :=
| Insert (id : uuid) (NEW : vote)
| Update (id : uuid) (NEW : vote)
| Delete (id : uuid).

Definition step (st : statement) (s : db) : option db :=
  match st with
  | Insert id NEW => insert_vote id NEW s
  | Update id NEW => update_vote id NEW s
  | Delete id => delete_vote id s
  end.

(** A raised statement is rolled back. *)
Definition exec (s : db) (st : statement) : db := default s (step st s).

Definition run (sts : list statement) (s : db) : db := foldl exec s sts.

(** count(votes where question_id = qid and vote_type = t) *)
Definition count_votes (t : string) (qid : uuid) (vs : gmap uuid vote) : nat :=
  size (filter (λ kv : uuid * vote,
                  v_question_id kv.2 = qid ∧ v_vote_type kv.2 = t) vs).

(** The counters of every question agree with the ledger. *)
Definition counters_match (s : db) : Prop :=
  ∀ qid q, questions s !! qid = Some q →
    q_upvotes q = Z.of_nat (count_votes "up" qid (votes s)) ∧
    q_downvotes q = Z.of_nat (count_votes "down" qid (votes s)).

(** A store as it is before any vote: counters at their DEFAULT 0 and no
    ledger row. *)
Definition fresh (s : db) : bool :=
  bool_decide (votes s = ∅)
  && bool_decide (map_Forall (λ _ q, q_upvotes q = 0%Z ∧ q_downvotes q = 0%Z)
                    (questions s)).

(** The table constraints, as a property of a store. *)
Definition ledger_wf (s : db) : bool :=
  bool_decide (map_Forall (λ id v, vote_constraints id v s = true) (votes s)).

(** The row [OLD] with its vote type replaced, as
    [.update({ vote_type: voteType })] does. *)
Definition with_type (t : string) (OLD : vote) : vote :=
  {| v_question_id := v_question_id OLD; v_user_id := v_user_id OLD;
     v_vote_type := t |}.

(** ** Vocabulary for what the trigger does to the counters *)

(** [shifted du dd q q']: [q'] is [q] with [du] added to upvotes and [dd]
    to downvotes, every other column untouched. *)
Definition shifted (du dd : Z) (q q' : question) : Prop :=
  q' = set_downvotes (q_downvotes q + dd) (set_upvotes (q_upvotes q + du) q).

(** What one statement of the trigger body does to the row of question
    [k]: the row is kept (same key set) and shifted when [k] is the
    addressed question. *)
Definition rows_shifted (du dd : uuid → Z)
    (qs qs' : gmap uuid question) : Prop :=
  ∀ k, option_Forall2 (shifted (du k) (dd k)) (qs !! k) (qs' !! k).

Definition at_key (qid : uuid) (d : Z) (k : uuid) : Z :=
  if bool_decide (k = qid) then d else 0%Z.

(** Indicator of "row [v] is a vote of type [t] on question [k]". *)
Definition ind (t : string) (k : uuid) (v : vote) : nat :=
  if decide (v_question_id v = k ∧ v_vote_type v = t) then 1 else 0.

Definition zind (t : string) (k : uuid) (v : vote) : Z := Z.of_nat (ind t k v).

Definition delta (t : string) (ev : trigger_event) (k : uuid) : Z :=
  match ev with
  | TG_INSERT NEW => zind t k NEW
  | TG_DELETE OLD => - zind t k OLD
  | TG_UPDATE OLD NEW => - zind t k OLD + zind t k NEW
  end.

Definition event_checked (ev : trigger_event) : bool :=
  match ev with
  | TG_INSERT NEW => vote_type_check NEW
  | TG_DELETE OLD => vote_type_check OLD
  | TG_UPDATE OLD NEW => vote_type_check OLD && vote_type_check NEW
  end.

Definition wf (s : db) : Prop :=
  ∀ id v, votes s !! id = Some v → vote_constraints id v s = true.

End Votes.

(** * Row-level security: the policies and the migrations that install them *)

Module Rls.
Import Schema.

(** ** SQL's three-valued booleans ([None] is NULL) *)
Definition sql_bool := option bool.

Definition sql_true : sql_bool := Some true.

Definition sql_and (a b : sql_bool) : sql_bool :=
  match a, b with
  | Some false, _ | _, Some false => Some false
  | Some true, Some true => Some true
  | _, _ => None
  end.

Definition sql_or (a b : sql_bool) : sql_bool :=
  match a, b with
  | Some true, _ | _, Some true => Some true
  | Some false, Some false => Some false
  | _, _ => None
  end.

(** [a = b] on nullable values of a type with decidable equality. *)
Definition sql_eq `{EqDecision A} (a b : option A) : sql_bool :=
  match a, b with
  | Some x, Some y => Some (bool_decide (x = y))
  | _, _ => None
  end.

Definition sql_is_null {A} (a : option A) : sql_bool :=
  match a with None => Some true | Some _ => Some false end.

(** USING and WITH CHECK let a row through only when the expression is
    TRUE; FALSE and NULL both fail. *)
Definition passes (b : sql_bool) : bool :=
  match b with Some true => true | _ => false end.

(** ** Policies *)
Inductive command := ALL | SELECT | INSERT | UPDATE | DELETE.
Inductive pg_role := anon | authenticated.

#[global] Instance command_eq_dec : EqDecision command.
Proof. solve_decision. Defined.
#[global] Instance pg_role_eq_dec : EqDecision pg_role.
Proof. solve_decision. Defined.

(** A request as the store sees it: the database role of the connection
    and [auth.uid()], NULL when the request carries no user. *)
Record session := {
  sess_role : pg_role;
  sess_uid : option uuid }.

Definition authenticated_as (u : uuid) : session :=
  {| sess_role := authenticated; sess_uid := Some u |}.

(** auth.uid() and the user_roles table (read by has_role, which is
    SECURITY DEFINER) are what a policy expression may look at besides
    the row. *)
Definition expr (R : Type) := list user_role → option uuid → R → sql_bool.

Record policy (R : Type) := {
  pol_name : string;
  pol_for : command;
  pol_to : option (list pg_role);
  pol_using : option (expr R);
  pol_with_check : option (expr R) }.
Arguments pol_name {R}.
Arguments pol_for {R}.
Arguments pol_to {R}.
Arguments pol_using {R}.
Arguments pol_with_check {R}.

(** Does the policy apply to command [c] issued under role [r]?  A policy
    without TO applies to PUBLIC. *)
Definition applies {R} (p : policy R) (c : command) (r : pg_role) : bool :=
  (bool_decide (pol_for p = ALL) || bool_decide (pol_for p = c))
  && match pol_to p with
     | None => true
     | Some rs => bool_decide (r ∈ rs)
     end.

Definition using_passes {R} (p : policy R) (rs : list user_role)
    (uid : option uuid) (row : R) : bool :=
  match pol_using p with
  | Some e => passes (e rs uid row)
  | None => true
  end.

(** The expression checked against a row being written: WITH CHECK, or
    USING when the policy gives no WITH CHECK. *)
Definition check_passes {R} (p : policy R) (rs : list user_role)
    (uid : option uuid) (row : R) : bool :=
  match pol_with_check p with
  | Some e => passes (e rs uid row)
  | None => using_passes p rs uid row
  end.

(** All policies are permissive: they are OR-ed, and with no applicable
    policy nothing is let through. *)
Definition visible {R} (ps : list (policy R)) (se : session)
    (rs : list user_role) (row : R) : bool :=
  existsb (λ p, applies p SELECT (sess_role se)
                && using_passes p rs (sess_uid se) row) ps.

Definition insert_permitted {R} (ps : list (policy R)) (se : session)
    (rs : list user_role) (row : R) : bool :=
  existsb (λ p, applies p INSERT (sess_role se)
                && check_passes p rs (sess_uid se) row) ps.

(** UPDATE ... WHERE and DELETE ... WHERE read the row they address, so
    the SELECT policies apply to it as well. *)
Definition update_permitted {R} (ps : list (policy R)) (se : session)
    (rs : list user_role) (row : R) : bool :=
  existsb (λ p, applies p UPDATE (sess_role se)
                && using_passes p rs (sess_uid se) row) ps
  && visible ps se rs row.

Definition delete_permitted {R} (ps : list (policy R)) (se : session)
    (rs : list user_role) (row : R) : bool :=
  existsb (λ p, applies p DELETE (sess_role se)
                && using_passes p rs (sess_uid se) row) ps
  && visible ps se rs row.

(** ** The catalogue: policies per table, and the profiles_public view.
    Policies on departments, comments, votes and department_admins are
    installed by the same migrations; no statement below touches those
    tables through a policy, and their policies are listed apart, in
    [VotesAccess] and [OtherTables]. *)
Record view := { security_invoker : bool }.

Record catalog := {
  cat_profiles : list (policy profile);
  cat_user_roles : list (policy user_role);
  cat_questions : list (policy question);
  cat_answers : list (policy answer);
  cat_profiles_public : option view }.

Definition empty_catalog : catalog :=
  {| cat_profiles := []; cat_user_roles := []; cat_questions := [];
     cat_answers := []; cat_profiles_public := None |}.

Definition on_profiles (f : list (policy profile) → option (list (policy profile)))
    (c : catalog) : option catalog :=
  ps ← f (cat_profiles c);
  Some {| cat_profiles := ps; cat_user_roles := cat_user_roles c;
          cat_questions := cat_questions c; cat_answers := cat_answers c;
          cat_profiles_public := cat_profiles_public c |}.

Definition on_user_roles
    (f : list (policy user_role) → option (list (policy user_role)))
    (c : catalog) : option catalog :=
  ps ← f (cat_user_roles c);
  Some {| cat_profiles := cat_profiles c; cat_user_roles := ps;
          cat_questions := cat_questions c; cat_answers := cat_answers c;
          cat_profiles_public := cat_profiles_public c |}.

Definition on_questions
    (f : list (policy question) → option (list (policy question)))
    (c : catalog) : option catalog :=
  ps ← f (cat_questions c);
  Some {| cat_profiles := cat_profiles c; cat_user_roles := cat_user_roles c;
          cat_questions := ps; cat_answers := cat_answers c;
          cat_profiles_public := cat_profiles_public c |}.

Definition on_answers
    (f : list (policy answer) → option (list (policy answer)))
    (c : catalog) : option catalog :=
  ps ← f (cat_answers c);
  Some {| cat_profiles := cat_profiles c; cat_user_roles := cat_user_roles c;
          cat_questions := cat_questions c; cat_answers := ps;
          cat_profiles_public := cat_profiles_public c |}.

Definition on_view (f : option view → option (option view))
    (c : catalog) : option catalog :=
  v ← f (cat_profiles_public c);
  Some {| cat_profiles := cat_profiles c; cat_user_roles := cat_user_roles c;
          cat_questions := cat_questions c; cat_answers := cat_answers c;
          cat_profiles_public := v |}.

Definition named {R} (n : string) (p : policy R) : bool :=
  bool_decide (pol_name p = n).

(** CREATE POLICY: raises when the table already has a policy of that
    name. *)
Definition create_policy {R} (p : policy R) (ps : list (policy R))
    : option (list (policy R)) :=
  if existsb (named (pol_name p)) ps then None else Some (ps ++ [p]).

(** DROP POLICY IF EXISTS *)
Definition drop_policy_if_exists {R} (n : string) (ps : list (policy R))
    : option (list (policy R)) :=
  Some (filter (λ p, named n p = false) ps).

(** CREATE VIEW raises when the view exists; DROP VIEW IF EXISTS. *)
Definition create_view (v : view) (cur : option view) : option (option view) :=
  match cur with Some _ => None | None => Some (Some v) end.

Definition drop_view_if_exists (cur : option view) : option (option view) :=
  Some None.

(** ** The policies, migration by migration *)

(** 20260120151732: profiles *)
Definition profiles_viewable : policy profile :=
  {| pol_name := "Profiles are viewable by authenticated users";
     pol_for := SELECT; pol_to := Some [authenticated];
     pol_using := Some (λ _ _ _, sql_true); pol_with_check := None |}.

Definition profiles_update_own : policy profile :=
  {| pol_name := "Users can update their own profile";
     pol_for := UPDATE; pol_to := Some [authenticated];
     pol_using := Some (λ _ uid row, sql_eq uid (Some (p_user_id row)));
     pol_with_check := None |}.

Definition profiles_insert_own : policy profile :=
  {| pol_name := "Users can insert their own profile";
     pol_for := INSERT; pol_to := Some [authenticated];
     pol_using := None;
     pol_with_check := Some (λ _ uid row, sql_eq uid (Some (p_user_id row))) |}.

(** 20260120151732: user_roles *)
Definition roles_view_own : policy user_role :=
  {| pol_name := "Users can view their own roles";
     pol_for := SELECT; pol_to := Some [authenticated];
     pol_using := Some (λ rs uid row,
       sql_or (sql_eq uid (Some (ur_user_id row)))
              (Some (has_role rs uid admin)));
     pol_with_check := None |}.

Definition roles_admin_manage : policy user_role :=
  {| pol_name := "Admins can manage user roles";
     pol_for := ALL; pol_to := Some [authenticated];
     pol_using := Some (λ rs uid _, Some (has_role rs uid admin));
     pol_with_check := None |}.

(** 20260120151732: questions *)
Definition questions_viewable : policy question :=
  {| pol_name := "Questions are viewable by authenticated users";
     pol_for := SELECT; pol_to := Some [authenticated];
     pol_using := Some (λ _ _ _, sql_true); pol_with_check := None |}.

Definition questions_create_v1 : policy question :=
  {| pol_name := "Authenticated users can create questions";
     pol_for := INSERT; pol_to := Some [authenticated];
     pol_using := None;
     pol_with_check := Some (λ _ uid row,
       sql_or (sql_eq uid (q_author_id row))
              (sql_is_null (q_author_id row))) |}.

Definition questions_admin_update : policy question :=
  {| pol_name := "Admins can update questions";
     pol_for := UPDATE; pol_to := Some [authenticated];
     pol_using := Some (λ rs uid _, Some (has_role rs uid admin));
     pol_with_check := None |}.

Definition questions_admin_delete : policy question :=
  {| pol_name := "Admins can delete questions";
     pol_for := DELETE; pol_to := Some [authenticated];
     pol_using := Some (λ rs uid _, Some (has_role rs uid admin));
     pol_with_check := None |}.

(** 20260120151732: answers *)
Definition answers_viewable : policy answer :=
  {| pol_name := "Answers are viewable by authenticated users";
     pol_for := SELECT; pol_to := Some [authenticated];
     pol_using := Some (λ _ _ _, sql_true); pol_with_check := None |}.

Definition answers_create : policy answer :=
  {| pol_name := "Responders and admins can create answers";
     pol_for := INSERT; pol_to := Some [authenticated];
     pol_using := None;
     pol_with_check := Some (λ rs uid row,
       sql_and (Some (is_admin_or_responder rs uid))
               (sql_eq uid (Some (a_author_id row)))) |}.

Definition answers_update : policy answer :=
  {| pol_name := "Authors and admins can update answers";
     pol_for := UPDATE; pol_to := Some [authenticated];
     pol_using := Some (λ rs uid row,
       sql_or (sql_eq uid (Some (a_author_id row)))
              (Some (has_role rs uid admin)));
     pol_with_check := None |}.

Definition answers_delete : policy answer :=
  {| pol_name := "Authors and admins can delete answers";
     pol_for := DELETE; pol_to := Some [authenticated];
     pol_using := Some (λ rs uid row,
       sql_or (sql_eq uid (Some (a_author_id row)))
              (Some (has_role rs uid admin)));
     pol_with_check := None |}.

(** unnamed migration "Allow anonymous users to insert questions" *)
Definition questions_create_anyone : policy question :=
  {| pol_name := "Anyone can create questions";
     pol_for := INSERT; pol_to := Some [anon; authenticated];
     pol_using := None; pol_with_check := Some (λ _ _ _, sql_true) |}.

(** 20260130115623 *)
Definition profiles_view_own : policy profile :=
  {| pol_name := "Users can view their own profile";
     pol_for := SELECT; pol_to := None;
     pol_using := Some (λ _ uid row, sql_eq uid (Some (p_user_id row)));
     pol_with_check := None |}.

Definition profiles_admin_view : policy profile :=
  {| pol_name := "Admins can view all profiles";
     pol_for := SELECT; pol_to := None;
     pol_using := Some (λ rs uid _, Some (has_role rs uid admin));
     pol_with_check := None |}.

(** unnamed migration "Fix 1 ... Fix 3" *)
Definition questions_create_v2 : policy question :=
  {| pol_name := "Authenticated users can create questions";
     pol_for := INSERT; pol_to := Some [authenticated];
     pol_using := None;
     pol_with_check := Some (λ _ uid row, sql_eq uid (q_author_id row)) |}.

(** unnamed migration "Fix Security Definer View warning" *)
Definition profiles_via_public_view : policy profile :=
  {| pol_name := "Authenticated users can view profiles via public view";
     pol_for := SELECT; pol_to := Some [authenticated];
     pol_using := Some (λ _ _ _, sql_true); pol_with_check := None |}.

(** 20260130122658 *)
Definition questions_create_v3 : policy question :=
  {| pol_name := "Authenticated users can create questions";
     pol_for := INSERT; pol_to := Some [authenticated];
     pol_using := None;
     pol_with_check := Some (λ _ uid row,
       sql_or (sql_and (sql_eq (Some (q_is_anonymous row)) (Some true))
                       (sql_is_null (q_author_id row)))
              (sql_and (sql_eq (Some (q_is_anonymous row)) (Some false))
                       (sql_eq uid (q_author_id row)))) |}.

End Rls.

(** * The migrations, and the statements the application issues under the
    policies they leave in force *)

Module Migrations.
Import Schema Js Rls.

Definition migration := catalog → option catalog.

(** The statements of a migration file run top to bottom; the first one
    that raises aborts the file. *)
Definition script (ms : list migration) : migration :=
  λ c, foldl (λ oc m, oc ≫= m) (Some c) ms.

Definition m_20260120151732 : migration :=
  script [
    on_profiles (create_policy profiles_viewable);
    on_profiles (create_policy profiles_update_own);
    on_profiles (create_policy profiles_insert_own);
    on_user_roles (create_policy roles_view_own);
    on_user_roles (create_policy roles_admin_manage);
    on_questions (create_policy questions_viewable);
    on_questions (create_policy questions_create_v1);
    on_questions (create_policy questions_admin_update);
    on_questions (create_policy questions_admin_delete);
    on_answers (create_policy answers_viewable);
    on_answers (create_policy answers_create);
    on_answers (create_policy answers_update);
    on_answers (create_policy answers_delete) ].

(** "Allow anonymous users to insert questions (no auth required)"; the
    second half of the file is about the departments table. *)
Definition m_anonymous_questions : migration :=
  script [
    on_questions (drop_policy_if_exists "Authenticated users can create questions");
    on_questions (create_policy questions_create_anyone) ].

Definition m_20260130115623 : migration :=
  script [
    on_profiles (drop_policy_if_exists "Profiles are viewable by authenticated users");
    on_profiles (create_policy profiles_view_own);
    on_profiles (create_policy profiles_admin_view);
    on_view (create_view {| security_invoker := true |}) ].

(** "Fix 1 ... Fix 2 ... Fix 3" (Fix 1 is about the votes table) *)
Definition m_fixes : migration :=
  script [
    on_view drop_view_if_exists;
    on_view (create_view {| security_invoker := false |});
    on_questions (drop_policy_if_exists "Anyone can create questions");
    on_questions (create_policy questions_create_v2) ].

(** "Fix Security Definer View warning by using security_invoker" *)
Definition m_security_invoker : migration :=
  script [
    on_view drop_view_if_exists;
    on_view (create_view {| security_invoker := true |});
    on_profiles (create_policy profiles_via_public_view) ].

Definition m_20260130122658 : migration :=
  script [
    on_questions (drop_policy_if_exists "Authenticated users can create questions");
    on_questions (create_policy questions_create_v3) ].

(** The order of application.  Three of the files carry no timestamp in
    the source tree; what they drop and create places them:
    [m_20260130115623] creates the view without dropping it first, so it
    precedes both files that re-create the view; [m_fixes] speaks of the
    view "with security_invoker=on" and turns it off, [m_security_invoker]
    answers the warning this causes; [m_fixes] can create "Authenticated
    users can create questions" only after [m_anonymous_questions] dropped
    it; and [m_20260130122658] relaxes the check that [m_fixes] installs
    ("allow null author_id ... while still requiring authentication"),
    which is also what the question form relies on when it sends
    [author_id: isAnonymous ? null : user.id].  The remaining two files of
    2026-01-30 (department_admins visibility, length constraints) install
    no policy on the four tables. *)
Definition history : list migration :=
  [ m_20260120151732; m_anonymous_questions; m_20260130115623;
    m_fixes; m_security_invoker; m_20260130122658 ].

Definition in_force : catalog :=
  default empty_catalog (script history empty_catalog).
Arguments in_force : simpl never.

(** ** Statements under the policies *)

Inductive pg_error :=
| rls_violation
| check_violation
| unique_violation
| foreign_key_violation.

Inductive result (A : Type) :=
| done_with (a : A)
| raised (e : pg_error).
Arguments done_with {A}.
Arguments raised {A}.

(** 20260130120332: questions_title_length, questions_content_length,
    answers_content_length; the status CHECK of the first migration (a
    CHECK passes on NULL).  char_length counts characters. *)
Definition questions_checks (row : question) : bool :=
  bool_decide (Z.of_nat (char_length (q_title row)) ≤ 500)%Z
  && bool_decide (Z.of_nat (char_length (q_content row)) ≤ 10000)%Z
  && match q_status row with
     | None => true
     | Some st => bool_decide (st ∈ ["open"; "answered"; "closed"])
     end.

Definition answers_checks (row : answer) : bool :=
  bool_decide (Z.of_nat (char_length (a_content row)) ≤ 10000)%Z.

(** INSERT INTO public.questions.  The policy is checked on the new row
    first, then the CHECK constraints, the primary key and the foreign
    key to departments (auth.users is outside the store modelled here). *)
Definition insert_question (c : catalog) (se : session) (id : uuid)
    (row : question) (s : db) : result db :=
  if negb (insert_permitted (cat_questions c) se (user_roles s) row)
  then raised rls_violation
  else if negb (questions_checks row) then raised check_violation
  else if bool_decide (is_Some (questions s !! id)) then raised unique_violation
  else match q_department_id row with
       | Some d =>
           if bool_decide (is_Some (departments s !! d))
           then done_with (set_questions (<[id := row]> (questions s)) s)
           else raised foreign_key_violation
       | None => done_with (set_questions (<[id := row]> (questions s)) s)
       end.

(** INSERT INTO public.answers *)
Definition insert_answer (c : catalog) (se : session) (id : uuid)
    (row : answer) (s : db) : result db :=
  if negb (insert_permitted (cat_answers c) se (user_roles s) row)
  then raised rls_violation
  else if negb (answers_checks row) then raised check_violation
  else if bool_decide (is_Some (answers s !! id)) then raised unique_violation
  else if bool_decide (is_Some (questions s !! a_question_id row))
  then done_with (set_answers (<[id := row]> (answers s)) s)
  else raised foreign_key_violation.

(** UPDATE public.questions SET status = st WHERE id = qid.  A row the
    policies do not let the caller update is skipped without an error. *)
Definition update_question_status (c : catalog) (se : session) (qid : uuid)
    (st : string) (s : db) : result db :=
  match questions s !! qid with
  | None => done_with s
  | Some q =>
      if update_permitted (cat_questions c) se (user_roles s) q then
        if questions_checks (set_status (Some st) q)
        then done_with (set_questions (<[qid := set_status (Some st) q]> (questions s)) s)
        else raised check_violation
      else done_with s
  end.

(** SELECT ... FROM public.user_roles WHERE cond *)
Definition select_user_roles (c : catalog) (se : session)
    (cond : user_role → bool) (s : db) : list user_role :=
  filter (λ r, cond r && visible (cat_user_roles c) se (user_roles s) r = true)
         (user_roles s).

(** DELETE FROM public.user_roles WHERE cond: the rows that are deleted
    are those the policies let the caller delete. *)
Definition delete_user_roles (c : catalog) (se : session)
    (cond : user_role → bool) (s : db) : db :=
  set_user_roles
    (filter (λ r, (cond r
                   && delete_permitted (cat_user_roles c) se (user_roles s) r)
                  = false)
            (user_roles s)) s.

(** SELECT * FROM public.profiles WHERE cond: whole rows, email included. *)
Definition select_profiles (c : catalog) (se : session)
    (cond : profile → bool) (s : db) : list profile :=
  filter (λ r, cond r && visible (cat_profiles c) se (user_roles s) r = true)
         (profiles s).

(** The columns of public.profiles_public. *)
Record profile_public := {
  pp_id : uuid;
  pp_user_id : uuid;
  pp_full_name : option string;
  pp_avatar_url : option string;
  pp_department_id : option uuid }.

Definition to_public (p : profile) : profile_public :=
  {| pp_id := p_id p; pp_user_id := p_user_id p;
     pp_full_name := p_full_name p; pp_avatar_url := p_avatar_url p;
     pp_department_id := p_department_id p |}.

(** SELECT ... FROM public.profiles_public WHERE cond.  With
    security_invoker the policies on profiles are evaluated for the
    caller; without it the view reads the table as its owner, past the
    policies.  [None]: the view does not exist. *)
Definition select_profiles_public (c : catalog) (se : session)
    (cond : profile_public → bool) (s : db) : option (list profile_public) :=
  v ← cat_profiles_public c;
  Some (filter (λ r, cond r = true)
          (to_public <$>
             (if security_invoker v
              then filter (λ r, visible (cat_profiles c) se (user_roles s) r = true)
                          (profiles s)
              else profiles s))).

(** The store after [INSERT INTO public.questions] of [row] under [id]. *)
Definition inserted (id : uuid) (row : question) (s : db) : db :=
  set_questions (<[id := row]> (questions s)) s.

(** Is the policy of the security_invoker file among those on profiles? *)
Definition profiles_left_open (c : catalog) : bool :=
  existsb (named "Authenticated users can view profiles via public view")
          (cat_profiles c).

End Migrations.

(** * The client: cached role flags, answer submission, role removal *)

Module Client.
Import Schema Js Rls Migrations.

(** ** src/hooks/useAuth.tsx: the state held by AuthProvider.  The profile
    record it also caches is not read by the handlers below. *)
Record auth := {
  user : option uuid;
  isAdmin : bool;
  isResponder : bool }.

(** The store sees a signed-in client as role authenticated with
    auth.uid() = user.id, and a client without a session as anon. *)
Definition session_of (st : auth) : session :=
  match user st with
  | Some u => {| sess_role := authenticated; sess_uid := Some u |}
  | None => {| sess_role := anon; sess_uid := None |}
  end.

(** fetchProfile(userId): select('role') from user_roles where user_id =
    userId, then setIsAdmin / setIsResponder from the roles returned. *)
Definition fetchProfile (c : catalog) (s : db) (userId : uuid) (st : auth)
    : auth :=
  let rolesData :=
    select_user_roles c (session_of st)
      (λ r, bool_decide (ur_user_id r = userId)) s in
  let roles := ur_role <$> rolesData in
  {| user := user st;
     isAdmin := bool_decide (admin ∈ roles);
     isResponder := bool_decide (responder ∈ roles)
                    || bool_decide (admin ∈ roles) |}.

(** onAuthStateChange / getSession with a session for [u]: setUser, then
    fetchProfile(session.user.id). *)
Definition signed_in (c : catalog) (s : db) (u : uuid) : auth :=
  fetchProfile c s u {| user := Some u; isAdmin := false; isResponder := false |}.

(** ** src/pages/QuestionDetail.tsx: handleSubmitAnswer.
    [id] is the route parameter, [newAnswer] the text area, [new_id] the
    key the store generates for the row (DEFAULT gen_random_uuid()).  The
    result is the store afterwards and the toast shown, if any.
    The answer form and its button are rendered under
    [isResponder && (...)] (lines 328-350): the handler is attached, and
    so can run, only while the cached flag is on, and it is that same
    flag which it sends as is_official. *)
Definition handleSubmitAnswer (c : catalog) (st : auth) (id : option uuid)
    (newAnswer : string) (new_id : uuid) (s : db) : db * option string :=
  if negb (isResponder st) then (s, None) else
  match user st, id with
  | Some u, Some qid =>
      if truthy (trim newAnswer) && truthy qid then
        match insert_answer c (session_of st) new_id
                {| a_question_id := qid; a_content := trim newAnswer;
                   a_author_id := u; a_is_official := isResponder st |} s with
        | raised _ => (s, Some "Failed to submit answer")
        | done_with s1 =>
            (* Update question status; its outcome is not inspected *)
            match update_question_status c (session_of st) qid "answered" s1 with
            | done_with s2 => (s2, Some "Answer posted successfully!")
            | raised _ => (s1, Some "Answer posted successfully!")
            end
        end
      else (s, None)
  | _, _ => (s, None)
  end.

(** The row that handleSubmitAnswer sends. *)
Definition submitted (st : auth) (u qid : uuid) (newAnswer : string) : answer :=
  {| a_question_id := qid; a_content := trim newAnswer; a_author_id := u;
     a_is_official := isResponder st |}.

(** ** src/pages/Admin.tsx: handleRemoveRole.  The role arrives as a string;
    the store raises on a string that is no label of app_role. *)
Definition parse_role (role : string) : option app_role :=
  if bool_decide (role = "admin") then Some admin
  else if bool_decide (role = "responder") then Some responder
  else if bool_decide (role = "employee") then Some employee
  else None.

Definition handleRemoveRole (c : catalog) (st : auth) (userId : uuid)
    (role : string) (s : db) : db * string :=
  if bool_decide (role = "employee") then (s, "Cannot remove employee role")
  else
    match parse_role role with
    | None => (s, "Failed to remove role")
    | Some r =>
        (delete_user_roles c (session_of st)
           (λ row, bool_decide (ur_user_id row = userId)
                   && bool_decide (ur_role row = r)) s,
         "Role removed successfully")
    end.

End Client.

(** * supabase/functions/notify-department-admins/index.ts *)

Module Notify.
Import Schema Js.

(** What a supabase-js query resolves to: { data, error }. *)
Record reply (A : Type) := {
  data : option A;
  error : option string }.
Arguments data {A}.
Arguments error {A}.

(** The authenticated user, of which the handler reads [user.id]. *)
Record User := { uid : uuid }.

Record QuestionPayload := {
  qp_id : string;
  qp_title : string;
  qp_content : string;
  qp_department_id : option string;
  qp_is_anonymous : bool;
  qp_author_id : option string }.

(** The parts of the request the handler looks at.  [json] is what
    [await req.json()] destructures to: [None] when it throws (no JSON, or
    JSON null), [Some None] when the object has no usable [question]. *)
Record Request := {
  method : string;
  authorization : option string;
  json : option (option QuestionPayload) }.

(** select("id, author_id, department_id, title, content, is_anonymous") *)
Record questionData := {
  qd_id : uuid;
  qd_author_id : option uuid;
  qd_department_id : option uuid;
  qd_title : string;
  qd_content : string;
  qd_is_anonymous : bool }.

(** select("user_id, email, full_name") and select("full_name, email") *)
Record adminProfile := {
  ap_user_id : uuid;
  ap_email : string;
  ap_full_name : option string }.

Record authorProfile := {
  au_full_name : option string;
  au_email : string }.

(** The message handed to resend.emails.send.  The html body is a fixed
    template; [html] keeps the five values interpolated into it. *)
Record html := {
  h_adminName : string;
  h_department : string;
  h_title : string;
  h_excerpt : string;
  h_authorName : string }.

Record email := {
  e_from : string;
  e_to : list string;
  e_subject : string;
  e_html : html }.

(** A send either resolves or throws. *)
Inductive outcome :=
| sent
| threw (message : string).

(** The collaborators of the handler: the auth service, the service-role
    client (which is not subject to the policies) and the mail transport,
    whose state [transport] is threaded through the sends. *)
Record Env := {
  transport : Type;
  getUser : string → option User * option string;
  questions_single : uuid → reply questionData;
  departments_single : uuid → reply string;
  department_admins_eq : uuid → reply (list uuid);
  profiles_in : list uuid → reply (list adminProfile);
  profiles_single : uuid → reply authorProfile;
  send : email → transport → outcome * transport }.

Record Response := {
  status : nat;
  body : option (list (string * string)) }.

Definition json_response (st : nat) (k v : string) : Response :=
  {| status := st; body := Some [(k, v)] |}.

(** content.substring(0, 300) followed by '...' when content.length is
    over 300 *)
Definition excerpt (content : string) : string :=
  substring_0 300 content
  +:+ (if bool_decide (300 < utf16_length content) then "..." else "").

Definition notification (department : string) (q : questionData)
    (authorName : string) (adm : adminProfile) : email :=
  {| e_from := "GetBlock Q&A <notifications@getblock.io>";
     e_to := [ap_email adm];
     e_subject := "New Question in " +:+ department +:+ " Department";
     e_html := {| h_adminName := or_else (ap_full_name adm) "Admin";
                  h_department := department;
                  h_title := qd_title q;
                  h_excerpt := excerpt (qd_content q);
                  h_authorName := authorName |} |}.

(** adminProfiles.map(async (admin) => { try { await send } catch { } }):
    every callback runs up to its send before the next one starts, and a
    send that throws is caught inside its own callback.  The result is the
    sequence of sends made, each with how it ended. *)
Fixpoint send_each (E : Env) (mk : adminProfile → email)
    (adminProfiles : list adminProfile) (t : transport E)
    : list (email * outcome) * transport E :=
  match adminProfiles with
  | [] => ([], t)
  | adm :: rest =>
      let '(o, t1) := send E (mk adm) t in
      let '(tr, t2) := send_each E mk rest t1 in
      ((mk adm, o) :: tr, t2)
  end.

(** { user_id, success } of each callback *)
Definition success (r : email * outcome) : bool :=
  match r.2 with sent => true | threw _ => false end.

(** What an invocation does: the response, the sends made, the transport
    afterwards. *)
Record Run (E : Env) := {
  response : Response;
  sends : list (email * outcome);
  after : transport E }.
Arguments response {E}.
Arguments sends {E}.
Arguments after {E}.

Definition reply_only (E : Env) (r : Response) (t : transport E) : Run E :=
  {| response := r; sends := []; after := t |}.

(** catch (error) { ... status: 500 } *)
Definition internal_error : Response :=
  json_response 500 "error" "Internal server error".

(** let authorName = "Anonymous"; if (!is_anonymous && author_id) { ... } *)
Definition author_name (E : Env) (validatedQuestion : questionData) : string :=
  if negb (qd_is_anonymous validatedQuestion)
     && truthy_opt (qd_author_id validatedQuestion)
  then
    match data (profiles_single E
                  (default "" (qd_author_id validatedQuestion))) with
    | Some authorProfile =>
        or_else (au_full_name authorProfile) (au_email authorProfile)
    | None => "Anonymous"
    end
  else "Anonymous".

(** { message: `Notifications sent to ${successCount}/${results.length} admins` } *)
Definition summary (successCount total : nat) : Response :=
  json_response 200 "message"
    ("Notifications sent to " +:+ pretty successCount +:+ "/"
     +:+ pretty total +:+ " admins").

(** The value of a top-level field of the JSON body, if the body has it. *)
Definition field (k : string) (r : Response) : option string :=
  b ← body r; (list_to_map b : gmap string string) !! k.

(** Lines 110-239: from "If no department assigned" to the summary. *)
Definition notify (E : Env) (validatedQuestion : questionData)
    (t : transport E) : Run E :=
  match qd_department_id validatedQuestion with
  | Some department_id =>
    if truthy department_id then
      match departments_single E department_id with
      | {| data := Some department; error := None |} =>
        match department_admins_eq E department_id with
        | {| data := departmentAdmins; error := None |} =>
          match departmentAdmins with
          | Some (a :: l) =>
            let adminUserIds := a :: l in
            match profiles_in E adminUserIds with
            | {| data := adminProfiles; error := None |} =>
              match adminProfiles with
              | Some (p :: ps) =>
                let authorName := author_name E validatedQuestion in
                let '(results, t') :=
                  send_each E (notification department validatedQuestion authorName)
                    (p :: ps) t in
                let successCount := length (filter (λ r, success r = true) results) in
                {| response := summary successCount (length results);
                   sends := results; after := t' |}
              | _ =>
                reply_only E (json_response 200 "message"
                                "No profiles for department admins") t
              end
            | _ => reply_only E internal_error t
            end
          | _ =>
            reply_only E (json_response 200 "message"
                            "No admins for this department") t
          end
        | _ => reply_only E internal_error t
        end
      | _ => reply_only E internal_error t
      end
    else reply_only E (json_response 200 "message"
                         "No department assigned, skipping") t
  | None => reply_only E (json_response 200 "message"
                            "No department assigned, skipping") t
  end.

(** Lines 22-108: CORS preflight, authentication, payload validation, the
    lookup of the question and the check that the caller is its author. *)
Definition handler (E : Env) (req : Request) (t : transport E) : Run E :=
  if bool_decide (method req = "OPTIONS")
  then reply_only E {| status := 200; body := None |} t
  else
    if negb (truthy_opt (authorization req))
    then reply_only E (json_response 401 "error" "Authorization required") t
    else
      match getUser E (default "" (authorization req)) with
      | (Some user, None) =>
        match json req with
        | None => reply_only E internal_error t
        | Some None =>
            reply_only E (json_response 400 "error" "Invalid request payload") t
        | Some (Some question) =>
          if negb (truthy (qp_id question))
          then reply_only E (json_response 400 "error" "Invalid request payload") t
          else
            match questions_single E (qp_id question) with
            | {| data := Some questionData; error := None |} =>
              if negb (bool_decide (qd_author_id questionData = Some (uid user)))
              then reply_only E
                     (json_response 403 "error"
                        "Unauthorized - not the question author") t
              else notify E questionData t
            | _ => reply_only E (json_response 404 "error" "Question not found") t
            end
        end
      | _ => reply_only E (json_response 401 "error" "Invalid authentication") t
      end.

(** ** Situations in which the function is invoked *)

(** An authenticated user [u] invokes the function for the stored question
    [Q] of id [qid]: a request that is no preflight, carries a token the
    auth service resolves to [u], and names [qid] in its payload. *)
Record invoked_for (E : Env) (req : Request) (u qid : uuid)
    (Q : questionData) : Prop := {
  inv_method : method req ≠ "OPTIONS";
  inv_header : truthy_opt (authorization req) = true;
  inv_user :
    getUser E (default "" (authorization req)) = (Some {| uid := u |}, None);
  inv_payload : ∃ question, json req = Some (Some question) ∧ qp_id question = qid;
  inv_id : truthy qid = true;
  inv_found : questions_single E qid = {| data := Some Q; error := None |} }.

(** The caller is the author, the question has a department, and the
    three lookups resolve: the department name, a non-empty list of admin
    ids, and the profiles [ps] of those admins. *)
Record reaches_send (E : Env) (req : Request) (u qid : uuid)
    (Q : questionData) (department : string) (ps : list adminProfile)
    : Prop := {
  rs_invoked : invoked_for E req u qid Q;
  rs_author : qd_author_id Q = Some u;
  rs_lookups : ∃ d ids,
    qd_department_id Q = Some d ∧ truthy d = true ∧
    departments_single E d = {| data := Some department; error := None |} ∧
    department_admins_eq E d = {| data := Some ids; error := None |} ∧
    ids ≠ [] ∧
    profiles_in E ids = {| data := Some ps; error := None |};
  rs_profiles : ps ≠ [] }.

(** ** The collaborators over a store: the service-role client reads the
    tables as they are. *)
Definition select_columns (id : uuid) (q : question) : questionData :=
  {| qd_id := id; qd_author_id := q_author_id q;
     qd_department_id := q_department_id q; qd_title := q_title q;
     qd_content := q_content q; qd_is_anonymous := q_is_anonymous q |}.

(** .single(): exactly one row, or an error. *)
Definition single {A} (rows : list A) : reply A :=
  match rows with
  | [r] => {| data := Some r; error := None |}
  | _ => {| data := None; error := Some "PGRST116" |}
  end.

Definition store_env (s : db) (tokens : gmap string uuid)
    (mail : email → outcome) : Env :=
  {| transport := unit;
     getUser := λ authHeader,
       match tokens !! authHeader with
       | Some u => (Some {| uid := u |}, None)
       | None => (None, Some "invalid JWT")
       end;
     questions_single := λ id,
       single (select_columns id <$> option_list (questions s !! id));
     departments_single := λ id,
       single (d_name <$> option_list (departments s !! id));
     department_admins_eq := λ id,
       {| data := Some (da_user_id <$>
                          filter (λ r, da_department_id r = id)
                                 (department_admins s));
          error := None |};
     profiles_in := λ ids,
       {| data := Some ((λ p, {| ap_user_id := p_user_id p;
                                 ap_email := p_email p;
                                 ap_full_name := p_full_name p |}) <$>
                          filter (λ p, p_user_id p ∈ ids) (profiles s));
          error := None |};
     profiles_single := λ id,
       single ((λ p, {| au_full_name := p_full_name p; au_email := p_email p |}) <$>
                 filter (λ p, p_user_id p = id) (profiles s));
     send := λ e _, (mail e, ()) |}.

End Notify.

(** * A small installation, used to run the definitions on concrete data *)

Module Demo.
Import Schema Votes Notify.

Definition person (u email : string) (name : option string) : profile :=
  {| p_id := "p-" +:+ u; p_user_id := u; p_email := email;
     p_full_name := name; p_avatar_url := None; p_department_id := None |}.

Definition role (u : uuid) (r : app_role) : user_role :=
  {| ur_user_id := u; ur_role := r |}.

Definition asked (title : string) (anonymous : bool) (author : option uuid)
    (dept : option uuid) : question :=
  {| q_title := title; q_content := "How do I get access to the build farm?";
     q_department_id := dept; q_is_anonymous := anonymous;
     q_author_id := author; q_status := Some "open";
     q_upvotes := 0; q_downvotes := 0 |}.

(** alice and bob are employees, root is an admin; carol and dave answer
    for Engineering.  q1 is alice's signed question, q2 an anonymous one. *)
Definition store : db :=
  {| departments :=
       {[ "d-eng" := {| d_name := "Engineering";
                        d_description := Some "Technical and development team" |} ]};
     profiles :=
       [ person "alice" "alice@example.org" (Some "Alice");
         person "bob" "bob@example.org" (Some "Bob");
         person "root" "root@example.org" None;
         person "carol" "carol@example.org" (Some "Carol");
         person "dave" "dave@example.org" None ];
     user_roles :=
       [ role "alice" employee; role "bob" employee;
         role "root" employee; role "root" admin;
         role "carol" employee; role "carol" responder;
         role "dave" employee; role "dave" responder ];
     questions :=
       {[ "q1" := asked "Build farm" false (Some "alice") (Some "d-eng");
          "q2" := asked "Salary bands" true None (Some "d-eng") ]};
     answers := ∅;
     votes := ∅;
     department_admins :=
       [ {| da_user_id := "carol"; da_department_id := "d-eng" |};
         {| da_user_id := "dave"; da_department_id := "d-eng" |} ] |}.

(** The same installation after an admin has made bob a responder. *)
Definition store_bob_responder : db :=
  set_user_roles (user_roles store ++ [role "bob" responder]) store.

(** Bearer tokens the auth service knows, a transport on which dave's
    mailbox bounces, and the function's collaborators over [store]. *)
Definition tokens : gmap string uuid :=
  {[ "Bearer t-alice" := "alice"; "Bearer t-bob" := "bob";
     "Bearer t-carol" := "carol" ]}.

Definition mail (e : email) : outcome :=
  if bool_decide (e_to e = ["dave@example.org"])
  then threw "mailbox unavailable" else sent.

Definition env : Env := store_env store tokens mail.

(** supabase.functions.invoke('notify-department-admins', { body: { question } }) *)
Definition invoke (token qid : string) : Request :=
  {| method := "POST"; authorization := Some token;
     json := Some (Some {| qp_id := qid; qp_title := ""; qp_content := "";
                           qp_department_id := None; qp_is_anonymous := false;
                           qp_author_id := None |}) |}.

Definition carol_profile : adminProfile :=
  {| ap_user_id := "carol"; ap_email := "carol@example.org";
     ap_full_name := Some "Carol" |}.

Definition dave_profile : adminProfile :=
  {| ap_user_id := "dave"; ap_email := "dave@example.org";
     ap_full_name := None |}.

(** A poll on two questions, for the vote ledger. *)

Definition topic (title : string) : question :=
  {| q_title := title; q_content := "body"; q_department_id := None;
     q_is_anonymous := true; q_author_id := None; q_status := Some "open";
     q_upvotes := 0; q_downvotes := 0 |}.

Definition poll : db :=
  {| departments := ∅; profiles := []; user_roles := [];
     questions := {[ "q1" := topic "first"; "q2" := topic "second" ]};
     answers := ∅; votes := ∅; department_admins := [] |}.

Definition ballot (qid uid t : string) : vote :=
  {| v_question_id := qid; v_user_id := uid; v_vote_type := t |}.

(** alice and bob vote q1 up, carol votes it down, bob changes his mind,
    a duplicate (q1, alice) and a vote of a third kind are refused, alice
    withdraws. *)
Definition evening : list statement :=
  [ Insert "v1" (ballot "q1" "alice" "up");
    Insert "v2" (ballot "q1" "bob" "up");
    Insert "v3" (ballot "q1" "carol" "down");
    Update "v2" (ballot "q1" "bob" "down");
    Insert "v4" (ballot "q1" "alice" "down");
    Insert "v5" (ballot "q2" "alice" "sideways");
    Delete "v1" ].

Definition poll_one_up : db := run [Insert "v1" (ballot "q1" "alice" "up")] poll.

End Demo.

(** * More of the notification function: its quiet and failing outcomes,
    and the earlier variant of the handler *)

Module NotifyCases.
Import Schema Js Notify.

(** The statuses the function answers with besides 200. *)
Definition error_statuses : list nat := [400; 401; 403; 404; 500].

(** The three situations in which the author's request is answered 200
    without anybody being written to, each with the message returned. *)
Inductive nobody_to_notify (E : Env) (Q : questionData) : string → Prop :=
| no_department :
    truthy_opt (qd_department_id Q) = false →
    nobody_to_notify E Q "No department assigned, skipping"
| no_admins d department ids :
    qd_department_id Q = Some d → truthy d = true →
    departments_single E d = {| data := Some department; error := None |} →
    department_admins_eq E d = {| data := ids; error := None |} →
    default [] ids = [] →
    nobody_to_notify E Q "No admins for this department"
| no_profiles d department ids ps :
    qd_department_id Q = Some d → truthy d = true →
    departments_single E d = {| data := Some department; error := None |} →
    department_admins_eq E d = {| data := Some ids; error := None |} →
    ids ≠ [] →
    profiles_in E ids = {| data := ps; error := None |} →
    default [] ps = [] →
    nobody_to_notify E Q "No profiles for department admins".

(** One of the three lookups comes back with an error (or, for the
    department, with neither a row nor an error). *)
Inductive lookup_fails (E : Env) (Q : questionData) : Prop :=
| department_fails d :
    qd_department_id Q = Some d → truthy d = true →
    (is_Some (error (departments_single E d))
     ∨ data (departments_single E d) = None) →
    lookup_fails E Q
| admins_fail d department :
    qd_department_id Q = Some d → truthy d = true →
    departments_single E d = {| data := Some department; error := None |} →
    is_Some (error (department_admins_eq E d)) →
    lookup_fails E Q
| profiles_fail d department ids :
    qd_department_id Q = Some d → truthy d = true →
    departments_single E d = {| data := Some department; error := None |} →
    department_admins_eq E d = {| data := Some ids; error := None |} →
    ids ≠ [] →
    is_Some (error (profiles_in E ids)) →
    lookup_fails E Q.

End NotifyCases.

(** ** The earlier variant of index.ts (no caller verification, the
    question taken from the request body) *)

Module NotifyUnverified.
Import Schema Js Notify.

(** The text of a 500 response, and of a failed result row, is
    [error.message]: the message of an Error thrown by the handler or by
    the transport, or whatever the runtime puts in the TypeError it
    raises. *)
Inductive error_text :=
| thrown (message : string)
| runtime_message.

(** { email, success, error? } of each callback; the transport's own
    return value, which the row also carries on success, is not kept. *)
Record result_row := {
  r_email : string;
  r_success : bool;
  r_error : option error_text }.

Inductive reply_body :=
| no_body
| skipped (message : string)
| notified (message : string) (results : list result_row)
| failed (error : error_text).

Record Run0 (E : Env) := {
  status0 : nat;
  body0 : reply_body;
  sends0 : list (email * outcome);
  after0 : transport E }.
Arguments status0 {E}.
Arguments body0 {E}.
Arguments sends0 {E}.
Arguments after0 {E}.

Definition quiet (E : Env) (st : nat) (b : reply_body) (t : transport E) : Run0 E :=
  {| status0 := st; body0 := b; sends0 := []; after0 := t |}.

(** A value as JSON.parse builds it.  A number is held as the text
    ToString gives for it (both zeros give "0"); an object as its members
    in the order of the text. *)
#[warnings="-register-all"]
Inductive json_value :=
| j_null
| j_boolean (b : bool)
| j_number (text : string)
| j_string (s : string)
| j_array (elements : list json_value)
| j_object (members : list (string * json_value)).

(** The request: the handler reads the method and the body, and never
    the Authorization header.  [raw_body] is [None] when req.json()
    rejects. *)
Record RawRequest := {
  raw_method : string;
  raw_authorization : option string;
  raw_body : option json_value }.

(** Of two members of one name JSON.parse keeps the last. *)
Fixpoint own (k : string) (members : list (string * json_value))
    : option json_value :=
  match members with
  | [] => None
  | (k', v) :: rest =>
      match own k rest with
      | Some w => Some w
      | None => if String.eqb k' k then Some v else None
      end
  end.

(** [v.k] for a value [v] other than null, and for the names the handler
    reads (question, id, title, content, department_id, is_anonymous,
    author_id), none of which a prototype holds: [None] is undefined. *)
Definition property (k : string) (v : json_value) : option json_value :=
  match v with
  | j_object members => own k members
  | _ => None
  end.

(** ToString, as a template literal and the query builder's eq() apply
    it *)
Fixpoint to_string (v : json_value) : string :=
  match v with
  | j_null => "null"
  | j_boolean b => if b then "true" else "false"
  | j_number text => text
  | j_string s => s
  | j_array elements =>
      (fix join (l : list json_value) : string :=
         match l with
         | [] => ""
         | x :: l' =>
             let sx := match x with j_null => "" | _ => to_string x end in
             match l' with
             | [] => sx
             | _ => sx +:+ "," +:+ join l'
             end
         end) elements
  | j_object _ => "[object Object]"
  end.

Definition truthy_value (v : json_value) : bool :=
  match v with
  | j_null => false
  | j_boolean b => b
  | j_number text => negb (String.eqb text "0")
  | j_string s => truthy s
  | j_array _ | j_object _ => true
  end.

Definition truthy_member (x : option json_value) : bool :=
  from_option truthy_value false x.

Definition interpolated (x : option json_value) : string :=
  from_option to_string "undefined" x.

(** Lines 102-114 *)
Definition author_name_of (E : Env) (question : json_value) : string :=
  if negb (truthy_member (property "is_anonymous" question))
     && truthy_member (property "author_id" question)
  then
    match data (profiles_single E
                  (interpolated (property "author_id" question))) with
    | Some authorProfile =>
        or_else (au_full_name authorProfile) (au_email authorProfile)
    | None => "Anonymous"
    end
  else "Anonymous".

(** Lines 124-147: the argument of resend.emails.send, for a question
    whose [content] is a string. *)
Definition email_for (department title content authorName : string)
    (adm : adminProfile) : email :=
  {| e_from := "GetBlock Q&A <notifications@getblock.io>";
     e_to := [ap_email adm];
     e_subject := "New Question in " +:+ department +:+ " Department";
     e_html := {| h_adminName := or_else (ap_full_name adm) "Admin";
                  h_department := department;
                  h_title := title;
                  h_excerpt := excerpt content;
                  h_authorName := authorName |} |}.

(** A callback whose template literal throws (question.content is no
    string, so that it has no substring to call) returns from its catch
    before any send. *)
Definition thrown_before_send (adm : adminProfile) : result_row :=
  {| r_email := ap_email adm; r_success := false;
     r_error := Some runtime_message |}.

Definition result_of (r : email * outcome) : result_row :=
  {| r_email := default "" (head (e_to r.1));
     r_success := success r;
     r_error := match r.2 with
                | sent => None
                | threw m => Some (thrown m)
                end |}.

(** Lines 38-168, for the value [question] the body was destructured
    to. *)
Definition notify_unvalidated (E : Env) (question : json_value)
    (t : transport E) : Run0 E :=
  if negb (truthy_member (property "department_id" question))
  then quiet E 200 (skipped "No department assigned, skipping") t
  else
    let department_id := interpolated (property "department_id" question) in
    match departments_single E department_id with
    | {| data := _; error := Some _ |} =>
        quiet E 500 (failed (thrown "Failed to fetch department")) t
    | {| data := None; error := None |} =>
        quiet E 500 (failed runtime_message) t
    | {| data := Some department; error := None |} =>
      match department_admins_eq E department_id with
      | {| data := _; error := Some _ |} =>
          quiet E 500 (failed (thrown "Failed to fetch department admins")) t
      | {| data := Some (a :: l); error := None |} =>
        match profiles_in E (a :: l) with
        | {| data := _; error := Some _ |} =>
            quiet E 500 (failed (thrown "Failed to fetch admin profiles")) t
        | {| data := Some (p :: ps); error := None |} =>
          let authorName := author_name_of E question in
          match property "content" question with
          | Some (j_string content) =>
            let '(results, t') :=
              send_each E
                (email_for department (interpolated (property "title" question))
                   content authorName)
                (p :: ps) t in
            {| status0 := 200;
               body0 := notified
                 ("Notifications sent to "
                  +:+ pretty (length (filter (λ r, success r = true) results))
                  +:+ "/" +:+ pretty (length results) +:+ " admins")
                 (result_of <$> results);
               sends0 := results; after0 := t' |}
          | _ =>
            {| status0 := 200;
               body0 := notified
                 ("Notifications sent to " +:+ pretty 0
                  +:+ "/" +:+ pretty (length (p :: ps)) +:+ " admins")
                 (thrown_before_send <$> p :: ps);
               sends0 := []; after0 := t |}
          end
        | _ => quiet E 200 (skipped "No profiles for department admins") t
        end
      | _ => quiet E 200 (skipped "No admins for this department") t
      end
    end.

(** Lines 22-36 and 170-176.  Destructuring null throws, and so does
    reading a member of a [question] that is undefined or null. *)
Definition handler_unvalidated (E : Env) (req : RawRequest) (t : transport E)
    : Run0 E :=
  if bool_decide (raw_method req = "OPTIONS") then quiet E 200 no_body t
  else
    match raw_body req with
    | None | Some j_null => quiet E 500 (failed runtime_message) t
    | Some body =>
      match property "question" body with
      | None | Some j_null => quiet E 500 (failed runtime_message) t
      | Some question => notify_unvalidated E question t
      end
    end.

(** ** Requests whose body has the declared shape *)

Definition nullable (x : option string) : json_value :=
  match x with
  | Some a => j_string a
  | None => j_null
  end.

Definition unvalidated (question : QuestionPayload) : json_value :=
  j_object
    [("id", j_string (qp_id question));
     ("title", j_string (qp_title question));
     ("content", j_string (qp_content question));
     ("department_id", nullable (qp_department_id question));
     ("is_anonymous", j_boolean (qp_is_anonymous question));
     ("author_id", nullable (qp_author_id question))].

Definition raw (req : Request) : RawRequest :=
  {| raw_method := method req;
     raw_authorization := authorization req;
     raw_body := match json req with
                 | Some (Some question) =>
                     Some (j_object [("question", unvalidated question)])
                 | Some None => Some (j_object [])
                 | None => None
                 end |}.

(** The payload read as the record the mail is built from. *)
Definition as_data (question : QuestionPayload) : questionData :=
  {| qd_id := qp_id question; qd_author_id := qp_author_id question;
     qd_department_id := qp_department_id question;
     qd_title := qp_title question; qd_content := qp_content question;
     qd_is_anonymous := qp_is_anonymous question |}.

Definition handler_unverified (E : Env) (req : Request) (t : transport E)
    : Run0 E :=
  handler_unvalidated E (raw req) t.

(** A lookup that comes back with an error, and the text of the Error
    the earlier variant throws for it. *)
Inductive lookup_error (E : Env) (d : string) : string → Prop :=
| department_error :
    is_Some (error (departments_single E d)) →
    lookup_error E d "Failed to fetch department"
| admins_error department :
    departments_single E d = {| data := Some department; error := None |} →
    is_Some (error (department_admins_eq E d)) →
    lookup_error E d "Failed to fetch department admins"
| profiles_error department ids :
    departments_single E d = {| data := Some department; error := None |} →
    department_admins_eq E d = {| data := Some ids; error := None |} →
    ids ≠ [] →
    is_Some (error (profiles_in E ids)) →
    lookup_error E d "Failed to fetch admin profiles".

End NotifyUnverified.

(** ** More of the installation: questions whose notification has nobody
    to go to, and collaborators that fail *)

Module DemoMore.
Import Schema Notify Demo NotifyUnverified.

(** q3 has no department; q4 is addressed to Operations, which has no
    admin; q5 to Legal, whose only admin erin has no profile row. *)
Definition store_more : db :=
  {| departments :=
       <[ "d-ops" := {| d_name := "Operations"; d_description := None |} ]>
       (<[ "d-legal" := {| d_name := "Legal"; d_description := None |} ]>
        (departments store));
     profiles := profiles store;
     user_roles := user_roles store;
     questions :=
       <[ "q3" := asked "Parking" false (Some "alice") None ]>
       (<[ "q4" := asked "Laptops" false (Some "alice") (Some "d-ops") ]>
        (<[ "q5" := asked "Contracts" false (Some "alice") (Some "d-legal") ]>
         (questions store)));
     answers := answers store;
     votes := votes store;
     department_admins :=
       {| da_user_id := "erin"; da_department_id := "d-legal" |}
       :: department_admins store |}.

Definition env_more : Env := store_env store_more tokens mail.

(** The collaborators of [env] with the departments query failing. *)
Definition env_down : Env :=
  {| transport := transport env;
     getUser := getUser env;
     questions_single := questions_single env;
     departments_single := λ _, {| data := None; error := Some "57P01" |};
     department_admins_eq := department_admins_eq env;
     profiles_in := profiles_in env;
     profiles_single := profiles_single env;
     send := send env |}.

(** A request to the earlier variant: no Authorization header, and a
    payload written by the sender; the same without a text. *)
Definition forged_question : json_value :=
  j_object
    [("title", j_string "Password reset required");
     ("content", j_string "Open the link below.");
     ("department_id", j_string "d-eng");
     ("author_id", j_string "root")].

Definition forged : RawRequest :=
  {| raw_method := "POST"; raw_authorization := None;
     raw_body := Some (j_object [("question", forged_question)]) |}.

Definition forged_without_text : RawRequest :=
  {| raw_method := "POST"; raw_authorization := None;
     raw_body := Some (j_object
       [("question",
         j_object [("title", j_string "Password reset required");
                   ("department_id", j_string "d-eng")])]) |}.

(** The request the question form makes for alice's q1. *)
Definition alice_q1 : QuestionPayload :=
  {| qp_id := "q1"; qp_title := "Build farm";
     qp_content := "How do I get access to the build farm?";
     qp_department_id := Some "d-eng"; qp_is_anonymous := false;
     qp_author_id := Some "alice" |}.

Definition alice_invokes : Request :=
  {| method := "POST"; authorization := Some "Bearer t-alice";
     json := Some (Some alice_q1) |}.

End DemoMore.

(** * Access to the vote ledger: the policies on public.votes, the
    statements the client issues under them, and the vote buttons *)

Module VotesAccess.
Import Schema Js Rls Migrations Votes Client Notify.

(** 20260120151732: votes *)
Definition votes_view_all : policy vote :=
  {| pol_name := "Users can view all votes";
     pol_for := SELECT; pol_to := Some [authenticated];
     pol_using := Some (λ _ _ _, sql_true); pol_with_check := None |}.

Definition votes_insert_own : policy vote :=
  {| pol_name := "Users can manage their own votes";
     pol_for := INSERT; pol_to := Some [authenticated];
     pol_using := None;
     pol_with_check := Some (λ _ uid row, sql_eq uid (Some (v_user_id row))) |}.

Definition votes_update_own : policy vote :=
  {| pol_name := "Users can update their own votes";
     pol_for := UPDATE; pol_to := Some [authenticated];
     pol_using := Some (λ _ uid row, sql_eq uid (Some (v_user_id row)));
     pol_with_check := None |}.

Definition votes_delete_own : policy vote :=
  {| pol_name := "Users can delete their own votes";
     pol_for := DELETE; pol_to := Some [authenticated];
     pol_using := Some (λ _ uid row, sql_eq uid (Some (v_user_id row)));
     pol_with_check := None |}.

(** unnamed migration "Fix 1 ... Fix 3", Fix 1 *)
Definition votes_view_own : policy vote :=
  {| pol_name := "Users can view their own votes";
     pol_for := SELECT; pol_to := Some [authenticated];
     pol_using := Some (λ _ uid row, sql_eq uid (Some (v_user_id row)));
     pol_with_check := None |}.

(** The statements on public.votes of the two migration files that have
    any, in the order of [history]. *)
Definition votes_20260120151732
    : list (list (policy vote) → option (list (policy vote))) :=
  [ create_policy votes_view_all;
    create_policy votes_insert_own;
    create_policy votes_update_own;
    create_policy votes_delete_own ].

Definition votes_fixes
    : list (list (policy vote) → option (list (policy vote))) :=
  [ drop_policy_if_exists "Users can view all votes";
    create_policy votes_view_own ].

Definition votes_in_force : list (policy vote) :=
  default [] (foldl (λ o m, o ≫= m) (Some [])
                (votes_20260120151732 ++ votes_fixes)).

(** The new row of an UPDATE is checked against the UPDATE policies
    (their USING, as none gives WITH CHECK) and, the statement having a
    WHERE clause, against the SELECT policies. *)
Definition update_check_permitted {R} (ps : list (policy R)) (se : session)
    (rs : list user_role) (row : R) : bool :=
  existsb (λ p, applies p UPDATE (sess_role se)
                && check_passes p rs (sess_uid se) row) ps
  && visible ps se rs row.

(** The rows a WHERE clause selects, with their keys. *)
Definition rows_where (cond : vote → bool) (vs : gmap uuid vote)
    : list (uuid * vote) :=
  map_to_list (filter (λ kv : uuid * vote, cond kv.2 = true) vs).

(** The row-level steps of one statement: all of them, or none. *)
Definition atomically (sts : list statement) (s : db) : option db :=
  foldl (λ o st, o ≫= step st) (Some s) sts.

(** INSERT INTO public.votes, without RETURNING. *)
Definition insert_vote_as (se : session) (id : uuid) (NEW : vote) (s : db)
    : option db :=
  if insert_permitted votes_in_force se (user_roles s) NEW
  then insert_vote id NEW s
  else None.

(** DELETE FROM public.votes WHERE cond: the rows the policies let the
    caller delete, the trigger fired for each. *)
Definition delete_votes_as (se : session) (cond : vote → bool) (s : db)
    : option db :=
  atomically
    ((λ kv, Delete kv.1) <$>
       rows_where (λ v, cond v
                        && delete_permitted votes_in_force se (user_roles s) v)
                  (votes s))
    s.

(** UPDATE public.votes SET ... WHERE cond, [set] giving the new row. *)
Definition update_votes_as (se : session) (cond : vote → bool)
    (set : vote → vote) (s : db) : option db :=
  let rows :=
    rows_where (λ v, cond v
                     && update_permitted votes_in_force se (user_roles s) v)
               (votes s) in
  if forallb (λ kv, update_check_permitted votes_in_force se (user_roles s)
                      (set kv.2)) rows
  then atomically ((λ kv, Update kv.1 (set kv.2)) <$> rows) s
  else None.

(** ** VoteButtons: handleVote(voteType).  [userVote] is the prop handed
    down by the page, [isVoting] the component's flag, [new_id] the key
    the store generates for a new row.  The reply of the store is not
    inspected, so a statement that raised leaves the store as it was and
    shows nothing; the toast of the catch block needs a call that throws
    (a request that does not get through), which is not modelled. *)
Definition handleVote (st : auth) (isVoting : bool) (questionId : uuid)
    (userVote : option string) (voteType : string) (new_id : uuid) (s : db)
    : db * option string :=
  if isVoting then (s, None)
  else
    match user st with
    | None => (s, Some "Please sign in to vote")
    | Some u =>
        let mine v := bool_decide (v_question_id v = questionId)
                      && bool_decide (v_user_id v = u) in
        if bool_decide (userVote = Some voteType)
        then (default s (delete_votes_as (session_of st) mine s), None)
        else if truthy_opt userVote
        then (default s (update_votes_as (session_of st) mine
                           (with_type voteType) s), None)
        else (default s (insert_vote_as (session_of st) new_id
                           {| v_question_id := questionId; v_user_id := u;
                              v_vote_type := voteType |} s), None)
    end.

(** QuestionDetail.fetchQuestion, "Fetch user vote" (reached once the
    question itself was found):
    select('vote_type').eq('question_id', id).eq('user_id', user.id)
    .single(), then [voteData?.vote_type]. *)
Definition fetchUserVote (st : auth) (id : uuid) (s : db) : option string :=
  match user st with
  | None => None
  | Some u =>
      data (single
              ((λ kv : uuid * vote, v_vote_type kv.2) <$>
                 rows_where
                   (λ v, bool_decide (v_question_id v = id)
                         && bool_decide (v_user_id v = u)
                         && visible votes_in_force (session_of st)
                              (user_roles s) v)
                   (votes s)))
  end.

(** The row belongs to the user of the session. *)
Definition own (se : session) (v : vote) : Prop :=
  sess_role se = authenticated ∧ sess_uid se = Some (v_user_id v).

(** Between [s] and [s'], the rows that are not the session's own are
    the same: none changed, none gone, none new. *)
Definition others_kept (se : session) (s s' : db) : Prop :=
  ∀ id v, ¬ own se v → (votes s' !! id = Some v ↔ votes s !! id = Some v).

(** The steps of a DELETE or UPDATE that addresses own rows of [s0] only
    and writes own rows only. *)
Definition on_own_rows (se : session) (s0 : db) (st : statement) : Prop :=
  match st with
  | Insert _ _ => False
  | Update id NEW => (∃ v, votes s0 !! id = Some v ∧ own se v) ∧ own se NEW
  | Delete id => ∃ v, votes s0 !! id = Some v ∧ own se v
  end.

End VotesAccess.

(** * Sign-up, role management, question moderation and the question form *)

Module Accounts.
Import Schema Js Rls Migrations Client.

(** The columns of auth.users that handle_new_user reads;
    raw_user_meta_data by the three keys it looks up ([None]: the key is
    absent or null). *)
Record auth_user := {
  nu_id : uuid;
  nu_email : option string;
  meta_full_name : option string;
  meta_name : option string;
  meta_avatar_url : option string }.

Definition coalesce {A} (a b : option A) : option A :=
  match a with Some _ => a | None => b end.

Definition set_profiles (ps : list profile) (s : db) : db :=
  {| departments := departments s; profiles := ps;
     user_roles := user_roles s; questions := questions s;
     answers := answers s; votes := votes s;
     department_admins := department_admins s |}.

(** public.handle_new_user(), AFTER INSERT ON auth.users.  SECURITY
    DEFINER: no policy applies to its two INSERTs.  [None]: one of them
    raised (email NOT NULL, the keys of profiles, UNIQUE (user_id, role)),
    which aborts the INSERT on auth.users with it.  [profile_id] is the
    key generated for the profile. *)
Definition handle_new_user (NEW : auth_user) (profile_id : uuid) (s : db)
    : option db :=
  email ← nu_email NEW;
  if existsb (λ p, bool_decide (p_id p = profile_id)
                   || bool_decide (p_user_id p = nu_id NEW)) (profiles s)
  then None
  else if bool_decide ({| ur_user_id := nu_id NEW; ur_role := employee |}
                       ∈ user_roles s)
  then None
  else
    Some (set_user_roles
            (user_roles s ++ [{| ur_user_id := nu_id NEW; ur_role := employee |}])
            (set_profiles
               (profiles s ++
                  [{| p_id := profile_id; p_user_id := nu_id NEW;
                      p_email := email;
                      p_full_name := coalesce (meta_full_name NEW) (meta_name NEW);
                      p_avatar_url := meta_avatar_url NEW;
                      p_department_id := None |}])
               s)).

(** The session is that of a signed-in user who holds the admin role. *)
Definition is_admin (se : session) (rs : list user_role) : bool :=
  bool_decide (sess_role se = authenticated) && has_role rs (sess_uid se) admin.

(** INSERT INTO public.user_roles (user_id, role), without RETURNING: the
    policy on the new row, then UNIQUE (user_id, role), then the foreign
    key to auth.users, whose ids are [users] (the table is not part of
    the store held here). *)
Definition insert_user_role (c : catalog) (users : gset uuid) (se : session)
    (row : user_role) (s : db) : result db :=
  if negb (insert_permitted (cat_user_roles c) se (user_roles s) row)
  then raised rls_violation
  else if bool_decide (row ∈ user_roles s) then raised unique_violation
  else if bool_decide (ur_user_id row ∈ users)
  then done_with (set_user_roles (user_roles s ++ [row]) s)
  else raised foreign_key_violation.

(** ** src/pages/Admin.tsx: handleAddRole.  A string that is no label of
    app_role is refused by the store before anything else. *)
Definition handleAddRole (c : catalog) (users : gset uuid) (st : auth)
    (userId : uuid) (role : string) (s : db) : db * string :=
  match parse_role role with
  | None => (s, "Failed to add role")
  | Some r =>
      match insert_user_role c users (session_of st)
              {| ur_user_id := userId; ur_role := r |} s with
      | done_with s' => (s', "Role added successfully")
      | raised unique_violation => (s, "User already has this role")
      | raised _ => (s, "Failed to add role")
      end
  end.

(** ** src/components/admin/UserManagement.tsx: handleToggleAdmin and
    handleToggleResponder.  [currentRoles] is the list shown for the
    user, as fetched by the component. *)
Definition handleToggleAdmin (c : catalog) (users : gset uuid) (st : auth)
    (userId : uuid) (currentRoles : list string) (s : db) : db * string :=
  if bool_decide ("admin" ∈ currentRoles) then
    (delete_user_roles c (session_of st)
       (λ row, bool_decide (ur_user_id row = userId)
               && bool_decide (ur_role row = admin)) s,
     "Admin role removed")
  else
    match insert_user_role c users (session_of st)
            {| ur_user_id := userId; ur_role := admin |} s with
    | done_with s' => (s', "Admin role added")
    | raised unique_violation => (s, "User already has admin role")
    | raised _ => (s, "Failed to add admin role")
    end.

Definition handleToggleResponder (c : catalog) (users : gset uuid) (st : auth)
    (userId : uuid) (currentRoles : list string) (s : db) : db * string :=
  if bool_decide ("responder" ∈ currentRoles) then
    (delete_user_roles c (session_of st)
       (λ row, bool_decide (ur_user_id row = userId)
               && bool_decide (ur_role row = responder)) s,
     "Responder role removed")
  else
    match insert_user_role c users (session_of st)
            {| ur_user_id := userId; ur_role := responder |} s with
    | done_with s' => (s', "Responder role added")
    | raised unique_violation => (s, "User already has responder role")
    | raised _ => (s, "Failed to add responder role")
    end.

(** The label of a role, as the store returns it to the client. *)
Definition role_label (r : app_role) : string :=
  match r with
  | admin => "admin"
  | responder => "responder"
  | employee => "employee"
  end.

(** fetchUsers, for one user: the labels of the role rows the caller may
    see, ['employee'] when there is none. *)
Definition fetched_roles_of (c : catalog) (st : auth) (userId : uuid) (s : db)
    : list string :=
  match role_label ∘ ur_role <$>
          filter (λ r, ur_user_id r = userId)
                 (select_user_roles c (session_of st) (λ _, true) s) with
  | [] => ["employee"]
  | l => l
  end.

(** ** src/pages/Admin.tsx: handleUpdateQuestionStatus *)
Definition handleUpdateQuestionStatus (c : catalog) (st : auth) (id : uuid)
    (status : string) (s : db) : db * string :=
  match update_question_status c (session_of st) id status s with
  | done_with s' => (s', "Status updated")
  | raised _ => (s, "Failed to update status")
  end.

(** DELETE FROM public.questions WHERE id = qid.  A row the policies do
    not let the caller delete is skipped without an error.  The answers
    and votes that reference the question go with it (ON DELETE CASCADE;
    so do the comments on those answers, a table the store modelled here
    does not hold); the vote trigger fired for those rows finds no
    question left to update. *)
Definition delete_question (c : catalog) (se : session) (qid : uuid) (s : db)
    : db :=
  match questions s !! qid with
  | None => s
  | Some q =>
      if delete_permitted (cat_questions c) se (user_roles s) q then
        {| departments := departments s; profiles := profiles s;
           user_roles := user_roles s;
           questions := delete qid (questions s);
           answers := filter (λ kv : uuid * answer, a_question_id kv.2 ≠ qid)
                             (answers s);
           votes := filter (λ kv : uuid * vote, v_question_id kv.2 ≠ qid)
                           (votes s);
           department_admins := department_admins s |}
      else s
  end.

(** ** src/pages/Admin.tsx: handleDeleteQuestion *)
Definition handleDeleteQuestion (c : catalog) (st : auth) (id : uuid) (s : db)
    : db * string :=
  (delete_question c (session_of st) id s, "Question deleted").

End Accounts.

(** * The question form *)

Module AskQuestion.
Import Schema Js Rls Migrations Client Notify.

(** The row the form sends, completed by the column defaults
    (status 'open', upvotes 0, downvotes 0). *)
Definition form_row (u : uuid) (title content departmentId : string)
    (isAnonymous : bool) : question :=
  {| q_title := trim title; q_content := trim content;
     q_department_id := if truthy departmentId then Some departmentId else None;
     q_is_anonymous := isAnonymous;
     q_author_id := if isAnonymous then None else Some u;
     q_status := Some "open"; q_upvotes := 0; q_downvotes := 0 |}.

(** body: { question: data } *)
Definition payload_of (id : uuid) (row : question) : QuestionPayload :=
  {| qp_id := id; qp_title := q_title row; qp_content := q_content row;
     qp_department_id := q_department_id row;
     qp_is_anonymous := q_is_anonymous row; qp_author_id := q_author_id row |}.

Record submission := {
  store_after : db;
  toast : option string;
  invoked : option Request }.

(** handleSubmit.  [authHeader] is the Authorization header the client
    library puts on the function call, [new_id] the key generated for
    the row.  insert(...).select().single() returns the new row, so the
    SELECT policies apply to it too. *)
Definition handleSubmit (c : catalog) (st : auth) (authHeader : string)
    (title content departmentId : string) (isAnonymous : bool)
    (new_id : uuid) (s : db) : submission :=
  match user st with
  | None => {| store_after := s; toast := None; invoked := None |}
  | Some u =>
      if negb (truthy (trim title)) || negb (truthy (trim content)) then
        {| store_after := s;
           toast := Some "Please fill in all required fields";
           invoked := None |}
      else
        let row := form_row u title content departmentId isAnonymous in
        match insert_question c (session_of st) new_id row s with
        | done_with s' =>
            if visible (cat_questions c) (session_of st) (user_roles s') row
            then
              {| store_after := s';
                 toast := Some "Question submitted successfully!";
                 invoked :=
                   if truthy_opt (q_department_id row)
                   then Some {| method := "POST";
                                authorization := Some authHeader;
                                json := Some (Some (payload_of new_id row)) |}
                   else None |}
            else
              {| store_after := s; toast := Some "Failed to submit question";
                 invoked := None |}
        | raised _ =>
            {| store_after := s; toast := Some "Failed to submit question";
               invoked := None |}
        end
  end.

(** The policies [ps] let the session do nothing at all on the table. *)
Definition no_access {R} (ps : list (policy R)) (se : session)
    (rs : list user_role) : Prop :=
  ∀ row,
    visible ps se rs row = false ∧ insert_permitted ps se rs row = false
    ∧ update_permitted ps se rs row = false
    ∧ delete_permitted ps se rs row = false.

End AskQuestion.

(** ** More of the installation: a sign-up, and a poll with an admin *)

Module DemoAccounts.
Import Schema Votes Client Accounts Demo.

Definition erin : auth_user :=
  {| nu_id := "erin"; nu_email := Some "erin@example.org";
     meta_full_name := None; meta_name := Some "Erin";
     meta_avatar_url := None |}.

(** [store] after erin has signed up. *)
Definition store_with_erin : db :=
  set_user_roles (user_roles store ++ [role "erin" employee])
    (set_profiles
       (profiles store ++ [person "erin" "erin@example.org" (Some "Erin")])
       store).

(** The ids of auth.users: everybody who has a profile in [store]. *)
Definition accounts : gset uuid :=
  {[ "alice"; "bob"; "root"; "carol"; "dave" ]}.

Definition root_session : auth :=
  {| user := Some "root"; isAdmin := true; isResponder := true |}.

Definition signed_out : auth :=
  {| user := None; isAdmin := false; isResponder := false |}.

(** The poll after alice's vote, with root as its admin. *)
Definition poll_with_admin : db :=
  set_user_roles [role "root" admin] poll_one_up.

End DemoAccounts.

(** * The policies on the remaining tables: departments, comments and
    department_admins *)

Module OtherTables.
Import Schema Rls.

(** A row of public.comments (the table itself is not part of the store
    held in [db]). *)
Record comment := {
  c_answer_id : uuid;
  c_content : string;
  c_author_id : option uuid;
  c_is_anonymous : bool }.

(** 20260120151732: departments *)
Definition departments_viewable : policy department :=
  {| pol_name := "Departments are viewable by authenticated users";
     pol_for := SELECT; pol_to := Some [authenticated];
     pol_using := Some (λ _ _ _, sql_true); pol_with_check := None |}.

Definition departments_admin_manage : policy department :=
  {| pol_name := "Admins can manage departments";
     pol_for := ALL; pol_to := Some [authenticated];
     pol_using := Some (λ rs uid _, Some (has_role rs uid admin));
     pol_with_check := None |}.

(** unnamed migration "Allow anonymous users to insert questions", its
    second half *)
Definition departments_viewable_by_everyone : policy department :=
  {| pol_name := "Departments are viewable by everyone";
     pol_for := SELECT; pol_to := Some [anon; authenticated];
     pol_using := Some (λ _ _ _, sql_true); pol_with_check := None |}.

(** 20260120151732: comments *)
Definition comments_viewable : policy comment :=
  {| pol_name := "Comments are viewable by authenticated users";
     pol_for := SELECT; pol_to := Some [authenticated];
     pol_using := Some (λ _ _ _, sql_true); pol_with_check := None |}.

Definition comments_create : policy comment :=
  {| pol_name := "Authenticated users can create comments";
     pol_for := INSERT; pol_to := Some [authenticated];
     pol_using := None;
     pol_with_check := Some (λ _ uid row,
       sql_or (sql_eq uid (c_author_id row))
              (sql_is_null (c_author_id row))) |}.

Definition comments_admin_delete : policy comment :=
  {| pol_name := "Admins can delete comments";
     pol_for := DELETE; pol_to := Some [authenticated];
     pol_using := Some (λ rs uid _, Some (has_role rs uid admin));
     pol_with_check := None |}.

(** unnamed migration "Create department_admins table": neither policy
    names a role *)
Definition department_admins_viewable : policy department_admin :=
  {| pol_name := "Department admins are viewable by authenticated users";
     pol_for := SELECT; pol_to := None;
     pol_using := Some (λ _ _ _, sql_true); pol_with_check := None |}.

Definition department_admins_manage : policy department_admin :=
  {| pol_name := "Admins can manage department admins";
     pol_for := ALL; pol_to := None;
     pol_using := Some (λ rs uid _, Some (has_role rs uid admin));
     pol_with_check := None |}.

(** 20260130115202 *)
Definition department_admins_admin_view : policy department_admin :=
  {| pol_name := "Only admins can view department admins";
     pol_for := SELECT; pol_to := None;
     pol_using := Some (λ rs uid _, Some (has_role rs uid admin));
     pol_with_check := None |}.

(** The statements of the migration files on each of the three tables,
    file by file in the order of application.  20260130115202 drops a
    policy of department_admins and creates another on it, so it runs
    after the file that creates the table. *)
Definition statements (R : Type) : Type :=
  list (list (policy R) → option (list (policy R))).

Definition run {R} (files : list (statements R)) : list (policy R) :=
  default [] (foldl (λ o m, o ≫= m) (Some []) (concat files)).

Definition departments_20260120151732 : statements department :=
  [ create_policy departments_viewable;
    create_policy departments_admin_manage ].

Definition departments_anonymous_questions : statements department :=
  [ drop_policy_if_exists "Departments are viewable by authenticated users";
    create_policy departments_viewable_by_everyone ].

Definition comments_20260120151732 : statements comment :=
  [ create_policy comments_viewable;
    create_policy comments_create;
    create_policy comments_admin_delete ].

Definition department_admins_created : statements department_admin :=
  [ create_policy department_admins_viewable;
    create_policy department_admins_manage ].

Definition department_admins_20260130115202 : statements department_admin :=
  [ drop_policy_if_exists
      "Department admins are viewable by authenticated users";
    create_policy department_admins_admin_view ].

Definition departments_in_force : list (policy department) :=
  run [departments_20260120151732; departments_anonymous_questions].

Definition comments_in_force : list (policy comment) :=
  run [comments_20260120151732].

Definition department_admins_in_force : list (policy department_admin) :=
  run [department_admins_created; department_admins_20260130115202].

(** The policies [ps] let the session read every row of the table, and
    do nothing else on it. *)
Definition read_only {R} (ps : list (policy R)) (se : session)
    (rs : list user_role) : Prop :=
  ∀ row,
    visible ps se rs row = true ∧ insert_permitted ps se rs row = false
    ∧ update_permitted ps se rs row = false
    ∧ delete_permitted ps se rs row = false.

End OtherTables.

(** * JavaScript helpers on concrete strings *)

Module JsFacts.
Import Js.

Example trim_both_ends : trim "  Ask the platform team. " = "Ask the platform team.".
Proof. reflexivity. Qed.

Example trim_tab_and_newline :
  trim (String (Ascii.ascii_of_nat 9) "a b" +:+ String (Ascii.ascii_of_nat 10) "")
  = "a b".
Proof. reflexivity. Qed.

(** U+00A0 before the text and U+3000 after it. *)
Example trim_no_break_space :
  trim (String (Ascii.ascii_of_nat 194) (String (Ascii.ascii_of_nat 160) "a b")
        +:+ String (Ascii.ascii_of_nat 227)
              (String (Ascii.ascii_of_nat 128)
                 (String (Ascii.ascii_of_nat 128) "")))
  = "a b".
Proof. reflexivity. Qed.

Lemma trim_start_spaces s : forallb is_space (String.list_ascii_of_string s) = true →
  trim_start s = "".
Proof.
  unfold trim_start.
  induction s as [|a s IH]; [done|]. cbn [String.list_ascii_of_string forallb strip].
  intros [Ha Hs]%andb_true_iff. rewrite Ha. by apply IH.
Qed.

(** A text of whitespace only is blank: the submit handlers return early. *)
Lemma blank_is_falsy s :
  forallb is_space (String.list_ascii_of_string s) = true → truthy (trim s) = false.
Proof. intros H. unfold trim. by rewrite trim_start_spaces. Qed.

Example or_else_empty_name : or_else (Some "") "Admin" = "Admin".
Proof. reflexivity. Qed.

End JsFacts.

(** * Properties of the vote ledger *)

Module VotesFacts.
Import Schema Votes Demo.

Lemma shifted_refl q : shifted 0 0 q q.
Proof.
  destruct q; unfold shifted, set_downvotes, set_upvotes; simpl.
  by rewrite !Z.add_0_r.
Qed.

Lemma shifted_trans a b c d q1 q2 q3 :
  shifted a b q1 q2 → shifted c d q2 q3 → shifted (a + c) (b + d) q1 q3.
Proof.
  unfold shifted. intros -> ->. destruct q1; simpl.
  unfold set_downvotes, set_upvotes; simpl. f_equal; lia.
Qed.

Lemma rows_shifted_refl qs : rows_shifted (λ _, 0%Z) (λ _, 0%Z) qs qs.
Proof.
  intros k. destruct (qs !! k); constructor. apply shifted_refl.
Qed.

Lemma rows_shifted_trans a b c d qs1 qs2 qs3 :
  rows_shifted a b qs1 qs2 → rows_shifted c d qs2 qs3 →
  rows_shifted (λ k, a k + c k)%Z (λ k, b k + d k)%Z qs1 qs3.
Proof.
  intros H1 H2 k. specialize (H1 k). specialize (H2 k).
  destruct H1 as [q1 q2 H1|]; inversion H2; subst; constructor.
  eapply shifted_trans; eauto.
Qed.

(** UPDATE ... SET counter = counter + d WHERE id = qid, for either
    counter: the addressed row is shifted, the others are kept. *)
Ltac counter_update_shift H :=
  let k := fresh "k" in
  let q := fresh "q" in
  let Hq := fresh "Hq" in
  intros k;
  match type of H with
  | match ?qs !! ?qid with _ => _ end = _ =>
      destruct (qs !! qid) as [q|] eqn:Hq;
      [ destruct (int4_range _); [|done]; injection H as <-;
        unfold at_key; case_bool_decide;
        [ subst k; rewrite Hq, lookup_insert_eq; constructor;
          destruct q; unfold shifted, set_downvotes, set_upvotes; simpl;
          by rewrite Z.add_0_r
        | rewrite lookup_insert_ne by done;
          destruct (qs !! k); constructor; apply shifted_refl ]
      | injection H as <-; unfold at_key; case_bool_decide;
        [ subst k; rewrite Hq; constructor
        | destruct (qs !! k); constructor; apply shifted_refl ] ]
  end.

Lemma add_upvotes_shift d qid qs qs' :
  add_upvotes d qid qs = Some qs' →
  rows_shifted (at_key qid d) (λ _, 0%Z) qs qs'.
Proof. unfold add_upvotes. intros H. counter_update_shift H. Qed.

Lemma add_downvotes_shift d qid qs qs' :
  add_downvotes d qid qs = Some qs' →
  rows_shifted (λ _, 0%Z) (at_key qid d) qs qs'.
Proof. unfold add_downvotes. intros H. counter_update_shift H. Qed.

Lemma count_votes_insert t k id v (vs : gmap uuid vote) :
  count_votes t k (<[id := v]> vs)
  = count_votes t k (delete id vs) + ind t k v.
Proof.
  unfold count_votes, ind.
  rewrite <-(insert_delete_eq vs), map_filter_insert. simpl.
  destruct (decide _) as [Hp|Hp].
  - rewrite map_size_insert_None; [lia|].
    apply map_lookup_filter_None. left. apply lookup_delete_eq.
  - rewrite delete_delete_eq. lia.
Qed.

Lemma count_votes_delete t k id v (vs : gmap uuid vote) :
  vs !! id = Some v →
  count_votes t k vs = count_votes t k (delete id vs) + ind t k v.
Proof.
  intros Hv. rewrite <-count_votes_insert. by rewrite insert_id.
Qed.

Lemma count_votes_empty t k : count_votes t k ∅ = 0.
Proof. unfold count_votes. by rewrite map_filter_empty, map_size_empty. Qed.

(** ** The trigger, as a shift of counters *)

Lemma rows_shifted_ext a b a' b' qs qs' :
  (∀ k, a k = a' k) → (∀ k, b k = b' k) →
  rows_shifted a b qs qs' → rows_shifted a' b' qs qs'.
Proof. intros Ha Hb H k. rewrite <-Ha, <-Hb. apply H. Qed.

Lemma zind_up k v :
  zind "up" k v
  = if bool_decide (v_vote_type v = "up")
    then at_key (v_question_id v) 1 k else 0%Z.
Proof.
  unfold zind, ind, at_key.
  destruct (decide (v_question_id v = k ∧ v_vote_type v = "up")) as [[? ?]|Hn].
  - by rewrite !bool_decide_eq_true_2.
  - case_bool_decide; [|done]. rewrite bool_decide_eq_false_2; naive_solver.
Qed.

Lemma zind_down k v :
  vote_type_check v = true →
  zind "down" k v
  = if bool_decide (v_vote_type v = "up")
    then 0%Z else at_key (v_question_id v) 1 k.
Proof.
  unfold vote_type_check, zind, ind, at_key. intros Hc.
  case_bool_decide as Hup.
  - rewrite decide_False; [done|]. rewrite Hup. by intros [_ ?].
  - simpl in Hc. apply bool_decide_eq_true in Hc.
    destruct (decide (v_question_id v = k ∧ v_vote_type v = "down"))
      as [[? ?]|Hn].
    + by rewrite bool_decide_eq_true_2.
    + rewrite bool_decide_eq_false_2; naive_solver.
Qed.

(** One IF ... ELSE ... END IF of the trigger body, adding [d] to the
    counter named by the row's vote type. *)
Lemma counter_branch_shift d v qs qs' :
  vote_type_check v = true →
  (if bool_decide (v_vote_type v = "up")
   then add_upvotes d (v_question_id v) qs
   else add_downvotes d (v_question_id v) qs) = Some qs' →
  rows_shifted (λ k, d * zind "up" k v)%Z (λ k, d * zind "down" k v)%Z qs qs'.
Proof.
  intros Hc H.
  assert (Hu := λ k, zind_up k v). assert (Hd := λ k, zind_down k v Hc).
  destruct (bool_decide (v_vote_type v = "up")).
  - apply add_upvotes_shift in H.
    eapply rows_shifted_ext; [| |exact H]; intros k;
      rewrite ?Hu, ?Hd; unfold at_key; try case_bool_decide; lia.
  - apply add_downvotes_shift in H.
    eapply rows_shifted_ext; [| |exact H]; intros k;
      rewrite ?Hu, ?Hd; unfold at_key; try case_bool_decide; lia.
Qed.

Lemma update_question_votes_shift ev qs qs' :
  event_checked ev = true →
  update_question_votes ev qs = Some qs' →
  rows_shifted (delta "up" ev) (delta "down" ev) qs qs'.
Proof.
  destruct ev as [NEW|OLD|OLD NEW]; simpl; intros Hc H.
  - apply counter_branch_shift in H; [|done].
    eapply rows_shifted_ext; [| |exact H]; intros k; simpl; lia.
  - apply counter_branch_shift in H; [|done].
    eapply rows_shifted_ext; [| |exact H]; intros k; simpl; lia.
  - apply andb_true_iff in Hc as [Ho Hn].
    apply bind_Some in H as (qs1 & H1 & H2).
    apply counter_branch_shift in H1; [|done].
    apply counter_branch_shift in H2; [|done].
    eapply rows_shifted_ext;
      [| |exact (rows_shifted_trans _ _ _ _ _ _ _ H1 H2)];
      intros k; simpl; lia.
Qed.

Lemma rows_shifted_is_Some a b qs qs' k :
  rows_shifted a b qs qs' → is_Some (qs !! k) ↔ is_Some (qs' !! k).
Proof.
  intros H. specialize (H k). inversion H; split; intros [? ?]; eauto; done.
Qed.

(** ** The table constraints as an invariant of the store *)

Lemma ledger_wf_spec s : ledger_wf s = true ↔ wf s.
Proof.
  unfold ledger_wf, wf. rewrite bool_decide_eq_true.
  by rewrite map_Forall_lookup.
Qed.

Lemma pair_free_spec id v (vs : gmap uuid vote) :
  pair_free id v vs = true ↔
  ∀ id' w, vs !! id' = Some w → id' = id ∨ same_pair v w = false.
Proof.
  unfold pair_free. rewrite bool_decide_eq_true.
  by rewrite map_Forall_lookup.
Qed.

Lemma same_pair_sym v w : same_pair v w = same_pair w v.
Proof.
  unfold same_pair. f_equal; apply bool_decide_ext; split; congruence.
Qed.

Lemma vote_constraints_spec id v s :
  vote_constraints id v s = true ↔
  vote_type_check v = true ∧ is_Some (questions s !! v_question_id v) ∧
  ∀ id' w, votes s !! id' = Some w → id' = id ∨ same_pair v w = false.
Proof.
  unfold vote_constraints.
  rewrite !andb_true_iff, bool_decide_eq_true, pair_free_spec. tauto.
Qed.

Lemma wf_write id NEW qs' s :
  wf s → vote_constraints id NEW s = true →
  (∀ k, is_Some (questions s !! k) → is_Some (qs' !! k)) →
  wf (set_questions qs' (set_votes (<[id := NEW]> (votes s)) s)).
Proof.
  intros Hwf HN Hdom id1 v1. simpl.
  apply vote_constraints_spec in HN as (HNc & HNq & HNp).
  intros Hv1. apply vote_constraints_spec. simpl.
  apply lookup_insert_Some in Hv1 as [[<- <-]|[Hne Hv1]].
  - split_and!; [done|by apply Hdom|].
    intros id' w Hw. apply lookup_insert_Some in Hw as [[? ?]|[? Hw]]; eauto.
  - pose proof (Hwf _ _ Hv1) as H1.
    apply vote_constraints_spec in H1 as (H1c & H1q & H1p).
    split_and!; [done|by apply Hdom|].
    intros id' w Hw. apply lookup_insert_Some in Hw as [[<- <-]|[? Hw]]; eauto.
    destruct (HNp _ _ Hv1) as [?|Hs]; [done|].
    right. by rewrite same_pair_sym.
Qed.

Lemma wf_delete id qs' s :
  wf s →
  (∀ k, is_Some (questions s !! k) → is_Some (qs' !! k)) →
  wf (set_questions qs' (set_votes (delete id (votes s)) s)).
Proof.
  intros Hwf Hdom id1 v1. simpl. intros Hv1.
  apply lookup_delete_Some in Hv1 as [Hne Hv1].
  pose proof (Hwf _ _ Hv1) as H1.
  apply vote_constraints_spec in H1 as (H1c & H1q & H1p).
  apply vote_constraints_spec. simpl. split_and!; [done|by apply Hdom|].
  intros id' w Hw. apply lookup_delete_Some in Hw as [? Hw]. eauto.
Qed.

(** Counters and ledger move together. *)
Lemma counters_shift du dd s s' :
  counters_match s →
  rows_shifted du dd (questions s) (questions s') →
  (∀ k, Z.of_nat (count_votes "up" k (votes s'))
        = (Z.of_nat (count_votes "up" k (votes s)) + du k)%Z) →
  (∀ k, Z.of_nat (count_votes "down" k (votes s'))
        = (Z.of_nat (count_votes "down" k (votes s)) + dd k)%Z) →
  counters_match s'.
Proof.
  intros Hm Hsh Hu Hd k q' Hq'.
  specialize (Hsh k). rewrite Hq' in Hsh.
  inversion Hsh as [q ? Hs Hq|]; subst.
  symmetry in Hq. destruct (Hm _ _ Hq) as [Hmu Hmd].
  rewrite Hu, Hd, <-Hmu, <-Hmd. by rewrite Hs.
Qed.

Lemma count_after_write t k id NEW (vs : gmap uuid vote) :
  Z.of_nat (count_votes t k (<[id := NEW]> vs))
  = (Z.of_nat (count_votes t k vs)
     + match vs !! id with
       | Some OLD => - zind t k OLD + zind t k NEW
       | None => zind t k NEW
       end)%Z.
Proof.
  rewrite count_votes_insert. unfold zind.
  destruct (vs !! id) as [OLD|] eqn:Hid.
  - rewrite (count_votes_delete t k id OLD vs) by done. lia.
  - rewrite delete_id by done. lia.
Qed.

Lemma count_after_delete t k id OLD (vs : gmap uuid vote) :
  vs !! id = Some OLD →
  Z.of_nat (count_votes t k (delete id vs))
  = (Z.of_nat (count_votes t k vs) + - zind t k OLD)%Z.
Proof.
  intros Hid. rewrite (count_votes_delete t k id OLD vs) by done.
  unfold zind. lia.
Qed.

(** The type CHECK of a row that satisfies the table constraints. *)
Ltac type_checked H :=
  let H' := fresh in
  pose proof H as H'; apply vote_constraints_spec in H' as (H' & _ & _).

(** A statement that goes through either changes nothing or fires the
    trigger once, on an event whose rows carry a valid vote type; the
    counters are shifted by the event's deltas and so are the counts. *)
Lemma step_fires st s s' :
  step st s = Some s' → wf s →
  s' = s ∨
  ∃ ev, event_checked ev = true ∧
        rows_shifted (delta "up" ev) (delta "down" ev)
          (questions s) (questions s') ∧
        (∀ t k, Z.of_nat (count_votes t k (votes s'))
                = (Z.of_nat (count_votes t k (votes s)) + delta t ev k)%Z) ∧
        wf s'.
Proof.
  intros Hstep Hwf. destruct st as [id NEW|id NEW|id]; simpl in Hstep.
  - unfold insert_vote in Hstep.
    destruct (votes s !! id) as [|] eqn:Hid; [done|].
    destruct (vote_constraints id NEW s) eqn:Hc; [|done].
    apply bind_Some in Hstep as (qs & Htr & [= <-]).
    type_checked Hc. right. exists (TG_INSERT NEW).
    apply update_question_votes_shift in Htr; [|done].
    split_and!; [done|done| |].
    + intros t k. cbn [votes set_questions set_votes].
      by rewrite count_after_write, Hid.
    + apply wf_write; [done..|].
      intros k. by apply (rows_shifted_is_Some _ _ _ _ k) in Htr as [? _].
  - unfold update_vote in Hstep.
    destruct (votes s !! id) as [OLD|] eqn:Hid; [|left; by injection Hstep].
    destruct (vote_constraints id NEW s) eqn:Hc; [|done].
    apply bind_Some in Hstep as (qs & Htr & [= <-]).
    type_checked Hc. type_checked (Hwf _ _ Hid). right.
    exists (TG_UPDATE OLD NEW).
    assert (event_checked (TG_UPDATE OLD NEW) = true) as Hev
      by (by apply andb_true_iff).
    apply update_question_votes_shift in Htr; [|done].
    split_and!; [done|done| |].
    + intros t k. cbn [votes set_questions set_votes].
      by rewrite count_after_write, Hid.
    + apply wf_write; [done..|].
      intros k. by apply (rows_shifted_is_Some _ _ _ _ k) in Htr as [? _].
  - unfold delete_vote in Hstep.
    destruct (votes s !! id) as [OLD|] eqn:Hid; [|left; by injection Hstep].
    apply bind_Some in Hstep as (qs & Htr & [= <-]).
    type_checked (Hwf _ _ Hid). right. exists (TG_DELETE OLD).
    apply update_question_votes_shift in Htr; [|done].
    split_and!; [done|done| |].
    + intros t k. cbn [votes set_questions set_votes].
      by rewrite (count_after_delete _ _ _ OLD).
    + apply wf_delete; [done|].
      intros k. by apply (rows_shifted_is_Some _ _ _ _ k) in Htr as [? _].
Qed.

(** Every statement keeps both invariants, and the set of questions. *)
Lemma step_preserves st s s' :
  step st s = Some s' →
  counters_match s → wf s → counters_match s' ∧ wf s'.
Proof.
  intros Hstep Hm Hwf.
  destruct (step_fires st s s' Hstep Hwf) as [->|(ev & _ & Hsh & Hcnt & Hwf')];
    [done|].
  split; [|done]. eapply counters_shift; eauto.
Qed.

Lemma step_questions_dom st s s' k :
  step st s = Some s' → wf s →
  is_Some (questions s !! k) ↔ is_Some (questions s' !! k).
Proof.
  intros Hstep Hwf.
  destruct (step_fires st s s' Hstep Hwf) as [->|(ev & _ & Hsh & _)]; [done|].
  by eapply rows_shifted_is_Some.
Qed.

Lemma exec_preserves st s :
  counters_match s → wf s → counters_match (exec s st) ∧ wf (exec s st).
Proof.
  intros Hm Hwf. unfold exec.
  destruct (step st s) as [s'|] eqn:Hs; simpl; [|done].
  by eapply step_preserves.
Qed.

Lemma run_preserves sts s :
  counters_match s → wf s → counters_match (run sts s) ∧ wf (run sts s).
Proof.
  unfold run. revert s. induction sts as [|st sts IH]; intros s Hm Hwf.
  - done.
  - simpl. destruct (exec_preserves st s Hm Hwf). by apply IH.
Qed.

Lemma fresh_spec s :
  fresh s = true ↔
  votes s = ∅ ∧
  ∀ k q, questions s !! k = Some q → q_upvotes q = 0%Z ∧ q_downvotes q = 0%Z.
Proof.
  unfold fresh. rewrite andb_true_iff, !bool_decide_eq_true.
  by rewrite map_Forall_lookup.
Qed.

Lemma fresh_invariants s : fresh s = true → counters_match s ∧ wf s.
Proof.
  intros [Hv Hq]%fresh_spec. split.
  - intros k q Hk. rewrite Hv, !count_votes_empty. exact (Hq k q Hk).
  - intros id v. by rewrite Hv, lookup_empty.
Qed.

(** The statements never add or drop a question. *)
Lemma run_questions_dom sts s k :
  wf s → counters_match s →
  is_Some (questions s !! k) ↔ is_Some (questions (run sts s) !! k).
Proof.
  unfold run. revert s. induction sts as [|st sts IH]; intros s Hwf Hm; [done|].
  simpl. destruct (exec_preserves st s Hm Hwf) as [Hm' Hwf'].
  rewrite <-(IH _ Hwf' Hm'). unfold exec.
  destruct (step st s) as [s'|] eqn:Hs; simpl; [|done].
  by eapply step_questions_dom.
Qed.

Example evening_counters :
  (λ q, (q_upvotes q, q_downvotes q)) <$> questions (run evening poll) !! "q1"
  = Some (0%Z, 2%Z)
  ∧ (λ q, (q_upvotes q, q_downvotes q)) <$> questions (run evening poll) !! "q2"
  = Some (0%Z, 0%Z)
  ∧ count_votes "up" "q1" (votes (run evening poll)) = 0
  ∧ count_votes "down" "q1" (votes (run evening poll)) = 2.
Proof. vm_compute. done. Qed.

(** C1: from a store with zero counters and an empty ledger, after any
    sequence of inserts, updates and deletes on the vote ledger (a
    statement that raises is rolled back), every question is still there
    and its upvotes counter is the number of ledger rows of type 'up' for
    it, its downvotes counter the number of rows of type 'down'. *)
Theorem counters_equal_ledger_counts (s : db) (sts : list statement)
    (qid : uuid) :
  fresh s = true →
  is_Some (questions s !! qid) →
  ∃ q, questions (run sts s) !! qid = Some q ∧
       q_upvotes q = Z.of_nat (count_votes "up" qid (votes (run sts s))) ∧
       q_downvotes q = Z.of_nat (count_votes "down" qid (votes (run sts s))).
Proof.
  intros [Hm Hwf]%fresh_invariants Hq.
  apply (run_questions_dom sts s qid Hwf Hm) in Hq as [q Hq].
  exists q. split; [done|].
  by apply (run_preserves sts s Hm Hwf).
Qed.

Lemma counters_equal_ledger_counts_witness :
  ∃ q, questions (run evening poll) !! "q1" = Some q ∧
       q_upvotes q
       = Z.of_nat (count_votes "up" "q1" (votes (run evening poll))) ∧
       q_downvotes q
       = Z.of_nat (count_votes "down" "q1" (votes (run evening poll))).
Proof.
  apply (counters_equal_ledger_counts poll evening "q1").
  - vm_compute. reflexivity.
  - vm_compute. eauto.
Defined.

Lemma retype_constraints id OLD t s :
  vote_constraints id OLD s = true →
  vote_type_check (with_type t OLD) = true →
  vote_constraints id (with_type t OLD) s = true.
Proof.
  intros (_ & Hq & Hp)%vote_constraints_spec Ht.
  apply vote_constraints_spec. split_and!; done.
Qed.

(** C2: changing an existing 'up' row to 'down' is one statement whose
    whole effect on the counters is upvotes - 1 and downvotes + 1 on the
    row's question; the statement goes through whenever both results fit
    the INTEGER columns.  The store before and the store after are the
    only two states of the transition: in the one after, the counters are
    neither both lower nor both higher than before. *)
Theorem up_to_down_delta (s : db) (id : uuid) (OLD : vote) (q : question) :
  ledger_wf s = true →
  votes s !! id = Some OLD →
  v_vote_type OLD = "up" →
  questions s !! v_question_id OLD = Some q →
  int4_range (q_upvotes q - 1) = true →
  int4_range (q_downvotes q + 1) = true →
  ∃ s' q',
    step (Update id (with_type "down" OLD)) s = Some s' ∧
    exec s (Update id (with_type "down" OLD)) = s' ∧
    votes s' = <[id := with_type "down" OLD]> (votes s) ∧
    questions s' !! v_question_id OLD = Some q' ∧
    q' = set_downvotes (q_downvotes q + 1) (set_upvotes (q_upvotes q - 1) q) ∧
    q_upvotes q' = (q_upvotes q - 1)%Z ∧
    q_downvotes q' = (q_downvotes q + 1)%Z ∧
    ¬ (q_upvotes q' < q_upvotes q ∧ q_downvotes q' < q_downvotes q)%Z ∧
    ¬ (q_upvotes q' > q_upvotes q ∧ q_downvotes q' > q_downvotes q)%Z ∧
    ∀ k, k ≠ v_question_id OLD → questions s' !! k = questions s !! k.
Proof.
  intros Hwf%ledger_wf_spec Hid Hup Hq Hru Hrd.
  pose proof (retype_constraints id OLD "down" s (Hwf _ _ Hid) eq_refl) as Hc.
  set (q1 := set_upvotes (q_upvotes q - 1) q).
  set (q2 := set_downvotes (q_downvotes q + 1) q1).
  assert (Htr : update_question_votes (TG_UPDATE OLD (with_type "down" OLD))
                  (questions s)
                = Some (<[v_question_id OLD := q2]>
                          (<[v_question_id OLD := q1]> (questions s)))).
  { simpl. rewrite Hup. simpl.
    unfold add_upvotes. rewrite Hq.
    change (q_upvotes q + -1)%Z with (q_upvotes q - 1)%Z. rewrite Hru. simpl.
    unfold add_downvotes. rewrite lookup_insert_eq.
    change (q_downvotes (set_upvotes (q_upvotes q - 1) q))
      with (q_downvotes q).
    by rewrite Hrd. }
  assert (Hstep : step (Update id (with_type "down" OLD)) s
                  = Some (set_questions
                            (<[v_question_id OLD := q2]>
                               (<[v_question_id OLD := q1]> (questions s)))
                            (set_votes (<[id := with_type "down" OLD]> (votes s)) s))).
  { simpl. unfold update_vote. rewrite Hid, Hc, Htr. done. }
  eexists _, q2. split; [exact Hstep|]. split_and!.
  - unfold exec. by rewrite Hstep.
  - done.
  - simpl. by rewrite lookup_insert_eq.
  - done.
  - done.
  - done.
  - simpl. lia.
  - simpl. lia.
  - intros k Hk. simpl. by rewrite !lookup_insert_ne.
Qed.

Lemma up_to_down_delta_witness :
  ∃ s' q',
    step (Update "v1" (with_type "down" (ballot "q1" "alice" "up"))) poll_one_up
    = Some s' ∧
    exec poll_one_up (Update "v1" (with_type "down" (ballot "q1" "alice" "up"))) = s' ∧
    votes s' = <["v1" := with_type "down" (ballot "q1" "alice" "up")]> (votes poll_one_up) ∧
    questions s' !! "q1" = Some q' ∧
    q' = set_downvotes (0 + 1) (set_upvotes (1 - 1) (set_upvotes 1 (topic "first"))) ∧
    q_upvotes q' = (1 - 1)%Z ∧
    q_downvotes q' = (0 + 1)%Z ∧
    ¬ (q_upvotes q' < 1 ∧ q_downvotes q' < 0)%Z ∧
    ¬ (q_upvotes q' > 1 ∧ q_downvotes q' > 0)%Z ∧
    ∀ k, k ≠ "q1" → questions s' !! k = questions poll_one_up !! k.
Proof.
  apply (up_to_down_delta poll_one_up "v1" (ballot "q1" "alice" "up")
           (set_upvotes 1 (topic "first")));
    vm_compute; reflexivity.
Defined.

End VotesFacts.

(** * Properties of the policies in force *)

Module RlsFacts.
Import Schema Js Rls Migrations Client Demo.

(** Every file of the history applies, and this is what it leaves. *)
Lemma history_applies : is_Some (script history empty_catalog).
Proof. eexists. vm_compute. reflexivity. Qed.

Lemma in_force_profiles :
  cat_profiles in_force
  = [profiles_update_own; profiles_insert_own; profiles_view_own;
     profiles_admin_view; profiles_via_public_view].
Proof. reflexivity. Qed.

Lemma in_force_user_roles :
  cat_user_roles in_force = [roles_view_own; roles_admin_manage].
Proof. reflexivity. Qed.

Lemma in_force_questions :
  cat_questions in_force
  = [questions_viewable; questions_admin_update; questions_admin_delete;
     questions_create_v3].
Proof. reflexivity. Qed.

Lemma in_force_answers :
  cat_answers in_force
  = [answers_viewable; answers_create; answers_update; answers_delete].
Proof. reflexivity. Qed.

Lemma in_force_view :
  cat_profiles_public in_force = Some {| security_invoker := true |}.
Proof. reflexivity. Qed.

(** The decision of the question-creation policy for an authenticated
    caller, in closed form. *)
Lemma questions_insert_permitted caller rs row :
  insert_permitted (cat_questions in_force) (authenticated_as caller) rs row
  = (q_is_anonymous row && bool_decide (q_author_id row = None))
    || (negb (q_is_anonymous row)
        && bool_decide (q_author_id row = Some caller)).
Proof.
  rewrite in_force_questions.
  destruct row as [ti co de an au st up dn]; simpl.
  destruct an, au as [a|]; simpl; try done.
  unfold insert_permitted, check_passes; simpl.
  destruct (decide (a = caller)) as [->|Hne].
  - by rewrite !bool_decide_eq_true_2.
  - rewrite !bool_decide_eq_false_2; [done|congruence|congruence].
Qed.

(** C3: for an authenticated caller, a question flagged anonymous with a
    non-null author is rejected, a question not flagged anonymous whose
    author is not the caller (null included) is rejected, and in the two
    remaining shapes the policy lets the row in: it is inserted as soon as
    the column constraints, the key and the department reference hold. *)
Theorem question_creation_shapes (caller id : uuid) (row : question) (s : db) :
  (q_is_anonymous row = true → q_author_id row ≠ None →
   insert_question in_force (authenticated_as caller) id row s
   = raised rls_violation) ∧
  (q_is_anonymous row = false → q_author_id row ≠ Some caller →
   insert_question in_force (authenticated_as caller) id row s
   = raised rls_violation) ∧
  ((q_is_anonymous row = true ∧ q_author_id row = None) ∨
   (q_is_anonymous row = false ∧ q_author_id row = Some caller) →
   insert_permitted (cat_questions in_force) (authenticated_as caller)
     (user_roles s) row = true ∧
   (questions_checks row = true →
    questions s !! id = None →
    (∀ d, q_department_id row = Some d → is_Some (departments s !! d)) →
    insert_question in_force (authenticated_as caller) id row s
    = done_with (inserted id row s))).
Proof.
  unfold insert_question. rewrite questions_insert_permitted.
  split_and!.
  - intros -> Hau. simpl. by rewrite bool_decide_eq_false_2.
  - intros -> Hau. simpl. by rewrite bool_decide_eq_false_2.
  - intros Hshape.
    assert (Hp : (q_is_anonymous row && bool_decide (q_author_id row = None))
                 || (negb (q_is_anonymous row)
                     && bool_decide (q_author_id row = Some caller)) = true).
    { destruct Hshape as [[-> ->]|[-> ->]]; simpl; by rewrite ?bool_decide_eq_true_2. }
    rewrite Hp. split; [done|]. intros -> Hid Hfk. simpl.
    rewrite bool_decide_eq_false_2 by (rewrite Hid; by intros [? ?]).
    destruct (q_department_id row) as [d|] eqn:Hd; [|done].
    by rewrite bool_decide_eq_true_2 by (by apply Hfk).
Qed.

Lemma question_creation_shapes_witness :
  insert_question in_force (authenticated_as "alice") "q3"
    (asked "Parking" true (Some "alice") None) store
  = raised rls_violation
  ∧ insert_question in_force (authenticated_as "alice") "q3"
      (asked "Parking" false (Some "bob") None) store
    = raised rls_violation
  ∧ insert_question in_force (authenticated_as "alice") "q3"
      (asked "Parking" false None None) store
    = raised rls_violation
  ∧ insert_question in_force (authenticated_as "alice") "q3"
      (asked "Parking" true None (Some "d-eng")) store
    = done_with (inserted "q3" (asked "Parking" true None (Some "d-eng")) store)
  ∧ insert_question in_force (authenticated_as "alice") "q3"
      (asked "Parking" false (Some "alice") None) store
    = done_with (inserted "q3" (asked "Parking" false (Some "alice") None) store).
Proof.
  split_and!.
  - destruct (question_creation_shapes "alice" "q3"
                (asked "Parking" true (Some "alice") None) store) as (H & _ & _).
    apply H; [reflexivity|discriminate].
  - destruct (question_creation_shapes "alice" "q3"
                (asked "Parking" false (Some "bob") None) store) as (_ & H & _).
    apply H; [reflexivity|discriminate].
  - destruct (question_creation_shapes "alice" "q3"
                (asked "Parking" false None None) store) as (_ & H & _).
    apply H; [reflexivity|discriminate].
  - destruct (question_creation_shapes "alice" "q3"
                (asked "Parking" true None (Some "d-eng")) store) as (_ & _ & H).
    apply H.
    + left. split; reflexivity.
    + vm_compute. reflexivity.
    + vm_compute. reflexivity.
    + intros d [= <-]. vm_compute. eauto.
  - destruct (question_creation_shapes "alice" "q3"
                (asked "Parking" false (Some "alice") None) store) as (_ & _ & H).
    apply H.
    + right. split; reflexivity.
    + vm_compute. reflexivity.
    + vm_compute. reflexivity.
    + intros d [=].
Defined.

(** ** Answers *)

Lemma answers_insert_permitted se rs row :
  insert_permitted (cat_answers in_force) se rs row
  = bool_decide (sess_role se = authenticated)
    && is_admin_or_responder rs (sess_uid se)
    && bool_decide (sess_uid se = Some (a_author_id row)).
Proof.
  rewrite in_force_answers. destruct se as [r u]. simpl.
  unfold insert_permitted, check_passes, applies; simpl.
  destruct r; simpl; [done|].
  destruct u as [u|]; simpl; [|done].
  destruct (existsb _ rs); simpl.
  - case_bool_decide as H1; case_bool_decide as H2; simpl; congruence.
  - done.
Qed.

Lemma insert_answer_without_role se id row s :
  is_admin_or_responder (user_roles s) (sess_uid se) = false →
  insert_answer in_force se id row s = raised rls_violation.
Proof.
  intros H. unfold insert_answer.
  rewrite answers_insert_permitted, H. by rewrite andb_false_r.
Qed.

(** A caller sees all of their own role rows. *)
Lemma own_roles_visible u rs r :
  ur_user_id r = u →
  visible (cat_user_roles in_force) (authenticated_as u) rs r = true.
Proof.
  intros <-. rewrite in_force_user_roles.
  unfold visible, using_passes; simpl. by rewrite bool_decide_eq_true_2.
Qed.

Lemma fetched_roles u st (s : db) (ro : app_role) :
  user st = Some u →
  ro ∈ ur_role <$> select_user_roles in_force (session_of st)
                     (λ r, bool_decide (ur_user_id r = u)) s
  ↔ has_role (user_roles s) (Some u) ro = true.
Proof.
  intros Hu. unfold session_of, select_user_roles, has_role. rewrite Hu.
  rewrite list_elem_of_fmap, existsb_exists. split.
  - intros (r & -> & Hr). apply list_elem_of_filter in Hr as [Hc Hin].
    apply andb_true_iff in Hc as [Hc _]. exists r.
    rewrite <-list_elem_of_In. split; [done|].
    by rewrite Hc, bool_decide_eq_true_2.
  - intros (r & Hin & Hr). apply andb_true_iff in Hr as [Hr1 Hr2].
    apply bool_decide_eq_true in Hr1, Hr2. exists r. split; [done|].
    apply list_elem_of_filter. rewrite <-list_elem_of_In in Hin.
    split; [|done]. rewrite bool_decide_eq_true_2 by done.
    rewrite andb_true_l. by apply (own_roles_visible u).
Qed.

Lemma is_admin_or_responder_has_role rs u :
  is_admin_or_responder rs u = has_role rs u admin || has_role rs u responder.
Proof.
  destruct u as [u|]; [|done]. simpl.
  induction rs as [|r rs IH]; [done|]. simpl. rewrite IH.
  destruct (bool_decide (ur_user_id r = u)),
    (bool_decide (ur_role r = admin)), (bool_decide (ur_role r = responder)),
    (existsb _ rs), (existsb _ rs); done.
Qed.

(** The flags that fetchProfile caches are the roles held in the store it
    was run against. *)
Lemma fetchProfile_flags u st s :
  user st = Some u →
  isAdmin (fetchProfile in_force s u st) = has_role (user_roles s) (Some u) admin
  ∧ isResponder (fetchProfile in_force s u st)
    = is_admin_or_responder (user_roles s) (Some u).
Proof.
  intros Hu. rewrite is_admin_or_responder_has_role.
  unfold fetchProfile. cbn [isAdmin isResponder].
  pose proof (fetched_roles u st s admin Hu) as Ha.
  pose proof (fetched_roles u st s responder Hu) as Hr.
  assert (∀ (P : Prop) `{Decision P} b, (P ↔ b = true) → bool_decide P = b) as Hbd.
  { intros P ? [] [H1 H2]; [by apply bool_decide_eq_true_2; auto|].
    apply bool_decide_eq_false_2. intros HP. by specialize (H1 HP). }
  rewrite (Hbd _ _ _ Ha), (Hbd _ _ _ Hr). split; [done|]. apply orb_comm.
Qed.

Lemma update_question_status_answers c se qid st s :
  match update_question_status c se qid st s with
  | done_with s' => answers s' = answers s
  | raised _ => True
  end.
Proof.
  unfold update_question_status.
  destruct (questions s !! qid); [|done].
  destruct (update_permitted _ _ _ _); [|done].
  by destruct (questions_checks _).
Qed.

Lemma insert_answer_with_role u id row s :
  is_admin_or_responder (user_roles s) (Some u) = true →
  a_author_id row = u →
  (Z.of_nat (char_length (a_content row)) ≤ 10000)%Z →
  answers s !! id = None →
  is_Some (questions s !! a_question_id row) →
  insert_answer in_force (authenticated_as u) id row s
  = done_with (set_answers (<[id := row]> (answers s)) s).
Proof.
  intros Hrole Hau Hlen Hfree Hq. unfold insert_answer.
  rewrite answers_insert_permitted.
  cbn [authenticated_as sess_role sess_uid].
  rewrite Hrole, Hau, !bool_decide_eq_true_2 by done. cbn [andb negb].
  unfold answers_checks. rewrite bool_decide_eq_true_2 by done. cbn [negb].
  rewrite bool_decide_eq_false_2 by (rewrite Hfree; by intros [? ?]).
  by rewrite bool_decide_eq_true_2.
Qed.

(** C4, as the code has it.  Without the responder or admin role the
    store rejects any answer row, and the page changes nothing.  With the
    role, an answer posted through the page (whose form exists only while
    the cached [isResponder] flag is on) is created with official = true;
    and whatever the page adds as an answer is official and written by a
    holder of the role.  The store itself takes the row with either value
    of the flag.  The cached flag is "responder or admin" as of the store
    against which the roles were fetched. *)
Theorem answer_official_flag (st : auth) (u qid : uuid) (newAnswer : string)
    (new_id : uuid) (s : db) :
  user st = Some u →
  truthy (trim newAnswer) = true →
  truthy qid = true →
  (Z.of_nat (char_length (trim newAnswer)) ≤ 10000)%Z →
  answers s !! new_id = None →
  is_Some (questions s !! qid) →
  (is_admin_or_responder (user_roles s) (Some u) = false →
   (∀ id row, insert_answer in_force (session_of st) id row s
              = raised rls_violation) ∧
   (handleSubmitAnswer in_force st (Some qid) newAnswer new_id s).1 = s ∧
   (isResponder st = true →
    handleSubmitAnswer in_force st (Some qid) newAnswer new_id s
    = (s, Some "Failed to submit answer"))) ∧
  (is_admin_or_responder (user_roles s) (Some u) = true →
   isResponder st = true →
   ∃ s', handleSubmitAnswer in_force st (Some qid) newAnswer new_id s
         = (s', Some "Answer posted successfully!") ∧
         answers s'
         = <[new_id := {| a_question_id := qid; a_content := trim newAnswer;
                          a_author_id := u; a_is_official := true |}]>
             (answers s)) ∧
  (∀ id a,
     answers (handleSubmitAnswer in_force st (Some qid) newAnswer new_id s).1
       !! id = Some a →
     answers s !! id = Some a
     ∨ (a_is_official a = true ∧ a_author_id a = u
        ∧ is_admin_or_responder (user_roles s) (Some u) = true)) ∧
  (is_admin_or_responder (user_roles s) (Some u) = true →
   ∀ official,
     insert_answer in_force (authenticated_as u) new_id
       {| a_question_id := qid; a_content := trim newAnswer;
          a_author_id := u; a_is_official := official |} s
     = done_with
         (set_answers
            (<[new_id := {| a_question_id := qid; a_content := trim newAnswer;
                            a_author_id := u; a_is_official := official |}]>
               (answers s)) s)) ∧
  (st = signed_in in_force s u →
   isResponder st = is_admin_or_responder (user_roles s) (Some u)).
Proof.
  intros Hu Hna Hqid Hlen Hfree Hq.
  assert (Hse : session_of st = authenticated_as u)
    by (unfold session_of; by rewrite Hu).
  assert (Hrej : is_admin_or_responder (user_roles s) (Some u) = false →
            ∀ id row, insert_answer in_force (session_of st) id row s
                      = raised rls_violation).
  { intros Hno id row. apply insert_answer_without_role. by rewrite Hse. }
  assert (Hpage : isResponder st = true →
            is_admin_or_responder (user_roles s) (Some u) = true →
            ∃ s', handleSubmitAnswer in_force st (Some qid) newAnswer new_id s
                  = (s', Some "Answer posted successfully!") ∧
                  answers s'
                  = <[new_id := {| a_question_id := qid;
                                   a_content := trim newAnswer;
                                   a_author_id := u; a_is_official := true |}]>
                      (answers s)).
  { intros Hflag Hyes. unfold handleSubmitAnswer.
    rewrite Hflag, Hu, Hna, Hqid. cbn [andb negb]. rewrite Hse.
    rewrite (insert_answer_with_role u new_id _ s) by done.
    pose proof (update_question_status_answers in_force (authenticated_as u)
                  qid "answered"
                  (set_answers
                     (<[new_id := {| a_question_id := qid;
                                     a_content := trim newAnswer;
                                     a_author_id := u;
                                     a_is_official := true |}]> (answers s))
                     s)) as Hup.
    destruct (update_question_status _ _ _ _ _) as [s2|e]; eauto. }
  split_and!.
  - intros Hno. split; [by apply Hrej|]. unfold handleSubmitAnswer.
    destruct (isResponder st); cbn [negb]; [|done].
    rewrite Hu, Hna, Hqid. cbn [andb]. rewrite (Hrej Hno). by split.
  - intros Hyes Hflag. by apply Hpage.
  - intros id a.
    destruct (isResponder st) eqn:Hflag;
      [|unfold handleSubmitAnswer; rewrite Hflag; cbn [negb fst]; by left].
    destruct (is_admin_or_responder (user_roles s) (Some u)) eqn:Hrole.
    + destruct (Hpage eq_refl eq_refl) as (s' & -> & Hans). cbn [fst].
      rewrite Hans. destruct (decide (id = new_id)) as [->|Hne].
      * rewrite lookup_insert_eq. intros [= <-]. by right.
      * rewrite lookup_insert_ne by done. by left.
    + unfold handleSubmitAnswer. rewrite Hflag, Hu, Hna, Hqid.
      cbn [andb negb]. rewrite (Hrej eq_refl). cbn [fst]. by left.
  - intros Hyes official. by apply insert_answer_with_role.
  - intros ->. apply (fetchProfile_flags u). done.
Qed.

Lemma answer_official_flag_witness :
  (∃ s', handleSubmitAnswer in_force (signed_in in_force store "carol")
           (Some "q1") "  Ask the platform team. " "a1" store
         = (s', Some "Answer posted successfully!") ∧
         answers s'
         = <["a1" := {| a_question_id := "q1";
                        a_content := trim "  Ask the platform team. ";
                        a_author_id := "carol"; a_is_official := true |}]>
             (answers store))
  ∧ isResponder (signed_in in_force store "carol") = true
  ∧ (handleSubmitAnswer in_force (signed_in in_force store "alice")
       (Some "q1") "I think so." "a1" store).1
    = store.
Proof.
  assert (Hlen : ∀ t, Z.leb (Z.of_nat (char_length t)) 10000 = true →
                      (Z.of_nat (char_length t) ≤ 10000)%Z)
    by (intros t; apply Z.leb_le).
  destruct (answer_official_flag (signed_in in_force store "carol") "carol"
              "q1" "  Ask the platform team. " "a1" store)
    as (_ & Hc & _ & _ & Hf).
  { vm_compute. reflexivity. }
  { vm_compute. reflexivity. }
  { vm_compute. reflexivity. }
  { apply Hlen. vm_compute. reflexivity. }
  { vm_compute. reflexivity. }
  { vm_compute. eauto. }
  destruct (answer_official_flag (signed_in in_force store "alice") "alice"
              "q1" "I think so." "a1" store) as (Ha & _).
  { vm_compute. reflexivity. }
  { vm_compute. reflexivity. }
  { vm_compute. reflexivity. }
  { apply Hlen. vm_compute. reflexivity. }
  { vm_compute. reflexivity. }
  { vm_compute. eauto. }
  split_and!.
  - apply Hc; vm_compute; reflexivity.
  - rewrite Hf by reflexivity. vm_compute. reflexivity.
  - apply Ha. vm_compute. reflexivity.
Defined.

(** C4 as worded does not hold of the store: carol holds the responder
    role and inserts an answer of her own with is_official = false through
    the store's interface; the policy looks at her role and at the author
    only, and the row is accepted as it is. *)
Lemma unofficial_answer_by_responder :
  is_admin_or_responder (user_roles store) (Some "carol") = true
  ∧ ∃ s', insert_answer in_force (authenticated_as "carol") "a1"
            {| a_question_id := "q1";
               a_content := "Use the self-service portal.";
               a_author_id := "carol"; a_is_official := false |} store
          = done_with s'
          ∧ a_author_id <$> answers s' !! "a1" = Some "carol"
          ∧ a_is_official <$> answers s' !! "a1" = Some false.
Proof.
  split; [vm_compute; reflexivity|].
  eexists. split_and!; vm_compute; reflexivity.
Qed.

(** ** Role rows *)

Lemma user_roles_delete_permitted se rs r :
  delete_permitted (cat_user_roles in_force) se rs r
  = bool_decide (sess_role se = authenticated) && has_role rs (sess_uid se) admin.
Proof.
  rewrite in_force_user_roles. destruct se as [ro u].
  unfold delete_permitted, visible, using_passes, applies; simpl.
  destruct ro; simpl; [done|].
  destruct (has_role rs u admin) eqn:Ha; simpl; [|done].
  destruct u as [u|]; [|done]. simpl.
  by destruct (bool_decide (u = ur_user_id r)).
Qed.

Lemma set_user_roles_id s : set_user_roles (user_roles s) s = s.
Proof. by destruct s. Qed.

Lemma filter_all {A} (P : A → Prop) `{∀ x, Decision (P x)} (l : list A) :
  (∀ x, x ∈ l → P x) → filter P l = l.
Proof.
  induction l as [|x l IH]; intros H'; [done|].
  rewrite filter_cons_True by (apply H'; left).
  f_equal. apply IH. intros y Hy. apply H'. by right.
Qed.

Lemma delete_user_roles_not_admin se cond s :
  has_role (user_roles s) (sess_uid se) admin = false →
  delete_user_roles in_force se cond s = s.
Proof.
  intros Hna. unfold delete_user_roles.
  rewrite filter_all; [apply set_user_roles_id|].
  intros r _. rewrite user_roles_delete_permitted, Hna.
  by rewrite andb_false_r, andb_false_r.
Qed.

(** C5, as the code has it: handleRemoveRole refuses to remove 'employee'
    whoever acts and whoever the user is (no request reaches the store),
    and a DELETE on user_roles issued by an identity that is not an admin
    removes no row at all. *)
Theorem employee_role_guard (c : catalog) (st : auth) (userId : uuid)
    (cond : user_role → bool) (s : db) :
  handleRemoveRole c st userId "employee" s = (s, "Cannot remove employee role")
  ∧ (has_role (user_roles s) (sess_uid (session_of st)) admin = false →
     delete_user_roles in_force (session_of st) cond s = s).
Proof.
  split; [done|]. apply delete_user_roles_not_admin.
Qed.

Lemma employee_role_guard_witness :
  handleRemoveRole in_force (signed_in in_force store "root") "alice"
    "employee" store
  = (store, "Cannot remove employee role")
  ∧ delete_user_roles in_force (session_of (signed_in in_force store "bob"))
      (λ r, bool_decide (ur_user_id r = "alice")
            && bool_decide (ur_role r = employee)) store
    = store.
Proof.
  split.
  - apply (employee_role_guard in_force (signed_in in_force store "root")
             "alice" (λ _, true) store).
  - apply (employee_role_guard in_force (signed_in in_force store "bob")
             "alice").
    vm_compute. reflexivity.
Defined.

(** C5 as worded does not hold: the policy "Admins can manage user roles"
    is FOR ALL, so the DELETE of alice's employee row issued by the admin
    root goes through, and alice is left without the role. *)
Lemma admin_deletes_employee_row :
  has_role (user_roles store) (Some "alice") employee = true
  ∧ has_role
      (user_roles
         (delete_user_roles in_force (authenticated_as "root")
            (λ r, bool_decide (ur_user_id r = "alice")
                  && bool_decide (ur_role r = employee)) store))
      (Some "alice") employee
    = false.
Proof. split; vm_compute; reflexivity. Qed.

(** ** Profiles *)

Lemma profiles_visible_to_authenticated u rs p :
  visible (cat_profiles in_force) (authenticated_as u) rs p = true.
Proof.
  rewrite in_force_profiles. unfold visible, using_passes; simpl.
  by rewrite !orb_true_r.
Qed.

(** Whatever the roles of the authenticated caller, SELECT on the table
    returns every profile row, whole. *)
Lemma select_profiles_authenticated u cond s :
  select_profiles in_force (authenticated_as u) cond s
  = filter (λ p, cond p = true) (profiles s).
Proof.
  unfold select_profiles. apply list_filter_iff. intros p.
  by rewrite profiles_visible_to_authenticated, andb_true_r.
Qed.

(** The public projection is readable by every authenticated caller. *)
Lemma select_profiles_public_authenticated u cond s :
  select_profiles_public in_force (authenticated_as u) cond s
  = Some (filter (λ r, cond r = true) (to_public <$> profiles s)).
Proof.
  unfold select_profiles_public. rewrite in_force_view.
  cbn [mbind option_bind security_invoker].
  rewrite (filter_all _ (profiles s)); [done|]. intros p _.
  apply profiles_visible_to_authenticated.
Qed.

(** The reading of profiles does not hinge on where the three undated
    files sit in the history: in every order of the six files in which
    all of them apply, the policy "Authenticated users can view profiles
    via public view" is in force at the end, since no file drops it. *)
Lemma profiles_open_in_every_order :
  forallb (λ ms, match script ms empty_catalog with
                 | Some c => profiles_left_open c
                 | None => true
                 end) (permutations history) = true.
Proof. vm_compute. reflexivity. Qed.

Lemma some_order_applies :
  existsb (λ ms, bool_decide (is_Some (script ms empty_catalog)))
          (permutations history) = true.
Proof. vm_compute. reflexivity. Qed.

(** C8 at the failing input: bob holds only the employee role and reads
    alice's row of public.profiles; the row comes back with her email. *)
Theorem employee_reads_other_email :
  has_role (user_roles store) (Some "bob") admin = false
  ∧ p_email <$> select_profiles in_force (authenticated_as "bob")
                  (λ p, bool_decide (p_user_id p = "alice")) store
    = ["alice@example.org"].
Proof. split; vm_compute; reflexivity. Qed.

End RlsFacts.

(** * Properties of the notification function *)

Module NotifyFacts.
Import Schema Js Rls Migrations Notify Demo RlsFacts.

(** Up to the author check the handler has one way through. *)
Lemma handler_verified E req t u qid Q :
  invoked_for E req u qid Q →
  handler E req t
  = if negb (bool_decide (qd_author_id Q = Some u))
    then reply_only E (json_response 403 "error"
                         "Unauthorized - not the question author") t
    else notify E Q t.
Proof.
  intros [Hm Hh Hu (question & Hj & Hid) Ht Hf]. unfold handler.
  rewrite bool_decide_eq_false_2 by done.
  rewrite Hh, Hu, Hj, Hid, Ht, Hf. done.
Qed.

Lemma handler_forbidden E req t u qid Q :
  invoked_for E req u qid Q →
  qd_author_id Q ≠ Some u →
  handler E req t
  = reply_only E (json_response 403 "error"
                    "Unauthorized - not the question author") t.
Proof.
  intros Hinv Hne. rewrite (handler_verified E req t u qid Q Hinv).
  by rewrite bool_decide_eq_false_2.
Qed.

Lemma handler_sends E req t u qid Q department ps :
  reaches_send E req u qid Q department ps →
  handler E req t
  = let '(results, t') :=
      send_each E (notification department Q (author_name E Q)) ps t in
    {| response := summary (length (filter (λ r, success r = true) results))
                           (length results);
       sends := results; after := t' |}.
Proof.
  intros [Hinv Hau (d & ids & Hd & Htd & Hdep & Hadm & Hne & Hps) Hpne].
  rewrite (handler_verified E req t u qid Q Hinv).
  rewrite bool_decide_eq_true_2 by done. cbn [negb].
  unfold notify. rewrite Hd, Htd, Hdep, Hadm.
  destruct ids as [|a l]; [done|]. rewrite Hps.
  destruct ps as [|p ps']; [done|]. done.
Qed.

Section Sends.
Context (E : Env) (mk : adminProfile → email).

(** One send per profile, in the order of the profiles, whatever the
    outcomes. *)
Lemma send_each_emails ps t : (send_each E mk ps t).1.*1 = mk <$> ps.
Proof.
  revert t. induction ps as [|p ps IH]; intros t; [done|].
  cbn [send_each]. destruct (send E (mk p) t) as [o t1].
  specialize (IH t1). destruct (send_each E mk ps t1) as [tr t2].
  cbn [fst snd fmap list_fmap] in *. by f_equal.
Qed.

Lemma send_each_length ps t : length (send_each E mk ps t).1 = length ps.
Proof.
  rewrite <-(length_fmap fst), send_each_emails. apply length_fmap.
Qed.

End Sends.

(** C6: an authenticated caller who is not the recorded author of the
    question gets the 403 response, no send is made and the transport is
    left as it was. *)
Theorem non_author_forbidden (E : Env) (req : Request) (t : transport E)
    (u qid : uuid) (Q : questionData) :
  invoked_for E req u qid Q →
  qd_author_id Q ≠ Some u →
  status (response (handler E req t)) = 403
  ∧ field "error" (response (handler E req t))
    = Some "Unauthorized - not the question author"
  ∧ sends (handler E req t) = []
  ∧ after (handler E req t) = t.
Proof.
  intros Hinv Hne. by rewrite (handler_forbidden E req t u qid Q Hinv Hne).
Qed.

Lemma demo_invoked token u qid q :
  tokens !! token = Some u →
  truthy token = true →
  truthy qid = true →
  questions store !! qid = Some q →
  invoked_for env (invoke token qid) u qid (select_columns qid q).
Proof.
  intros Htok Ht Hq Hs. split.
  - done.
  - done.
  - unfold env, store_env. cbn [getUser invoke authorization default].
    unfold id. by rewrite Htok.
  - by eexists.
  - done.
  - unfold env, store_env. cbn [questions_single]. by rewrite Hs.
Qed.

Lemma non_author_forbidden_witness :
  status (response (handler env (invoke "Bearer t-bob" "q1") ())) = 403
  ∧ field "error" (response (handler env (invoke "Bearer t-bob" "q1") ()))
    = Some "Unauthorized - not the question author"
  ∧ sends (handler env (invoke "Bearer t-bob" "q1") ()) = []
  ∧ after (handler env (invoke "Bearer t-bob" "q1") ()) = ().
Proof.
  apply (non_author_forbidden env (invoke "Bearer t-bob" "q1") () "bob" "q1"
           (select_columns "q1"
              (asked "Build farm" false (Some "alice") (Some "d-eng")))).
  - apply demo_invoked; vm_compute; reflexivity.
  - vm_compute. discriminate.
Defined.

(** C10: a question that the creation policy admitted as anonymous has no
    recorded author, so the author check fails for every authenticated
    caller, its creator included: the response is 403 and nothing is
    sent. *)
Theorem anonymous_question_never_notified (E : Env) (req : Request)
    (t : transport E) (creator : uuid) (rs : list user_role) (q : question)
    (u qid : uuid) :
  insert_permitted (cat_questions in_force) (authenticated_as creator) rs q
  = true →
  q_is_anonymous q = true →
  invoked_for E req u qid (select_columns qid q) →
  q_author_id q = None
  ∧ status (response (handler E req t)) = 403
  ∧ sends (handler E req t) = []
  ∧ after (handler E req t) = t.
Proof.
  intros Hpol Han Hinv. rewrite questions_insert_permitted, Han in Hpol.
  cbn [andb negb orb] in Hpol. rewrite orb_false_r in Hpol.
  apply bool_decide_eq_true in Hpol. split; [done|].
  rewrite (handler_forbidden E req t u qid _ Hinv); [done|].
  cbn. by rewrite Hpol.
Qed.

Lemma anonymous_question_never_notified_witness :
  q_author_id (asked "Salary bands" true None (Some "d-eng")) = None
  ∧ status (response (handler env (invoke "Bearer t-alice" "q2") ())) = 403
  ∧ sends (handler env (invoke "Bearer t-alice" "q2") ()) = []
  ∧ after (handler env (invoke "Bearer t-alice" "q2") ()) = ().
Proof.
  apply (anonymous_question_never_notified env (invoke "Bearer t-alice" "q2")
           () "alice" (user_roles store)
           (asked "Salary bands" true None (Some "d-eng")) "alice" "q2").
  - vm_compute. reflexivity.
  - reflexivity.
  - apply demo_invoked; vm_compute; reflexivity.
Defined.

(** C7: with exactly two resolved admin profiles the function makes
    exactly two sends, one per admin and in that order, the second one
    whatever the first one did; the answer is always 200, and when
    exactly one of the two sends throws, its body is the one field
    [message] with the text "Notifications sent to 1/2 admins". *)
Theorem two_admins_one_failure (E : Env) (req : Request) (t : transport E)
    (u qid : uuid) (Q : questionData) (department : string)
    (p1 p2 : adminProfile) :
  reaches_send E req u qid Q department [p1; p2] →
  let mk := notification department Q (author_name E Q) in
  let first := send E (mk p1) t in
  let second := send E (mk p2) first.2 in
  sends (handler E req t) = [(mk p1, first.1); (mk p2, second.1)]
  ∧ length (sends (handler E req t)) = 2
  ∧ after (handler E req t) = second.2
  ∧ status (response (handler E req t)) = 200
  ∧ ((first.1 = sent ∧ second.1 ≠ sent) ∨ (first.1 ≠ sent ∧ second.1 = sent) →
     body (response (handler E req t))
     = Some [("message", "Notifications sent to 1/2 admins")]
     ∧ field "message" (response (handler E req t))
       = Some "Notifications sent to 1/2 admins").
Proof.
  intros Hr mk first second.
  rewrite (handler_sends E req t u qid Q department _ Hr).
  cbn [send_each]. fold mk. fold first.
  destruct first as [o1 t1] eqn:H1. cbn [snd] in second. fold second.
  destruct second as [o2 t2] eqn:H2. cbn [sends response after length fst snd].
  split; [done|]. split; [done|]. split; [done|]. split; [done|].
  intros [[-> Ho]|[Ho ->]].
  - destruct o2 as [|m]; [done|]. split; reflexivity.
  - destruct o1 as [|m]; [done|]. split; reflexivity.
Qed.

Lemma demo_reaches_send :
  reaches_send env (invoke "Bearer t-alice" "q1") "alice" "q1"
    (select_columns "q1" (asked "Build farm" false (Some "alice") (Some "d-eng")))
    "Engineering" [carol_profile; dave_profile].
Proof.
  split.
  - apply demo_invoked; vm_compute; reflexivity.
  - reflexivity.
  - exists "d-eng", ["carol"; "dave"]. split_and!; try done; vm_compute; reflexivity.
  - done.
Qed.

Lemma two_admins_one_failure_witness :
  sends (handler env (invoke "Bearer t-alice" "q1") ())
  = [(notification "Engineering"
        (select_columns "q1"
           (asked "Build farm" false (Some "alice") (Some "d-eng")))
        "Alice" carol_profile, sent);
     (notification "Engineering"
        (select_columns "q1"
           (asked "Build farm" false (Some "alice") (Some "d-eng")))
        "Alice" dave_profile, threw "mailbox unavailable")]
  ∧ length (sends (handler env (invoke "Bearer t-alice" "q1") ())) = 2
  ∧ status (response (handler env (invoke "Bearer t-alice" "q1") ())) = 200
  ∧ body (response (handler env (invoke "Bearer t-alice" "q1") ()))
    = Some [("message", "Notifications sent to 1/2 admins")]
  ∧ field "message" (response (handler env (invoke "Bearer t-alice" "q1") ()))
    = Some "Notifications sent to 1/2 admins".
Proof.
  destruct (two_admins_one_failure env (invoke "Bearer t-alice" "q1") ()
              "alice" "q1" _ "Engineering" carol_profile dave_profile
              demo_reaches_send) as (Hs & Hl & _ & Hst & Hb).
  split; [exact Hs|]. split; [exact Hl|]. split; [exact Hst|].
  apply Hb. left. split; [vm_compute; reflexivity|discriminate].
Defined.

Example demo_author_name :
  author_name env
    (select_columns "q1" (asked "Build farm" false (Some "alice") (Some "d-eng")))
  = "Alice".
Proof. vm_compute. reflexivity. Qed.

(** C9, as the code has it: whenever the sends are reached, the response
    is 200 and its body is the single field [message], whose text carries
    both counts: the number of sends that resolved and the number of sends
    made, one per resolved admin profile. *)
Theorem summary_is_one_message (E : Env) (req : Request) (t : transport E)
    (u qid : uuid) (Q : questionData) (department : string)
    (ps : list adminProfile) :
  reaches_send E req u qid Q department ps →
  status (response (handler E req t)) = 200
  ∧ body (response (handler E req t))
    = Some [("message",
             "Notifications sent to "
             +:+ pretty (length (filter (λ r, success r = true)
                                        (sends (handler E req t))))
             +:+ "/" +:+ pretty (length (sends (handler E req t)))
             +:+ " admins")]
  ∧ (sends (handler E req t)).*1
    = notification department Q (author_name E Q) <$> ps
  ∧ length (sends (handler E req t)) = length ps.
Proof.
  intros Hr. rewrite (handler_sends E req t u qid Q department _ Hr).
  pose proof (send_each_emails E (notification department Q (author_name E Q))
                ps t) as Hem.
  pose proof (send_each_length E (notification department Q (author_name E Q))
                ps t) as Hlen.
  destruct (send_each E _ ps t) as [results t']. cbn [fst] in Hem, Hlen.
  done.
Qed.

Lemma summary_is_one_message_witness :
  status (response (handler env (invoke "Bearer t-alice" "q1") ())) = 200
  ∧ body (response (handler env (invoke "Bearer t-alice" "q1") ()))
    = Some [("message",
             "Notifications sent to "
             +:+ pretty (length (filter (λ r, success r = true)
                   (sends (handler env (invoke "Bearer t-alice" "q1") ()))))
             +:+ "/"
             +:+ pretty (length
                   (sends (handler env (invoke "Bearer t-alice" "q1") ())))
             +:+ " admins")]
  ∧ (sends (handler env (invoke "Bearer t-alice" "q1") ())).*1
    = notification "Engineering"
        (select_columns "q1"
           (asked "Build farm" false (Some "alice") (Some "d-eng")))
        (author_name env
           (select_columns "q1"
              (asked "Build farm" false (Some "alice") (Some "d-eng"))))
      <$> [carol_profile; dave_profile]
  ∧ length (sends (handler env (invoke "Bearer t-alice" "q1") ()))
    = length [carol_profile; dave_profile].
Proof.
  apply (summary_is_one_message env (invoke "Bearer t-alice" "q1") ()
           "alice" "q1" _ "Engineering" [carol_profile; dave_profile]).
  exact demo_reaches_send.
Defined.

(** C9 as worded does not hold: a dispatch that made its two sends answers
    with a body that has a [message] and neither a [successCount] nor a
    [total] field. *)
Lemma summary_lacks_count_fields :
  status (response (handler env (invoke "Bearer t-alice" "q1") ())) = 200
  ∧ length (sends (handler env (invoke "Bearer t-alice" "q1") ())) = 2
  ∧ field "message" (response (handler env (invoke "Bearer t-alice" "q1") ()))
    = Some "Notifications sent to 1/2 admins"
  ∧ ¬ (is_Some (field "successCount"
                  (response (handler env (invoke "Bearer t-alice" "q1") ())))
       ∧ is_Some (field "total"
                    (response (handler env (invoke "Bearer t-alice" "q1") ())))).
Proof.
  split_and!; try (vm_compute; reflexivity).
  intros [[v Hv] _]. vm_compute in Hv. discriminate.
Qed.

End NotifyFacts.

(** * The notification function, path by path *)

Module NotifyPathFacts.
Import Schema Js Notify Demo DemoMore NotifyCases NotifyFacts.

Lemma field_json_response st k k' v :
  field k (json_response st k' v) = if decide (k' = k) then Some v else None.
Proof.
  unfold field, json_response. cbn [body mbind option_bind list_to_map foldr].
  cbn. destruct (decide (k' = k)) as [->|Hne].
  - apply lookup_insert_eq.
  - rewrite lookup_insert_ne by done. apply lookup_empty.
Qed.

(** Every path of the handler: either status 200 without an [error]
    field, or one of the error statuses with an [error] field and no send
    made. *)
Theorem status_and_error_field (E : Env) (req : Request) (t : transport E) :
  (status (response (handler E req t)) = 200
   ∧ field "error" (response (handler E req t)) = None)
  ∨ (status (response (handler E req t)) ∈ error_statuses
     ∧ is_Some (field "error" (response (handler E req t)))
     ∧ sends (handler E req t) = []
     ∧ after (handler E req t) = t).
Proof.
  assert (Hok : ∀ m, field "error" (json_response 200 "message" m) = None)
    by (intros m; by rewrite field_json_response).
  assert (Herr : ∀ st m, st ∈ error_statuses →
            status (json_response st "error" m) ∈ error_statuses
            ∧ is_Some (field "error" (json_response st "error" m))).
  { intros st m Hst. split; [done|]. rewrite field_json_response. by eexists. }
  assert (H400 : 400 ∈ error_statuses) by (repeat constructor).
  assert (H401 : 401 ∈ error_statuses) by (repeat constructor).
  assert (H403 : 403 ∈ error_statuses) by (repeat constructor).
  assert (H404 : 404 ∈ error_statuses) by (repeat constructor).
  assert (H500 : 500 ∈ error_statuses) by (repeat constructor).
  unfold handler, notify, internal_error, summary, reply_only.
  repeat case_match; cbn [response sends after];
    first [ left; split; [reflexivity|]; first [apply Hok | reflexivity]
          | right; split_and!; try reflexivity; by apply Herr ].
Qed.

(** A run that sends anything at all was invoked by an authenticated user
    who is the recorded author of the stored question, and it ends with
    status 200: nothing is ever sent for an unauthenticated request, for a
    question that is not stored, or on behalf of somebody else's
    question. *)
Theorem sends_only_for_author (E : Env) (req : Request) (t : transport E) :
  sends (handler E req t) ≠ [] →
  status (response (handler E req t)) = 200
  ∧ ∃ u qid Q department ps, reaches_send E req u qid Q department ps.
Proof.
  unfold handler.
  destruct (bool_decide (method req = "OPTIONS")) eqn:Hm; [by intros []|].
  apply bool_decide_eq_false in Hm.
  destruct (truthy_opt (authorization req)) eqn:Hh; [|by intros []].
  cbn [negb].
  destruct (getUser E _) as [[[u]|] [e|]] eqn:Hu; try (by intros []).
  destruct (json req) as [[question|]|] eqn:Hj; try (by intros []).
  destruct (truthy (qp_id question)) eqn:Hid; [|by intros []]. cbn [negb].
  destruct (questions_single E (qp_id question)) as [[Q|] [e|]] eqn:HQ;
    try (by intros []).
  destruct (bool_decide (qd_author_id Q = Some (uid {| uid := u |}))) eqn:Ha;
    [|by intros []].
  apply bool_decide_eq_true in Ha. cbn [negb uid] in *.
  assert (Hinv : invoked_for E req u (qp_id question) Q).
  { split; try done. by exists question. }
  unfold notify.
  destruct (qd_department_id Q) as [d|] eqn:Hd; [|by intros []].
  destruct (truthy d) eqn:Htd; [|by intros []].
  destruct (departments_single E d) as [[department|] [e|]] eqn:Hdep;
    try (by intros []).
  destruct (department_admins_eq E d) as [[[|a l]|] [e|]] eqn:Hadm;
    try (by intros []).
  destruct (profiles_in E (a :: l)) as [[[|p ps]|] [e|]] eqn:Hps;
    try (by intros []).
  destruct (send_each E _ (p :: ps) t) as [results t'].
  intros _. split; [done|].
  exists u, (qp_id question), Q, department, (p :: ps).
  split; [done|done| |done].
  exists d, (a :: l). by split_and!.
Qed.

Lemma sends_only_for_author_witness :
  status (response (handler env (invoke "Bearer t-alice" "q1") ())) = 200
  ∧ ∃ u qid Q department ps,
      reaches_send env (invoke "Bearer t-alice" "q1") u qid Q department ps.
Proof.
  apply (sends_only_for_author env (invoke "Bearer t-alice" "q1") ()).
  vm_compute. discriminate.
Defined.

(** A request without a usable Authorization header, or with one the auth
    service does not resolve to a user, is answered 401 before the payload
    is looked at. *)
Theorem unauthenticated_is_401 (E : Env) (req : Request) (t : transport E) :
  method req ≠ "OPTIONS" →
  truthy_opt (authorization req) = false
  ∨ (∀ u, getUser E (default "" (authorization req)) ≠ (Some u, None)) →
  status (response (handler E req t)) = 401
  ∧ is_Some (field "error" (response (handler E req t)))
  ∧ sends (handler E req t) = []
  ∧ after (handler E req t) = t.
Proof.
  intros Hm Hun. unfold handler. rewrite bool_decide_eq_false_2 by done.
  assert (H401 : ∀ m,
    status (response (reply_only E (json_response 401 "error" m) t)) = 401
    ∧ is_Some (field "error" (response (reply_only E (json_response 401 "error" m) t)))
    ∧ sends (reply_only E (json_response 401 "error" m) t) = []
    ∧ after (reply_only E (json_response 401 "error" m) t) = t).
  { intros m. by split_and!. }
  destruct (truthy_opt (authorization req)) eqn:Hh; cbn [negb]; [|apply H401].
  destruct Hun as [?|Hun]; [done|].
  destruct (getUser E _) as [[u|] [e|]] eqn:Hu; try apply H401.
  by destruct (Hun u).
Qed.

Lemma unauthenticated_is_401_witness :
  status (response (handler env (invoke "Bearer forged" "q1") ())) = 401
  ∧ is_Some (field "error" (response (handler env (invoke "Bearer forged" "q1") ())))
  ∧ sends (handler env (invoke "Bearer forged" "q1") ()) = []
  ∧ after (handler env (invoke "Bearer forged" "q1") ()) = ().
Proof.
  apply (unauthenticated_is_401 env (invoke "Bearer forged" "q1") ()).
  - discriminate.
  - right. intros u. vm_compute. discriminate.
Defined.

(** ** The excerpt of the question put in the mail *)










(** Two hundred times U+00E9, four hundred bytes, is quoted whole; the
    character U+1F600 after 299 letters is cut in the middle. *)
Example excerpt_counts_code_units :
  let e_acute := String (Ascii.ascii_of_nat 195)
                   (String (Ascii.ascii_of_nat 169) "") in
  let face := String (Ascii.ascii_of_nat 240)
                (String (Ascii.ascii_of_nat 159)
                   (String (Ascii.ascii_of_nat 152)
                      (String (Ascii.ascii_of_nat 128) ""))) in
  let repeat (n : nat) (x : string) := foldr String.append "" (replicate n x) in
  excerpt (repeat 200 e_acute) = repeat 200 e_acute
  ∧ excerpt (repeat 299 "a" +:+ face +:+ "b")
    = repeat 299 "a"
      +:+ String (Ascii.ascii_of_nat 237)
            (String (Ascii.ascii_of_nat 160)
               (String (Ascii.ascii_of_nat 189) ""))
      +:+ "...".
Proof. split; vm_compute; reflexivity. Qed.

Lemma demo_more_invoked token u qid q :
  tokens !! token = Some u →
  truthy token = true →
  truthy qid = true →
  questions store_more !! qid = Some q →
  invoked_for env_more (invoke token qid) u qid (select_columns qid q).
Proof.
  intros Htok Ht Hq Hs. split.
  - done.
  - done.
  - unfold env_more, store_env. cbn [getUser invoke authorization default].
    unfold id. by rewrite Htok.
  - by eexists.
  - done.
  - unfold env_more, store_env. cbn [questions_single]. by rewrite Hs.
Qed.

(** The author's request for a question without department, for a
    department without admins, or for admins without profile rows is
    answered 200 with a body whose one field [message] holds the text of
    that case; nothing is sent. *)
Theorem quiet_when_nobody_to_notify (E : Env) (req : Request)
    (t : transport E) (u qid : uuid) (Q : questionData) (m : string) :
  invoked_for E req u qid Q →
  qd_author_id Q = Some u →
  nobody_to_notify E Q m →
  status (response (handler E req t)) = 200
  ∧ body (response (handler E req t)) = Some [("message", m)]
  ∧ field "message" (response (handler E req t)) = Some m
  ∧ sends (handler E req t) = []
  ∧ after (handler E req t) = t.
Proof.
  intros Hinv Hau Hn. rewrite (handler_verified E req t u qid Q Hinv).
  rewrite bool_decide_eq_true_2 by done. cbn [negb]. unfold notify.
  destruct Hn as [Hd | d department ids Hd Htd Hdep Hadm Hids
                     | d department ids ps Hd Htd Hdep Hadm Hne Hps Hnil].
  - destruct (qd_department_id Q) as [d|]; [|done].
    cbn [truthy_opt] in Hd. by rewrite Hd.
  - rewrite Hd, Htd, Hdep, Hadm. by destruct ids as [[|a l]|].
  - rewrite Hd, Htd, Hdep, Hadm. destruct ids as [|a l]; [done|].
    rewrite Hps. by destruct ps as [[|p ps]|].
Qed.

Lemma quiet_when_nobody_to_notify_witness :
  status (response (handler env_more (invoke "Bearer t-alice" "q5") ())) = 200
  ∧ body (response (handler env_more (invoke "Bearer t-alice" "q5") ()))
    = Some [("message", "No profiles for department admins")]
  ∧ field "message" (response (handler env_more (invoke "Bearer t-alice" "q5") ()))
    = Some "No profiles for department admins"
  ∧ sends (handler env_more (invoke "Bearer t-alice" "q5") ()) = []
  ∧ after (handler env_more (invoke "Bearer t-alice" "q5") ()) = ().
Proof.
  apply (quiet_when_nobody_to_notify env_more (invoke "Bearer t-alice" "q5")
           () "alice" "q5"
           (select_columns "q5"
              (asked "Contracts" false (Some "alice") (Some "d-legal")))).
  - apply demo_more_invoked; vm_compute; reflexivity.
  - reflexivity.
  - apply (no_profiles env_more _ "d-legal" "Legal" ["erin"] (Some []));
      first [ discriminate | vm_compute; reflexivity ].
Defined.

(** When one of the three lookups fails, the author gets status 500 with
    a body whose one field [error] holds the fixed text "Internal server
    error" (the text of the failure is not sent back), and nothing is
    sent. *)
Theorem lookup_failure_is_500 (E : Env) (req : Request) (t : transport E)
    (u qid : uuid) (Q : questionData) :
  invoked_for E req u qid Q →
  qd_author_id Q = Some u →
  lookup_fails E Q →
  status (response (handler E req t)) = 500
  ∧ body (response (handler E req t))
    = Some [("error", "Internal server error")]
  ∧ field "error" (response (handler E req t)) = Some "Internal server error"
  ∧ sends (handler E req t) = []
  ∧ after (handler E req t) = t.
Proof.
  intros Hinv Hau Hf. rewrite (handler_verified E req t u qid Q Hinv).
  rewrite bool_decide_eq_true_2 by done. cbn [negb]. unfold notify.
  destruct Hf as [d Hd Htd Hdep | d department Hd Htd Hdep [e He]
                 | d department ids Hd Htd Hdep Hadm Hne [e He]];
    rewrite Hd, Htd.
  - destruct (departments_single E d) as [[department|] [e|]];
      cbn [data error] in Hdep; try done.
    destruct Hdep as [[? ?]|?]; done.
  - rewrite Hdep. destruct (department_admins_eq E d) as [ids [e'|]];
      cbn [error] in He; done.
  - rewrite Hdep, Hadm. destruct ids as [|a l]; [done|].
    destruct (profiles_in E (a :: l)) as [ps [e'|]]; cbn [error] in He; done.
Qed.

Lemma lookup_failure_is_500_witness :
  status (response (handler env_down (invoke "Bearer t-alice" "q1") ())) = 500
  ∧ body (response (handler env_down (invoke "Bearer t-alice" "q1") ()))
    = Some [("error", "Internal server error")]
  ∧ field "error" (response (handler env_down (invoke "Bearer t-alice" "q1") ()))
    = Some "Internal server error"
  ∧ sends (handler env_down (invoke "Bearer t-alice" "q1") ()) = []
  ∧ after (handler env_down (invoke "Bearer t-alice" "q1") ()) = ().
Proof.
  apply (lookup_failure_is_500 env_down (invoke "Bearer t-alice" "q1") ()
           "alice" "q1"
           (select_columns "q1"
              (asked "Build farm" false (Some "alice") (Some "d-eng")))).
  - split; try (vm_compute; reflexivity).
    + discriminate.
    + by eexists.
  - reflexivity.
  - apply (department_fails env_down _ "d-eng"); [reflexivity..|].
    left. by eexists.
Defined.

End NotifyPathFacts.

(** * The earlier variant of the handler *)

Module NotifyUnverifiedFacts.
Import Schema Js Notify Demo DemoMore NotifyUnverified.

Lemma property_question question :
  property "question" (j_object [("question", question)]) = Some question.
Proof. reflexivity. Qed.

Lemma property_unvalidated question :
  property "title" (unvalidated question) = Some (j_string (qp_title question))
  ∧ property "content" (unvalidated question)
    = Some (j_string (qp_content question))
  ∧ property "department_id" (unvalidated question)
    = Some (nullable (qp_department_id question))
  ∧ property "is_anonymous" (unvalidated question)
    = Some (j_boolean (qp_is_anonymous question))
  ∧ property "author_id" (unvalidated question)
    = Some (nullable (qp_author_id question)).
Proof. by split_and!. Qed.

(** On a request of the declared shape the handler is [notify_unvalidated]
    on the payload. *)
Lemma handler_unverified_payload (E : Env) (req : Request) (t : transport E)
    (question : QuestionPayload) :
  method req ≠ "OPTIONS" →
  json req = Some (Some question) →
  handler_unverified E req t = notify_unvalidated E (unvalidated question) t.
Proof.
  intros Hm Hj. unfold handler_unverified, handler_unvalidated, raw.
  cbn [raw_method raw_body]. rewrite bool_decide_eq_false_2 by done.
  rewrite Hj. by rewrite property_question.
Qed.

Lemma author_name_of_unvalidated (E : Env) (question : QuestionPayload) :
  author_name_of E (unvalidated question) = author_name E (as_data question).
Proof.
  unfold author_name_of, author_name.
  destruct (property_unvalidated question) as (_ & _ & _ & -> & ->).
  cbn [as_data qd_is_anonymous qd_author_id truthy_member from_option
       truthy_value interpolated].
  destruct (qp_author_id question);
    cbn [nullable truthy_value to_string truthy_opt default from_option id];
    [reflexivity|].
  by rewrite andb_false_r.
Qed.

Lemma email_for_unvalidated (E : Env) (department : string)
    (question : QuestionPayload) :
  email_for department (qp_title question) (qp_content question)
    (author_name_of E (unvalidated question))
  = notification department (as_data question)
      (author_name E (as_data question)).
Proof. by rewrite author_name_of_unvalidated. Qed.

(** What [notify_unvalidated] does once the three lookups have resolved
    to a department, a non-empty list of admins and their profiles. *)
Lemma notify_unvalidated_resolved (E : Env) (question : json_value)
    (t : transport E) (department : string) (ids : list uuid)
    (ps : list adminProfile) :
  truthy_member (property "department_id" question) = true →
  departments_single E (interpolated (property "department_id" question))
  = {| data := Some department; error := None |} →
  department_admins_eq E (interpolated (property "department_id" question))
  = {| data := Some ids; error := None |} →
  ids ≠ [] →
  profiles_in E ids = {| data := Some ps; error := None |} →
  ps ≠ [] →
  notify_unvalidated E question t
  = match property "content" question with
    | Some (j_string content) =>
        let '(results, t') :=
          send_each E
            (email_for department (interpolated (property "title" question))
               content (author_name_of E question)) ps t in
        {| status0 := 200;
           body0 := notified
             ("Notifications sent to "
              +:+ pretty (length (filter (λ r, success r = true) results))
              +:+ "/" +:+ pretty (length results) +:+ " admins")
             (result_of <$> results);
           sends0 := results; after0 := t' |}
    | _ =>
        {| status0 := 200;
           body0 := notified
             ("Notifications sent to " +:+ pretty 0
              +:+ "/" +:+ pretty (length ps) +:+ " admins")
             (thrown_before_send <$> ps);
           sends0 := []; after0 := t |}
    end.
Proof.
  intros Htd Hdep Hadm Hne Hps Hpne. unfold notify_unvalidated.
  rewrite Htd. cbn [negb]. rewrite Hdep, Hadm.
  destruct ids as [|a l]; [done|]. rewrite Hps.
  by destruct ps as [|p ps'].
Qed.



(** Runs of the earlier variant on the demonstration requests: the forged
    payload reaches both admins without any caller; the same payload
    without a text, or with a number for a text, is answered 200 with 0
    of 2 and no mail; a [question] that is a number has no department and
    is skipped; a body without [question] is answered 500. *)
Example unvalidated_payloads :
  (sends0 (handler_unvalidated env forged ())).*1
  = email_for "Engineering" "Password reset required" "Open the link below."
      (author_name_of env forged_question)
    <$> [carol_profile; dave_profile]
  ∧ handler_unvalidated env forged_without_text ()
    = quiet env 200
        (notified "Notifications sent to 0/2 admins"
           [thrown_before_send carol_profile;
            thrown_before_send dave_profile]) ()
  ∧ handler_unvalidated env
      {| raw_method := "POST"; raw_authorization := None;
         raw_body := Some (j_object
           [("question",
             j_object [("title", j_array [j_number "1"; j_null; j_string "a"]);
                       ("content", j_number "5");
                       ("department_id", j_string "d-eng")])]) |} ()
    = quiet env 200
        (notified "Notifications sent to 0/2 admins"
           [thrown_before_send carol_profile;
            thrown_before_send dave_profile]) ()
  ∧ body0 (handler_unvalidated env
             {| raw_method := "POST"; raw_authorization := None;
                raw_body := Some (j_object [("question", j_number "5")]) |} ())
    = skipped "No department assigned, skipping"
  ∧ body0 (handler_unvalidated env
             {| raw_method := "POST"; raw_authorization := None;
                raw_body := Some (j_object []) |} ())
    = failed runtime_message.
Proof. split_and!; vm_compute; reflexivity. Qed.

(** On the author's request for a stored question, with the payload a
    copy of the stored row, the two variants make the same sends and leave
    the transport in the same state; the earlier variant's reply has the
    same message and adds one result row per send. *)
Theorem variants_agree_for_author (E : Env) (req : Request)
    (t : transport E) (u qid : uuid) (Q : questionData)
    (department : string) (ps : list adminProfile)
    (question : QuestionPayload) :
  reaches_send E req u qid Q department ps →
  json req = Some (Some question) →
  as_data question = Q →
  sends0 (handler_unverified E req t) = sends (handler E req t)
  ∧ after0 (handler_unverified E req t) = after (handler E req t)
  ∧ status0 (handler_unverified E req t)
    = status (response (handler E req t))
  ∧ ∃ m results,
      body0 (handler_unverified E req t) = notified m results
      ∧ field "message" (response (handler E req t)) = Some m
      ∧ length results = length (sends (handler E req t)).
Proof.
  intros Hr Hj HQ. rewrite (NotifyFacts.handler_sends E req t u qid Q _ _ Hr).
  destruct Hr as [Hinv Hau (d & ids & Hd & Htd & Hdep & Hadm & Hne & Hps) Hpne].
  rewrite (handler_unverified_payload E req t question
             (inv_method _ _ _ _ _ Hinv) Hj).
  assert (Hd' : qp_department_id question = Some d) by (by rewrite <-HQ in Hd).
  destruct (property_unvalidated question) as (Htitle & Hcontent & Hpd & _ & _).
  rewrite Hd' in Hpd.
  rewrite (notify_unvalidated_resolved E (unvalidated question) t department
             ids ps); try assumption.
  2-4: by rewrite Hpd.
  rewrite Hcontent, Htitle. cbn [interpolated from_option to_string].
  rewrite email_for_unvalidated, HQ.
  destruct (send_each E _ ps t) as [results t'].
  cbn [sends0 after0 status0 body0 sends after response status].
  split_and!; try done. eexists _, _. split; [done|]. split.
  - unfold summary. by rewrite NotifyPathFacts.field_json_response.
  - apply length_fmap.
Qed.

Lemma variants_agree_for_author_witness :
  sends0 (handler_unverified env alice_invokes ())
  = sends (handler env alice_invokes ())
  ∧ after0 (handler_unverified env alice_invokes ())
    = after (handler env alice_invokes ())
  ∧ status0 (handler_unverified env alice_invokes ())
    = status (response (handler env alice_invokes ()))
  ∧ ∃ m results,
      body0 (handler_unverified env alice_invokes ()) = notified m results
      ∧ field "message" (response (handler env alice_invokes ())) = Some m
      ∧ length results = length (sends (handler env alice_invokes ())).
Proof.
  apply (variants_agree_for_author env alice_invokes () "alice" "q1"
           (select_columns "q1"
              (asked "Build farm" false (Some "alice") (Some "d-eng")))
           "Engineering" [carol_profile; dave_profile] alice_q1).
  - split.
    + split; try (vm_compute; reflexivity).
      * discriminate.
      * by eexists.
    + reflexivity.
    + exists "d-eng", ["carol"; "dave"].
      split_and!; try done; vm_compute; reflexivity.
    + done.
  - reflexivity.
  - reflexivity.
Defined.

(** A lookup that comes back with an error is reported differently by the
    two variants.  On the author's request for a stored question of
    department [d], with the payload naming the same department, both
    answer 500 and send nothing; the earlier one sends back the text of
    the Error it threw for that lookup, where the later one answers with
    a body whose one field [error] is "Internal server error". *)
Theorem unverified_reports_the_failure (E : Env) (req : Request)
    (t : transport E) (u qid : uuid) (Q : questionData)
    (question : QuestionPayload) (d m : string) :
  invoked_for E req u qid Q →
  qd_author_id Q = Some u →
  qd_department_id Q = Some d →
  json req = Some (Some question) →
  qp_department_id question = Some d →
  truthy d = true →
  lookup_error E d m →
  (status0 (handler_unverified E req t) = 500
   ∧ body0 (handler_unverified E req t) = failed (thrown m)
   ∧ sends0 (handler_unverified E req t) = []
   ∧ after0 (handler_unverified E req t) = t)
  ∧ (status (response (handler E req t)) = 500
     ∧ body (response (handler E req t))
       = Some [("error", "Internal server error")]
     ∧ field "error" (response (handler E req t))
       = Some "Internal server error"
     ∧ sends (handler E req t) = []
     ∧ after (handler E req t) = t).
Proof.
  intros Hinv Hau Hd Hj Hd' Htd Hf. split.
  - rewrite (handler_unverified_payload E req t question
               (inv_method _ _ _ _ _ Hinv) Hj).
    unfold notify_unvalidated.
    destruct (property_unvalidated question) as (_ & _ & -> & _ & _).
    rewrite Hd'.
    cbn [nullable truthy_member interpolated from_option truthy_value
         to_string].
    rewrite Htd. cbn [negb].
    destruct Hf as [[e He] | department Hdep [e He]
                   | department ids Hdep Hadm Hne [e He]].
    + destruct (departments_single E d) as [dd [e'|]]; cbn [error] in He;
        [|done].
      by destruct dd.
    + rewrite Hdep.
      destruct (department_admins_eq E d) as [dd [e'|]]; cbn [error] in He;
        [|done].
      by destruct dd as [[|]|].
    + rewrite Hdep, Hadm. destruct ids as [|a l]; [done|].
      destruct (profiles_in E (a :: l)) as [dd [e'|]]; cbn [error] in He;
        [|done].
      by destruct dd as [[|]|].
  - rewrite (NotifyFacts.handler_verified E req t u qid Q Hinv).
    rewrite bool_decide_eq_true_2 by done. cbn [negb]. unfold notify.
    rewrite Hd, Htd.
    destruct Hf as [[e He] | department Hdep [e He]
                   | department ids Hdep Hadm Hne [e He]].
    + destruct (departments_single E d) as [[department|] [e'|]];
        cbn [error] in He; done.
    + rewrite Hdep. destruct (department_admins_eq E d) as [ids [e'|]];
        cbn [error] in He; done.
    + rewrite Hdep, Hadm. destruct ids as [|a l]; [done|].
      destruct (profiles_in E (a :: l)) as [ps [e'|]]; cbn [error] in He; done.
Qed.

Lemma unverified_reports_the_failure_witness :
  (status0 (handler_unverified env_down alice_invokes ()) = 500
   ∧ body0 (handler_unverified env_down alice_invokes ())
     = failed (thrown "Failed to fetch department")
   ∧ sends0 (handler_unverified env_down alice_invokes ()) = []
   ∧ after0 (handler_unverified env_down alice_invokes ()) = ())
  ∧ (status (response (handler env_down alice_invokes ())) = 500
     ∧ body (response (handler env_down alice_invokes ()))
       = Some [("error", "Internal server error")]
     ∧ field "error" (response (handler env_down alice_invokes ()))
       = Some "Internal server error"
     ∧ sends (handler env_down alice_invokes ()) = []
     ∧ after (handler env_down alice_invokes ()) = ()).
Proof.
  apply (unverified_reports_the_failure env_down alice_invokes () "alice" "q1"
           (select_columns "q1"
              (asked "Build farm" false (Some "alice") (Some "d-eng")))
           alice_q1 "d-eng" "Failed to fetch department").
  - split; try (vm_compute; reflexivity).
    + discriminate.
    + by eexists.
  - reflexivity.
  - reflexivity.
  - reflexivity.
  - reflexivity.
  - reflexivity.
  - apply department_error. by eexists.
Defined.

End NotifyUnverifiedFacts.
(** * Properties of the access to the vote ledger *)

Module VotesAccessFacts.
Import Schema Js Rls Migrations Votes Client Notify VotesAccess VotesFacts Demo.

Lemma votes_in_force_eq :
  votes_in_force
  = [votes_insert_own; votes_update_own; votes_delete_own; votes_view_own].
Proof. reflexivity. Qed.

Lemma own_spec se v :
  bool_decide (sess_role se = authenticated)
  && passes (sql_eq (sess_uid se) (Some (v_user_id v))) = true ↔ own se v.
Proof.
  unfold own. destruct se as [r [u|]]; cbn [sess_role sess_uid sql_eq passes].
  - rewrite andb_true_iff, bool_decide_eq_true.
    destruct (decide (u = v_user_id v)) as [->|Hne].
    + rewrite bool_decide_eq_true_2 by done. split; intros [? ?]; done.
    + rewrite bool_decide_eq_false_2 by done.
      split; [by intros [_ ?]|]. intros [_ [= ?]]. done.
  - rewrite andb_false_r. split; [done|by intros [_ ?]].
Qed.

Ltac policies_own :=
  rewrite votes_in_force_eq;
  rewrite <-own_spec;
  match goal with |- context [sess_role ?se] =>
    destruct se as [[] [?|]] end;
  unfold insert_permitted, update_permitted, delete_permitted,
    update_check_permitted; unfold visible, applies;
  cbn [existsb];
  unfold check_passes; unfold using_passes;
  cbn [pol_for pol_to pol_using pol_with_check votes_insert_own
       votes_update_own votes_delete_own votes_view_own
       sess_role sess_uid sql_eq passes];
  try destruct (bool_decide (_ = v_user_id _));
  vm_compute; done.

Lemma votes_insert_permitted se rs v :
  insert_permitted votes_in_force se rs v = true ↔ own se v.
Proof. policies_own. Qed.

Lemma votes_visible se rs v :
  visible votes_in_force se rs v = true ↔ own se v.
Proof. policies_own. Qed.

Lemma votes_update_permitted se rs v :
  update_permitted votes_in_force se rs v = true ↔ own se v.
Proof. policies_own. Qed.

Lemma votes_update_check_permitted se rs v :
  update_check_permitted votes_in_force se rs v = true ↔ own se v.
Proof. policies_own. Qed.

Lemma votes_delete_permitted se rs v :
  delete_permitted votes_in_force se rs v = true ↔ own se v.
Proof. policies_own. Qed.

Lemma own_session st u v :
  user st = Some u → own (session_of st) v ↔ v_user_id v = u.
Proof.
  intros Hu. unfold own, session_of. rewrite Hu. cbn [sess_role sess_uid].
  split; [by intros [_ [= ->]]|by intros ->].
Qed.

(** What one row-level step does to the ledger. *)
Lemma step_votes st s s' :
  step st s = Some s' →
  votes s' = match st with
             | Insert id NEW => <[id := NEW]> (votes s)
             | Update id NEW =>
                 match votes s !! id with
                 | Some _ => <[id := NEW]> (votes s)
                 | None => votes s
                 end
             | Delete id => delete id (votes s)
             end.
Proof.
  destruct st as [id NEW|id NEW|id]; cbn [step].
  - unfold insert_vote. destruct (votes s !! id); [done|].
    destruct (vote_constraints id NEW s); [|done].
    intros (qs & _ & [= <-])%bind_Some. done.
  - unfold update_vote. destruct (votes s !! id); [|by intros [= <-]].
    destruct (vote_constraints id NEW s); [|done].
    intros (qs & _ & [= <-])%bind_Some. done.
  - unfold delete_vote. destruct (votes s !! id) eqn:Hid.
    + intros (qs & _ & [= <-])%bind_Some. done.
    + intros [= <-]. by rewrite delete_id.
Qed.

Lemma atomically_nil s : atomically [] s = Some s.
Proof. done. Qed.

Lemma atomically_cons st sts s :
  atomically (st :: sts) s = step st s ≫= atomically sts.
Proof.
  unfold atomically. cbn [foldl mbind option_bind].
  destruct (step st s) as [s1|]; [done|].
  cbn. induction sts as [|st' sts IH]; [done|]. apply IH.
Qed.

Lemma atomically_preserves sts s s' :
  atomically sts s = Some s' →
  counters_match s → wf s → counters_match s' ∧ wf s'.
Proof.
  revert s. induction sts as [|st sts IH]; intros s.
  - by intros [= <-].
  - rewrite atomically_cons. intros (s1 & H1 & Hrest)%bind_Some Hm Hwf.
    destruct (step_preserves st s s1 H1 Hm Hwf) as [Hm1 Hwf1].
    by apply (IH s1).
Qed.

Lemma rows_where_spec cond (vs : gmap uuid vote) id v :
  (id, v) ∈ rows_where cond vs ↔ vs !! id = Some v ∧ cond v = true.
Proof.
  unfold rows_where. rewrite elem_of_map_to_list.
  by rewrite map_lookup_filter_Some.
Qed.

Lemma others_kept_refl se s : others_kept se s s.
Proof. by intros id v _. Qed.

Lemma step_on_own_rows se s0 st s s' :
  on_own_rows se s0 st → others_kept se s0 s →
  step st s = Some s' → others_kept se s0 s'.
Proof.
  intros Hst Hk Hstep id v Hv. rewrite <-(Hk id v Hv).
  rewrite (step_votes st s s' Hstep).
  destruct st as [id0 NEW|id0 NEW|id0]; cbn [on_own_rows] in Hst; [done| |].
  - destruct Hst as [(v0 & H0 & Hown0) HownN].
    destruct (votes s !! id0) as [w|] eqn:Hw; [|done].
    destruct (decide (id = id0)) as [->|Hne].
    + rewrite lookup_insert_eq, Hw. split; intros [= <-]; [done|].
      apply (Hk id0 w Hv) in Hw. rewrite H0 in Hw. by injection Hw as ->.
    + by rewrite lookup_insert_ne.
  - destruct Hst as (v0 & H0 & Hown0).
    destruct (decide (id = id0)) as [->|Hne].
    + rewrite lookup_delete_eq. split; [done|]. intros Hw.
      apply (Hk id0 v Hv) in Hw. rewrite H0 in Hw. by injection Hw as ->.
    + by rewrite lookup_delete_ne.
Qed.

Lemma atomically_on_own_rows se s0 sts s s' :
  Forall (on_own_rows se s0) sts → others_kept se s0 s →
  atomically sts s = Some s' → others_kept se s0 s'.
Proof.
  intros Hall. revert s. induction Hall as [|st sts Hst _ IH]; intros s Hk.
  - by intros [= <-].
  - rewrite atomically_cons. intros (s1 & H1 & Hrest)%bind_Some.
    apply (IH s1); [|done]. by apply (step_on_own_rows se s0 st s).
Qed.

(** Whatever the WHERE clause and the SET list, a DELETE, an UPDATE or an
    INSERT on public.votes that goes through leaves every row that is not
    the session's own as it was, and adds none: nobody removes, retypes,
    reassigns or casts a vote of somebody else. *)
Theorem others_votes_untouched (se : session) (cond : vote → bool)
    (set : vote → vote) (id : uuid) (NEW : vote) (s s' : db) :
  delete_votes_as se cond s = Some s'
  ∨ update_votes_as se cond set s = Some s'
  ∨ insert_vote_as se id NEW s = Some s' →
  others_kept se s s'.
Proof.
  intros [Hd|[Hu|Hi]].
  - unfold delete_votes_as in Hd.
    eapply atomically_on_own_rows; [|apply others_kept_refl|exact Hd].
    apply Forall_fmap, Forall_forall. intros [i v] Hin. cbn.
    apply rows_where_spec in Hin as [Hl [_ Hp]%andb_true_iff].
    exists v. split; [done|]. by apply votes_delete_permitted in Hp.
  - unfold update_votes_as in Hu.
    destruct (forallb _ _) eqn:Hall; [|done].
    eapply atomically_on_own_rows; [|apply others_kept_refl|exact Hu].
    apply Forall_fmap, Forall_forall. intros [i v] Hin. cbn.
    rewrite forallb_forall in Hall. pose proof (Hall _ (proj1 (list_elem_of_In _ _) Hin)) as Hc. cbn in Hc.
    apply rows_where_spec in Hin as [Hl [_ Hp]%andb_true_iff].
    split; [exists v; split; [done|]; by apply votes_update_permitted in Hp|].
    by apply votes_update_check_permitted in Hc.
  - unfold insert_vote_as in Hi.
    destruct (insert_permitted _ _ _ _) eqn:Hp; [|done].
    apply votes_insert_permitted in Hp.
    pose proof (step_votes (Insert id NEW) s s' Hi) as Hv. cbn in Hv.
    unfold insert_vote in Hi. destruct (votes s !! id) eqn:Hid; [done|].
    intros i v Hnv. rewrite Hv. destruct (decide (i = id)) as [->|Hne].
    + rewrite lookup_insert_eq, Hid. split; [|done]. by intros [= <-].
    + by rewrite lookup_insert_ne.
Qed.

Lemma others_votes_untouched_witness :
  others_kept (authenticated_as "bob")
    (run [Insert "v1" (ballot "q1" "alice" "up");
          Insert "v2" (ballot "q1" "bob" "up")] poll)
    poll_one_up.
Proof.
  apply (others_votes_untouched (authenticated_as "bob") (λ _, true)
           (with_type "down") "v9" (ballot "q1" "alice" "up")).
  left. vm_compute. reflexivity.
Defined.

(** A click on a vote button, whatever the props it was rendered with,
    leaves a ledger that satisfies the table constraints and counters
    that agree with it. *)
Theorem handleVote_preserves (st : auth) (isVoting : bool) (questionId : uuid)
    (userVote : option string) (voteType : string) (new_id : uuid) (s : db) :
  counters_match s → wf s →
  counters_match (handleVote st isVoting questionId userVote voteType new_id s).1
  ∧ wf (handleVote st isVoting questionId userVote voteType new_id s).1.
Proof.
  intros Hm Hwf. unfold handleVote. destruct isVoting; [done|].
  destruct (user st) as [u|]; [|done].
  repeat case_match; cbn [fst];
    match goal with |- context [default s ?o] => destruct o as [s'|] eqn:Ho end;
    cbn [default]; try done.
  - by apply (atomically_preserves _ s s' Ho).
  - unfold update_votes_as in Ho. destruct (forallb _ _); [|done].
    by apply (atomically_preserves _ s s' Ho).
  - unfold insert_vote_as in Ho. destruct (insert_permitted _ _ _ _); [|done].
    by apply (step_preserves (Insert new_id _) s s' Ho).
Qed.

Lemma handleVote_preserves_witness :
  counters_match
    (handleVote {| user := Some "alice"; isAdmin := false; isResponder := false |}
       false "q1" None "up" "v1" poll).1
  ∧ wf (handleVote {| user := Some "alice"; isAdmin := false; isResponder := false |}
          false "q1" None "up" "v1" poll).1.
Proof.
  apply (handleVote_preserves _ false "q1" None "up" "v1" poll);
    apply (fresh_invariants poll); vm_compute; reflexivity.
Defined.

(** UNIQUE (question_id, user_id): a WHERE clause that fixes both
    columns selects no row or one. *)
Lemma rows_where_pair cond qid u s :
  wf s →
  (∀ v, cond v = true → v_question_id v = qid ∧ v_user_id v = u) →
  rows_where cond (votes s) = []
  ∨ ∃ id v, rows_where cond (votes s) = [(id, v)].
Proof.
  intros Hwf Hc. unfold rows_where.
  set (m := filter _ (votes s)).
  destruct (map_to_list m) as [|[id v] l] eqn:Hl; [by left|right].
  exists id, v.
  assert (m !! id = Some v) as Hv
    by (apply elem_of_map_to_list; rewrite Hl; left).
  assert (m = {[id := v]}) as Hm.
  { apply map_eq. intros i. destruct (decide (i = id)) as [->|Hne].
    - by rewrite lookup_singleton_eq.
    - rewrite lookup_singleton_ne by done.
      destruct (m !! i) as [w|] eqn:Hw; [|done]. exfalso.
      apply map_lookup_filter_Some in Hw as [Hw Hcw].
      apply map_lookup_filter_Some in Hv as [Hv Hcv].
      cbn [snd] in Hcw, Hcv.
      apply Hc in Hcw as [? ?]. apply Hc in Hcv as [? ?].
      pose proof (Hwf i w Hw) as Hcon.
      apply vote_constraints_spec in Hcon as (_ & _ & Hfree).
      destruct (Hfree id v Hv) as [?|Hsp]; [done|].
      unfold same_pair in Hsp.
      rewrite !bool_decide_eq_true_2 in Hsp by congruence. done. }
  rewrite <-Hl, Hm. apply map_to_list_singleton.
Qed.

(** The row of user [u] on question [qid], as the three statements of
    the vote buttons and the fetch of the page select it. *)
Lemma own_row qid u (extra : vote → bool) s :
  wf s →
  (∀ v, v_user_id v = u → extra v = true) →
  (rows_where (λ v, bool_decide (v_question_id v = qid)
                    && bool_decide (v_user_id v = u) && extra v) (votes s) = []
   ∧ ∀ id v, votes s !! id = Some v →
       ¬ (v_question_id v = qid ∧ v_user_id v = u))
  ∨ (∃ id v,
       rows_where (λ v, bool_decide (v_question_id v = qid)
                        && bool_decide (v_user_id v = u) && extra v) (votes s)
       = [(id, v)]
       ∧ votes s !! id = Some v ∧ v_question_id v = qid ∧ v_user_id v = u).
Proof.
  intros Hwf Hex.
  set (cond := λ v, bool_decide (v_question_id v = qid)
                    && bool_decide (v_user_id v = u) && extra v).
  assert (Hc : ∀ v, cond v = true ↔ v_question_id v = qid ∧ v_user_id v = u).
  { intros v. unfold cond. rewrite !andb_true_iff, !bool_decide_eq_true.
    split; [by intros [[? ?] _]|]. intros [? ?]. by rewrite Hex. }
  destruct (rows_where_pair cond qid u s Hwf) as [Hnil|(id & v & Hone)].
  - intros v. apply Hc.
  - left. split; [done|]. intros id v Hv Hp.
    assert ((id, v) ∈ rows_where cond (votes s)) as Hin
      by (apply rows_where_spec; split; [done|by apply Hc]).
    rewrite Hnil in Hin. by apply elem_of_nil in Hin.
  - right. exists id, v. split; [done|].
    assert ((id, v) ∈ rows_where cond (votes s)) as Hin
      by (rewrite Hone; left).
    apply rows_where_spec in Hin as [Hv Hcv]. apply Hc in Hcv as [? ?]. done.
Qed.

Lemma own_permitted st u s :
  user st = Some u →
  (∀ v, v_user_id v = u →
     visible votes_in_force (session_of st) (user_roles s) v = true)
  ∧ (∀ v, v_user_id v = u →
       delete_permitted votes_in_force (session_of st) (user_roles s) v = true)
  ∧ (∀ v, v_user_id v = u →
       update_permitted votes_in_force (session_of st) (user_roles s) v = true).
Proof.
  intros Hu. split_and!; intros v Hv.
  - apply votes_visible. by apply (own_session st u).
  - apply votes_delete_permitted. by apply (own_session st u).
  - apply votes_update_permitted. by apply (own_session st u).
Qed.

(** What the page fetches as [userVote]. *)
Lemma fetchUserVote_spec st u qid s :
  user st = Some u → wf s →
  (fetchUserVote st qid s = None
   ∧ ∀ id v, votes s !! id = Some v →
       ¬ (v_question_id v = qid ∧ v_user_id v = u))
  ∨ (∃ id v, fetchUserVote st qid s = Some (v_vote_type v)
       ∧ votes s !! id = Some v ∧ v_question_id v = qid ∧ v_user_id v = u).
Proof.
  intros Hu Hwf. unfold fetchUserVote. rewrite Hu.
  destruct (own_permitted st u s Hu) as (Hvis & _ & _).
  destruct (own_row qid u _ s Hwf Hvis) as [[-> Hno]|(id & v & -> & Hrow)].
  - by left.
  - right. by exists id, v.
Qed.

(** Casting a vote and deleting the row again, statement by statement. *)
Lemma cast_then_withdraw new_id NEW q s :
  votes s !! new_id = None →
  vote_constraints new_id NEW s = true →
  questions s !! v_question_id NEW = Some q →
  (0 ≤ q_upvotes q < INT4_MAX)%Z → (0 ≤ q_downvotes q < INT4_MAX)%Z →
  ∃ s1, insert_vote new_id NEW s = Some s1
        ∧ votes s1 = <[new_id := NEW]> (votes s)
        ∧ delete_vote new_id s1 = Some s.
Proof.
  intros Hid Hc Hq Hup Hdown. unfold insert_vote. rewrite Hid, Hc.
  assert (Hr : ∀ z, (0 ≤ z < INT4_MAX)%Z →
            int4_range (z + 1) = true ∧ int4_range (z + 1 + -1) = true).
  { intros z Hz. unfold int4_range, INT4_MIN, INT4_MAX in *.
    split; apply bool_decide_eq_true; lia. }
  destruct (Hr _ Hup) as [Hu1 Hu2]. destruct (Hr _ Hdown) as [Hd1 Hd2].
  assert (Hback : ∀ (qs : gmap uuid question) k (q1 : question),
            qs !! k = Some q → <[k := q]> (<[k := q1]> qs) = qs).
  { intros qs k q1 Hk. rewrite insert_insert_eq. by apply insert_id. }
  unfold update_question_votes, add_upvotes, add_downvotes.
  rewrite Hq. destruct (bool_decide (v_vote_type NEW = "up")) eqn:Ht.
  - rewrite Hu1. cbn [mbind option_bind]. eexists. split; [done|].
    split; [done|]. unfold delete_vote. cbn [votes set_questions set_votes].
    rewrite lookup_insert_eq. unfold update_question_votes, add_upvotes.
    rewrite Ht. cbn [questions set_questions set_votes].
    rewrite lookup_insert_eq. cbn [q_upvotes set_upvotes]. rewrite Hu2.
    cbn [mbind option_bind]. f_equal. rewrite delete_insert_id by done.
    replace (set_upvotes _ (set_upvotes _ q)) with q
      by (destruct q; unfold set_upvotes; cbn; f_equal; lia).
    rewrite Hback by done. by destruct s.
  - rewrite Hd1. cbn [mbind option_bind]. eexists. split; [done|].
    split; [done|]. unfold delete_vote. cbn [votes set_questions set_votes].
    rewrite lookup_insert_eq. unfold update_question_votes, add_downvotes.
    rewrite Ht. cbn [questions set_questions set_votes].
    rewrite lookup_insert_eq. cbn [q_downvotes set_downvotes]. rewrite Hd2.
    cbn [mbind option_bind]. f_equal. rewrite delete_insert_id by done.
    replace (set_downvotes _ (set_downvotes _ q)) with q
      by (destruct q; unfold set_downvotes; cbn; f_equal; lia).
    rewrite Hback by done. by destruct s.
Qed.

Lemma own_row_found qid u (extra : vote → bool) s id v :
  wf s →
  (∀ v, v_user_id v = u → extra v = true) →
  votes s !! id = Some v → v_question_id v = qid → v_user_id v = u →
  rows_where (λ v, bool_decide (v_question_id v = qid)
                   && bool_decide (v_user_id v = u) && extra v) (votes s)
  = [(id, v)].
Proof.
  intros Hwf Hex Hv Hq Hu.
  destruct (own_row qid u extra s Hwf Hex) as [[_ Hno]|(i & w & Hone & _)].
  - by destruct (Hno id v Hv).
  - rewrite Hone. f_equal.
    assert ((id, v) ∈ [(i, w)]) as Hin.
    { rewrite <-Hone. apply rows_where_spec. split; [done|].
      rewrite !andb_true_iff, !bool_decide_eq_true. by rewrite Hex. }
    by apply list_elem_of_singleton in Hin.
Qed.

Lemma fetchUserVote_found st u qid s id v :
  user st = Some u → wf s →
  votes s !! id = Some v → v_question_id v = qid → v_user_id v = u →
  fetchUserVote st qid s = Some (v_vote_type v).
Proof.
  intros Hu Hwf Hv Hq Hvu. unfold fetchUserVote. rewrite Hu.
  destruct (own_permitted st u s Hu) as (Hvis & _ & _).
  by rewrite (own_row_found qid u _ s id v Hwf Hvis Hv Hq Hvu).
Qed.

(** A first click on an arrow by a user who has no vote on the question
    adds one vote of that type, and the page then shows it as the user's
    vote; a second click on the same arrow removes it again: the ledger
    is what it was, and so is every question in every column held here,
    both counters included.  (The timestamp updated_at, which each
    update of a counter also sets, is not among the columns of the
    rows.) *)
Theorem vote_then_withdraw (st : auth) (u qid : uuid) (q : question)
    (voteType : string) (new_id new_id' : uuid) (s : db) :
  user st = Some u → counters_match s → wf s →
  questions s !! qid = Some q → votes s !! new_id = None →
  fetchUserVote st qid s = None →
  voteType = "up" ∨ voteType = "down" →
  (q_upvotes q < INT4_MAX)%Z → (q_downvotes q < INT4_MAX)%Z →
  let s1 := (handleVote st false qid (fetchUserVote st qid s) voteType
               new_id s).1 in
  count_votes voteType qid (votes s1) = S (count_votes voteType qid (votes s))
  ∧ fetchUserVote st qid s1 = Some voteType
  ∧ votes (handleVote st false qid (fetchUserVote st qid s1) voteType
             new_id' s1).1
    = votes s
  ∧ questions (handleVote st false qid (fetchUserVote st qid s1) voteType
                 new_id' s1).1
    = questions s
  ∧ fetchUserVote st qid
      (handleVote st false qid (fetchUserVote st qid s1) voteType
         new_id' s1).1
    = None.
Proof.
  intros Hu Hm Hwf Hq Hid Hf Ht Hup Hdown.
  destruct (fetchUserVote_spec st u qid s Hu Hwf)
    as [[_ Hno]|(id & v & Hsome & _)]; [|by rewrite Hf in Hsome].
  set (NEW := {| v_question_id := qid; v_user_id := u;
                 v_vote_type := voteType |}).
  assert (Hown : ∀ se rs, se = session_of st →
            insert_permitted votes_in_force se rs NEW = true).
  { intros se rs ->. apply votes_insert_permitted. by apply (own_session st u). }
  assert (Hc : vote_constraints new_id NEW s = true).
  { apply vote_constraints_spec. split_and!.
    - unfold vote_type_check. cbn [NEW v_vote_type].
      apply orb_true_iff. destruct Ht as [-> | ->]; [by left|by right].
    - cbn [NEW v_question_id]. by rewrite Hq.
    - intros id' w Hw. right. unfold same_pair. cbn [NEW v_question_id v_user_id].
      apply andb_false_iff.
      destruct (decide (qid = v_question_id w)) as [Heq|Hne];
        [|left; by apply bool_decide_eq_false].
      right. apply bool_decide_eq_false. intros Heu.
      by apply (Hno id' w Hw). }
  destruct (Hm qid q Hq) as [Hcu Hcd].
  destruct (cast_then_withdraw new_id NEW q s Hid Hc Hq)
    as (s1 & Hins & Hvs1 & Hdel); [lia..|].
  assert (Hwf1 : wf s1)
    by (by apply (step_preserves (Insert new_id NEW) s s1 Hins Hm Hwf)).
  assert (Hrow1 : votes s1 !! new_id = Some NEW)
    by (by rewrite Hvs1, lookup_insert_eq).
  assert (Hhv : handleVote st false qid None voteType new_id s = (s1, None)).
  { unfold handleVote. rewrite Hu. rewrite bool_decide_eq_false_2 by done.
    cbn [truthy_opt]. unfold insert_vote_as. fold NEW.
    rewrite (Hown _ _ eq_refl), Hins. done. }
  cbv zeta. rewrite Hf, Hhv. cbn [fst].
  rewrite (fetchUserVote_found st u qid s1 new_id NEW Hu Hwf1 Hrow1) by done.
  cbn [NEW v_vote_type].
  assert (Hback : (handleVote st false qid (Some voteType) voteType new_id'
                     s1).1 = s).
  { unfold handleVote. rewrite Hu. rewrite bool_decide_eq_true_2 by done.
    unfold delete_votes_as.
    destruct (own_permitted st u s1 Hu) as (_ & Hdp & _).
    rewrite (own_row_found qid u _ s1 new_id NEW Hwf1 Hdp Hrow1) by done.
    cbn [fmap list_fmap fst]. rewrite atomically_cons. cbn [step].
    rewrite Hdel. done. }
  rewrite Hback. split_and!; try done.
  rewrite Hvs1. apply Nat2Z.inj. rewrite count_after_write, Hid.
  unfold zind, ind. rewrite decide_True by done. lia.
Qed.

Lemma vote_then_withdraw_witness :
  let st := {| user := Some "alice"; isAdmin := false; isResponder := false |} in
  let s1 := (handleVote st false "q1" (fetchUserVote st "q1" poll) "up"
               "v1" poll).1 in
  count_votes "up" "q1" (votes s1) = S (count_votes "up" "q1" (votes poll))
  ∧ fetchUserVote st "q1" s1 = Some "up"
  ∧ votes (handleVote st false "q1" (fetchUserVote st "q1" s1) "up" "v7" s1).1
    = votes poll
  ∧ questions (handleVote st false "q1" (fetchUserVote st "q1" s1) "up" "v7"
                 s1).1
    = questions poll
  ∧ fetchUserVote st "q1"
      (handleVote st false "q1" (fetchUserVote st "q1" s1) "up" "v7" s1).1
    = None.
Proof.
  apply (vote_then_withdraw
           {| user := Some "alice"; isAdmin := false; isResponder := false |}
           "alice" "q1" (topic "first") "up" "v1" "v7" poll);
    first [ apply (fresh_invariants poll); vm_compute; reflexivity
          | by left
          | vm_compute; reflexivity ].
Defined.

(** A click made with a stale prop is lost without a word: when the page
    shows no vote although the user has one, the INSERT breaks the
    UNIQUE constraint; when it shows a vote that is no longer there, the
    UPDATE or DELETE finds no row.  Either way the store is as before and
    no toast is shown. *)
Theorem stale_prop_is_silent (st : auth) (u qid : uuid)
    (userVote : option string) (voteType : string) (new_id : uuid) (s : db) :
  user st = Some u → wf s →
  (userVote = None ∧ is_Some (fetchUserVote st qid s))
  ∨ (truthy_opt userVote = true ∧ fetchUserVote st qid s = None) →
  handleVote st false qid userVote voteType new_id s = (s, None).
Proof.
  intros Hu Hwf Hstale. unfold handleVote. rewrite Hu.
  destruct (fetchUserVote_spec st u qid s Hu Hwf)
    as [[Hf Hno]|(id & v & Hf & Hrow & Hvq & Hvu)].
  - destruct Hstale as [[_ [t Ht]]|[Htr _]]; [by rewrite Hf in Ht|].
    rewrite Htr.
    assert (Hnil : ∀ extra,
              rows_where (λ v, bool_decide (v_question_id v = qid)
                               && bool_decide (v_user_id v = u) && extra v)
                         (votes s) = []).
    { intros extra. destruct (rows_where _ _) as [|[i w] l] eqn:Hl; [done|].
      assert ((i, w) ∈ (i, w) :: l) as Hin by left.
      rewrite <-Hl in Hin.
      apply rows_where_spec in Hin as [Hw [[Hq Hwu]%andb_true_iff _]%andb_true_iff].
      apply bool_decide_eq_true in Hq, Hwu. by destruct (Hno i w Hw). }
    unfold delete_votes_as, update_votes_as. rewrite !Hnil.
    by case_bool_decide.
  - destruct Hstale as [[-> _]|[_ Hnone]]; [|by rewrite Hf in Hnone].
    rewrite bool_decide_eq_false_2 by done. cbn [truthy_opt].
    unfold insert_vote_as, insert_vote.
    destruct (insert_permitted _ _ _ _); [|done].
    destruct (votes s !! new_id) eqn:Hid; [done|].
    destruct (vote_constraints _ _ _) eqn:Hc; [|done]. exfalso.
    apply vote_constraints_spec in Hc as (_ & _ & Hfree).
    destruct (Hfree id v Hrow) as [->|Hsp]; [by rewrite Hrow in Hid|].
    unfold same_pair in Hsp. cbn [v_question_id v_user_id] in Hsp.
    by rewrite !bool_decide_eq_true_2 in Hsp.
Qed.

Lemma stale_prop_is_silent_witness :
  handleVote {| user := Some "alice"; isAdmin := false; isResponder := false |}
    false "q1" None "up" "v2" poll_one_up
  = (poll_one_up, None).
Proof.
  apply (stale_prop_is_silent _ "alice" "q1" None "up" "v2" poll_one_up).
  - reflexivity.
  - apply ledger_wf_spec. vm_compute. reflexivity.
  - left. split; [reflexivity|]. exists "up". vm_compute. reflexivity.
Defined.

End VotesAccessFacts.

(** * Properties of sign-up, role management and moderation *)

Module AccountsFacts.
Import Schema Js Rls Migrations Votes Client Accounts Demo DemoAccounts.
Import RlsFacts VotesFacts.

(** ** The policies on user_roles and questions in closed form *)

Lemma user_roles_insert_permitted se rs r :
  insert_permitted (cat_user_roles in_force) se rs r = is_admin se rs.
Proof.
  rewrite in_force_user_roles. destruct se as [ro u].
  unfold is_admin, insert_permitted, check_passes, using_passes, applies; simpl.
  destruct ro; simpl; [done|]. by destruct (has_role rs u admin).
Qed.

Lemma questions_update_permitted se rs q :
  update_permitted (cat_questions in_force) se rs q = is_admin se rs.
Proof.
  rewrite in_force_questions. destruct se as [ro u].
  unfold is_admin, update_permitted, visible, using_passes, applies; simpl.
  destruct ro; simpl; [done|]. by destruct (has_role rs u admin).
Qed.

Lemma questions_delete_permitted se rs q :
  delete_permitted (cat_questions in_force) se rs q = is_admin se rs.
Proof.
  rewrite in_force_questions. destruct se as [ro u].
  unfold is_admin, delete_permitted, visible, using_passes, applies; simpl.
  destruct ro; simpl; [done|]. by destruct (has_role rs u admin).
Qed.

Lemma questions_visible se rs q :
  visible (cat_questions in_force) se rs q
  = bool_decide (sess_role se = authenticated).
Proof.
  rewrite in_force_questions. destruct se as [ro u].
  unfold visible, using_passes, applies; simpl. by destruct ro.
Qed.

Lemma user_roles_delete_is_admin se rs r :
  delete_permitted (cat_user_roles in_force) se rs r = is_admin se rs.
Proof. apply user_roles_delete_permitted. Qed.

(** ** has_role over the row list *)

Lemma has_role_spec rs u r :
  has_role rs (Some u) r = true ↔ {| ur_user_id := u; ur_role := r |} ∈ rs.
Proof.
  unfold has_role. rewrite existsb_exists. split.
  - intros ([u' r'] & Hin & [Hu Hr]%andb_true_iff).
    apply bool_decide_eq_true in Hu, Hr. cbn in Hu, Hr. subst.
    by apply list_elem_of_In.
  - intros Hin. eexists. split; [by apply list_elem_of_In|].
    cbn. by rewrite !bool_decide_eq_true_2.
Qed.

Lemma has_role_app rs rs' u r :
  has_role (rs ++ rs') u r = has_role rs u r || has_role rs' u r.
Proof. destruct u as [u|]; [|done]. apply existsb_app. Qed.

Lemma has_role_one u r u' r' :
  has_role [{| ur_user_id := u; ur_role := r |}] (Some u') r'
  = bool_decide ((u', r') = (u, r)).
Proof.
  apply eq_true_iff_eq.
  rewrite has_role_spec, bool_decide_eq_true, list_elem_of_singleton.
  split; by intros [= -> ->].
Qed.

Lemma has_role_added rs u r u' r' :
  has_role (rs ++ [{| ur_user_id := u; ur_role := r |}]) (Some u') r'
  = has_role rs (Some u') r' || bool_decide ((u', r') = (u, r)).
Proof. by rewrite has_role_app, has_role_one. Qed.

Lemma has_role_removed rs u r u' r' :
  has_role (filter (λ row, (bool_decide (ur_user_id row = u)
                            && bool_decide (ur_role row = r)) = false) rs)
           (Some u') r'
  = has_role rs (Some u') r' && negb (bool_decide ((u', r') = (u, r))).
Proof.
  apply eq_true_iff_eq. rewrite andb_true_iff, negb_true_iff.
  rewrite bool_decide_eq_false, !has_role_spec, list_elem_of_filter. cbn.
  rewrite andb_false_iff, !bool_decide_eq_false. split.
  - intros [Hne Hin]. split; [done|]. intros [= -> ->]. by destruct Hne.
  - intros [Hin Hne]. split; [|done].
    destruct (decide (u' = u)) as [->|?]; [|by left].
    right. intros ->. by apply Hne.
Qed.

Lemma delete_user_roles_needs_admin se cond s :
  is_admin se (user_roles s) = false →
  delete_user_roles in_force se cond s = s.
Proof.
  intros Hna. unfold delete_user_roles.
  rewrite filter_all; [apply set_user_roles_id|].
  intros r _. rewrite user_roles_delete_is_admin, Hna. apply andb_false_r.
Qed.

(** ** Sign-up *)

Lemma handle_new_user_roles NEW profile_id s s' u r :
  handle_new_user NEW profile_id s = Some s' →
  has_role (user_roles s') (Some u) r
  = has_role (user_roles s) (Some u) r
    || bool_decide ((u, r) = (nu_id NEW, employee)).
Proof.
  unfold handle_new_user. destruct (nu_email NEW) as [email|]; [|done].
  cbn [mbind option_bind].
  destruct (existsb _ (profiles s)); [done|].
  case_bool_decide; [done|]. intros [= <-].
  cbn [user_roles set_user_roles set_profiles]. apply has_role_added.
Qed.

(** A sign-up that goes through adds one profile for the new user, with
    the email of the account and no department, and one role row,
    (user, employee); both are new.  Every other role of every user, the
    questions, the answers and the votes are as before. *)
Theorem new_user_is_employee (NEW : auth_user) (profile_id : uuid)
    (s s' : db) :
  handle_new_user NEW profile_id s = Some s' →
  (∀ u r, has_role (user_roles s') (Some u) r
          = has_role (user_roles s) (Some u) r
            || bool_decide ((u, r) = (nu_id NEW, employee)))
  ∧ has_role (user_roles s) (Some (nu_id NEW)) employee = false
  ∧ (∃ p, profiles s' = profiles s ++ [p] ∧ p_id p = profile_id
          ∧ p_user_id p = nu_id NEW ∧ nu_email NEW = Some (p_email p)
          ∧ p_department_id p = None)
  ∧ (∀ p, p ∈ profiles s → p_user_id p ≠ nu_id NEW ∧ p_id p ≠ profile_id)
  ∧ questions s' = questions s ∧ answers s' = answers s
  ∧ votes s' = votes s.
Proof.
  unfold handle_new_user. destruct (nu_email NEW) as [email|]; [|done].
  cbn [mbind option_bind].
  destruct (existsb _ (profiles s)) eqn:Hp; [done|].
  case_bool_decide as Hr; [done|]. intros [= <-].
  cbn [user_roles profiles questions answers votes set_user_roles set_profiles].
  split_and!; try done.
  - intros u r. apply has_role_added.
  - destruct (has_role _ _ _) eqn:Hh; [|done]. by apply has_role_spec in Hh.
  - by eexists.
  - intros p Hin. rewrite <-not_true_iff_false, existsb_exists in Hp.
    split; intros Heq; apply Hp; exists p;
      (split; [by apply list_elem_of_In|]); apply orb_true_iff;
      [right|left]; by apply bool_decide_eq_true.
Qed.

Lemma new_user_is_employee_witness :
  (∀ u r, has_role (user_roles store_with_erin) (Some u) r
          = has_role (user_roles store) (Some u) r
            || bool_decide ((u, r) = (nu_id erin, employee)))
  ∧ has_role (user_roles store) (Some (nu_id erin)) employee = false
  ∧ (∃ p, profiles store_with_erin = profiles store ++ [p] ∧ p_id p = "p-erin"
          ∧ p_user_id p = nu_id erin ∧ nu_email erin = Some (p_email p)
          ∧ p_department_id p = None)
  ∧ (∀ p, p ∈ profiles store → p_user_id p ≠ nu_id erin ∧ p_id p ≠ "p-erin")
  ∧ questions store_with_erin = questions store
  ∧ answers store_with_erin = answers store
  ∧ votes store_with_erin = votes store.
Proof.
  apply (new_user_is_employee erin "p-erin" store store_with_erin).
  vm_compute. reflexivity.
Defined.

(** A user who has just signed up, and for whose id the store held no
    admin or responder row, signs in with both cached flags off and is
    refused every answer row by the store. *)
Theorem new_user_cannot_answer (NEW : auth_user) (profile_id : uuid)
    (s s' : db) :
  handle_new_user NEW profile_id s = Some s' →
  is_admin_or_responder (user_roles s) (Some (nu_id NEW)) = false →
  signed_in in_force s' (nu_id NEW)
  = {| user := Some (nu_id NEW); isAdmin := false; isResponder := false |}
  ∧ ∀ id row,
      insert_answer in_force (authenticated_as (nu_id NEW)) id row s'
      = raised rls_violation.
Proof.
  intros Hnew Hno.
  pose proof (λ u r, handle_new_user_roles NEW profile_id s s' u r Hnew)
    as Hroles.
  rewrite is_admin_or_responder_has_role in Hno.
  apply orb_false_iff in Hno as [Ha Hr].
  assert (Hno' : is_admin_or_responder (user_roles s') (Some (nu_id NEW)) = false).
  { rewrite is_admin_or_responder_has_role, !Hroles, Ha, Hr.
    by rewrite !bool_decide_eq_false_2. }
  split.
  - unfold signed_in.
    destruct (fetchProfile_flags (nu_id NEW)
                {| user := Some (nu_id NEW); isAdmin := false;
                   isResponder := false |} s' eq_refl) as [H1 H2].
    rewrite Hroles, Ha, bool_decide_eq_false_2 in H1 by done.
    rewrite Hno' in H2.
    destruct (fetchProfile _ _ _ _) as [us ad re] eqn:Hf.
    cbn [isAdmin isResponder] in H1, H2. subst ad re. f_equal.
    unfold fetchProfile in Hf. by injection Hf as <- _ _.
  - intros id row. by apply insert_answer_without_role.
Qed.

Lemma new_user_cannot_answer_witness :
  signed_in in_force store_with_erin (nu_id erin)
  = {| user := Some (nu_id erin); isAdmin := false; isResponder := false |}
  ∧ ∀ id row,
      insert_answer in_force (authenticated_as (nu_id erin)) id row
        store_with_erin
      = raised rls_violation.
Proof.
  apply (new_user_cannot_answer erin "p-erin" store store_with_erin);
    vm_compute; reflexivity.
Defined.

(** ** Role management *)

(** handleAddRole for a label of app_role: a caller who is not an admin
    in the store is refused whatever the page believes; an admin is told
    when the user already has the role, and is refused for an id that is
    no user's; otherwise the user gains exactly that role and nothing
    else changes. *)
Theorem add_role_outcomes (users : gset uuid) (st : auth) (userId : uuid)
    (role : string) (r : app_role) (s : db) :
  parse_role role = Some r →
  (is_admin (session_of st) (user_roles s) = false →
   handleAddRole in_force users st userId role s = (s, "Failed to add role"))
  ∧ (is_admin (session_of st) (user_roles s) = true →
     has_role (user_roles s) (Some userId) r = true →
     handleAddRole in_force users st userId role s
     = (s, "User already has this role"))
  ∧ (is_admin (session_of st) (user_roles s) = true →
     has_role (user_roles s) (Some userId) r = false →
     userId ∉ users →
     handleAddRole in_force users st userId role s
     = (s, "Failed to add role"))
  ∧ (is_admin (session_of st) (user_roles s) = true →
     has_role (user_roles s) (Some userId) r = false →
     userId ∈ users →
     (handleAddRole in_force users st userId role s).2
     = "Role added successfully"
     ∧ ∀ u' r',
         has_role
           (user_roles (handleAddRole in_force users st userId role s).1)
           (Some u') r'
         = has_role (user_roles s) (Some u') r'
           || bool_decide ((u', r') = (userId, r))).
Proof.
  intros Hp. unfold handleAddRole, insert_user_role. rewrite Hp.
  rewrite user_roles_insert_permitted. cbn [ur_user_id].
  assert (Hnew : has_role (user_roles s) (Some userId) r = false →
            bool_decide ({| ur_user_id := userId; ur_role := r |}
                         ∈ user_roles s) = false).
  { intros Hh. apply bool_decide_eq_false. intros Hin.
    apply has_role_spec in Hin. by rewrite Hin in Hh. }
  split_and!.
  - by intros ->.
  - intros -> Hh. apply has_role_spec in Hh. cbn [negb].
    by rewrite bool_decide_eq_true_2.
  - intros -> Hh Hno. cbn [negb]. rewrite (Hnew Hh).
    by rewrite bool_decide_eq_false_2.
  - intros -> Hh Hyes. cbn [negb]. rewrite (Hnew Hh).
    rewrite bool_decide_eq_true_2 by done.
    split; [done|]. intros u' r'. cbn [fst user_roles set_user_roles].
    apply has_role_added.
Qed.

Lemma add_role_outcomes_witness :
  (is_admin (session_of (signed_in in_force store "root")) (user_roles store)
   = false →
   handleAddRole in_force accounts (signed_in in_force store "root") "bob"
     "responder" store
   = (store, "Failed to add role"))
  ∧ (is_admin (session_of (signed_in in_force store "root")) (user_roles store)
     = true →
     has_role (user_roles store) (Some "bob") responder = true →
     handleAddRole in_force accounts (signed_in in_force store "root") "bob"
       "responder" store
     = (store, "User already has this role"))
  ∧ (is_admin (session_of (signed_in in_force store "root")) (user_roles store)
     = true →
     has_role (user_roles store) (Some "bob") responder = false →
     "bob" ∉ accounts →
     handleAddRole in_force accounts (signed_in in_force store "root") "bob"
       "responder" store
     = (store, "Failed to add role"))
  ∧ (is_admin (session_of (signed_in in_force store "root")) (user_roles store)
     = true →
     has_role (user_roles store) (Some "bob") responder = false →
     "bob" ∈ accounts →
     (handleAddRole in_force accounts (signed_in in_force store "root") "bob"
        "responder" store).2
     = "Role added successfully"
     ∧ ∀ u' r',
         has_role
           (user_roles (handleAddRole in_force accounts
                          (signed_in in_force store "root") "bob" "responder"
                          store).1)
           (Some u') r'
         = has_role (user_roles store) (Some u') r'
           || bool_decide ((u', r') = ("bob", responder))).
Proof.
  apply (add_role_outcomes accounts (signed_in in_force store "root") "bob"
           "responder" responder store).
  reflexivity.
Defined.

(** Granting a role the user did not have and removing it again leaves
    the store as it was (for an id that is no user's the grant is refused
    and the removal finds no row). *)
Theorem add_then_remove_role (users : gset uuid) (st : auth) (userId : uuid)
    (role : string) (r : app_role) (s : db) :
  is_admin (session_of st) (user_roles s) = true →
  parse_role role = Some r → r ≠ employee →
  has_role (user_roles s) (Some userId) r = false →
  handleRemoveRole in_force st userId role
    (handleAddRole in_force users st userId role s).1
  = (s, "Role removed successfully").
Proof.
  intros Had Hp Hne Hh.
  assert (Hrole : role ≠ "employee").
  { intros ->. by injection Hp as <-. }
  assert (Hnone : ∀ row, row ∈ user_roles s →
            (bool_decide (ur_user_id row = userId)
             && bool_decide (ur_role row = r)) = false).
  { intros [u' r'] Hin. cbn. apply andb_false_iff.
    destruct (decide (u' = userId)) as [->|?];
      [|left; by apply bool_decide_eq_false].
    right. apply bool_decide_eq_false. intros ->.
    apply has_role_spec in Hin. by rewrite Hin in Hh. }
  unfold handleAddRole, insert_user_role. rewrite Hp.
  rewrite user_roles_insert_permitted, Had. cbn [negb ur_user_id].
  rewrite bool_decide_eq_false_2
    by (intros Hin; apply has_role_spec in Hin; by rewrite Hin in Hh).
  unfold handleRemoveRole. rewrite bool_decide_eq_false_2 by done.
  rewrite Hp. case_bool_decide as Huser; cbn [fst]; f_equal.
  - unfold delete_user_roles. cbn [user_roles set_user_roles].
    assert (Had' : ∀ row, delete_permitted (cat_user_roles in_force)
                     (session_of st)
                     (user_roles s ++ [{| ur_user_id := userId; ur_role := r |}])
                     row = true).
    { intros row. rewrite user_roles_delete_is_admin. unfold is_admin in *.
      apply andb_true_iff in Had as [-> Had]. cbn [andb].
      rewrite has_role_app, Had. done. }
    rewrite filter_app, filter_all.
    + rewrite filter_cons_False, filter_nil, app_nil_r.
      * by destruct s.
      * rewrite Had'. cbn. by rewrite !bool_decide_eq_true_2.
    + intros row Hin. by rewrite Had', andb_true_r, Hnone.
  - unfold delete_user_roles. rewrite filter_all; [by destruct s|].
    intros row Hin. by rewrite Hnone.
Qed.

Lemma add_then_remove_role_witness :
  handleRemoveRole in_force (signed_in in_force store "root") "bob" "responder"
    (handleAddRole in_force accounts (signed_in in_force store "root") "bob"
       "responder" store).1
  = (store, "Role removed successfully").
Proof.
  apply (add_then_remove_role accounts (signed_in in_force store "root") "bob"
           "responder" responder store);
    first [ discriminate | vm_compute; reflexivity ].
Defined.

(** ** What a caller who is not an admin is told *)

(** For a caller who is not an admin in the store, removing a role,
    setting a question's status and deleting a question change nothing,
    and each of the three handlers shows its message of success: the
    store skips the rows without an error. *)
Theorem non_admin_changes_nothing (st : auth) (userId id : uuid)
    (role status : string) (s : db) :
  is_admin (session_of st) (user_roles s) = false →
  role = "admin" ∨ role = "responder" →
  handleRemoveRole in_force st userId role s = (s, "Role removed successfully")
  ∧ handleUpdateQuestionStatus in_force st id status s = (s, "Status updated")
  ∧ handleDeleteQuestion in_force st id s = (s, "Question deleted").
Proof.
  intros Hna Hrole. split_and!.
  - unfold handleRemoveRole.
    destruct Hrole as [-> | ->]; cbn [bool_decide]; vm_compute parse_role;
      rewrite bool_decide_eq_false_2 by done;
      by rewrite delete_user_roles_needs_admin.
  - unfold handleUpdateQuestionStatus, update_question_status.
    destruct (questions s !! id); [|done].
    by rewrite questions_update_permitted, Hna.
  - unfold handleDeleteQuestion, delete_question.
    destruct (questions s !! id); [|done].
    by rewrite questions_delete_permitted, Hna.
Qed.

Lemma non_admin_changes_nothing_witness :
  handleRemoveRole in_force (signed_in in_force store "bob") "root" "admin"
    store
  = (store, "Role removed successfully")
  ∧ handleUpdateQuestionStatus in_force (signed_in in_force store "bob") "q1"
      "closed" store
    = (store, "Status updated")
  ∧ handleDeleteQuestion in_force (signed_in in_force store "bob") "q1" store
    = (store, "Question deleted").
Proof.
  apply (non_admin_changes_nothing (signed_in in_force store "bob") "root"
           "q1" "admin" "closed" store).
  - vm_compute. reflexivity.
  - by left.
Defined.

(** ** The toggles of the user table *)

Lemma removed_by_admin se u r s u' r' :
  is_admin se (user_roles s) = true →
  has_role
    (user_roles (delete_user_roles in_force se
                   (λ row, bool_decide (ur_user_id row = u)
                           && bool_decide (ur_role row = r)) s))
    (Some u') r'
  = has_role (user_roles s) (Some u') r'
    && negb (bool_decide ((u', r') = (u, r))).
Proof.
  intros Had. unfold delete_user_roles. cbn [user_roles set_user_roles].
  rewrite <-has_role_removed. f_equal. apply list_filter_iff. intros row.
  by rewrite user_roles_delete_is_admin, Had, andb_true_r.
Qed.

Lemma added_by_admin users se u r s :
  is_admin se (user_roles s) = true →
  has_role (user_roles s) (Some u) r = false →
  u ∈ users →
  insert_user_role in_force users se {| ur_user_id := u; ur_role := r |} s
  = done_with (set_user_roles
                 (user_roles s ++ [{| ur_user_id := u; ur_role := r |}]) s).
Proof.
  intros Had Hh Hu. unfold insert_user_role.
  rewrite user_roles_insert_permitted, Had. cbn [negb ur_user_id].
  rewrite bool_decide_eq_false_2.
  - by rewrite bool_decide_eq_true_2.
  - intros Hin. apply has_role_spec in Hin. by rewrite Hin in Hh.
Qed.

Lemma admin_sees_all_roles se s :
  is_admin se (user_roles s) = true →
  select_user_roles in_force se (λ _, true) s = user_roles s.
Proof.
  intros Had. unfold select_user_roles. apply filter_all. intros r _.
  rewrite in_force_user_roles. destruct se as [ro u].
  unfold is_admin in Had. cbn [sess_role sess_uid] in Had.
  apply andb_true_iff in Had as [Hro Had]. apply bool_decide_eq_true in Hro.
  subst ro. unfold visible, using_passes, applies; simpl. rewrite Had.
  destruct u as [u|]; [|done]. cbn.
  by destruct (bool_decide (u = ur_user_id r)).
Qed.

Lemma role_label_inj r r' : role_label r = role_label r' → r = r'.
Proof. by destruct r, r'. Qed.

(** What an admin's user table shows for a role other than employee is
    what the store holds. *)
Lemma fetched_roles_of_admin st userId r s :
  is_admin (session_of st) (user_roles s) = true → r ≠ employee →
  role_label r ∈ fetched_roles_of in_force st userId s
  ↔ has_role (user_roles s) (Some userId) r = true.
Proof.
  intros Had Hne. unfold fetched_roles_of.
  rewrite (admin_sees_all_roles _ _ Had). rewrite has_role_spec.
  set (l := role_label ∘ ur_role <$> filter _ (user_roles s)).
  assert (Hl : role_label r ∈ l
               ↔ {| ur_user_id := userId; ur_role := r |} ∈ user_roles s).
  { unfold l. rewrite list_elem_of_fmap. split.
    - intros ([u' r'] & Heq & [Hu Hin]%list_elem_of_filter).
      cbn in Heq, Hu. apply role_label_inj in Heq. by subst.
    - intros Hin. eexists. split; [|apply list_elem_of_filter; split; [|done]];
        done. }
  destruct l as [|x l'] eqn:El; [|done].
  rewrite <-Hl. split; [|by intros ?%elem_of_nil].
  intros Hin%list_elem_of_singleton. by destruct r.
Qed.

(** With the roles freshly fetched by an admin, each toggle clicked on a
    user (an id of auth.users) flips the one role it is about for that
    user: every other (user, role) pair is held afterwards exactly when
    it was before. *)
Theorem toggle_flips_one_role (users : gset uuid) (st : auth) (userId : uuid)
    (s : db) :
  is_admin (session_of st) (user_roles s) = true →
  userId ∈ users →
  (∀ u' r',
     has_role
       (user_roles (handleToggleAdmin in_force users st userId
                      (fetched_roles_of in_force st userId s) s).1)
       (Some u') r'
     = if bool_decide ((u', r') = (userId, admin))
       then negb (has_role (user_roles s) (Some u') r')
       else has_role (user_roles s) (Some u') r')
  ∧ (∀ u' r',
       has_role
         (user_roles (handleToggleResponder in_force users st userId
                        (fetched_roles_of in_force st userId s) s).1)
         (Some u') r'
       = if bool_decide ((u', r') = (userId, responder))
         then negb (has_role (user_roles s) (Some u') r')
         else has_role (user_roles s) (Some u') r').
Proof.
  intros Had Huser.
  pose proof (fetched_roles_of_admin st userId admin s Had ltac:(done)) as Ha.
  pose proof (fetched_roles_of_admin st userId responder s Had ltac:(done)) as Hr.
  cbn [role_label] in Ha, Hr.
  split; intros u' r'; unfold handleToggleAdmin, handleToggleResponder.
  - destruct (has_role (user_roles s) (Some userId) admin) eqn:Hh.
    + rewrite bool_decide_eq_true_2 by (by apply Ha). cbn [fst].
      rewrite removed_by_admin by done.
      case_bool_decide as Heq; [injection Heq as -> ->; by rewrite Hh|].
      apply andb_true_r.
    + rewrite bool_decide_eq_false_2 by (intros Hin; by apply Ha in Hin).
      rewrite added_by_admin by done. cbn [fst user_roles set_user_roles].
      rewrite has_role_added.
      case_bool_decide as Heq; [injection Heq as -> ->; by rewrite Hh|].
      apply orb_false_r.
  - destruct (has_role (user_roles s) (Some userId) responder) eqn:Hh.
    + rewrite bool_decide_eq_true_2 by (by apply Hr). cbn [fst].
      rewrite removed_by_admin by done.
      case_bool_decide as Heq; [injection Heq as -> ->; by rewrite Hh|].
      apply andb_true_r.
    + rewrite bool_decide_eq_false_2 by (intros Hin; by apply Hr in Hin).
      rewrite added_by_admin by done. cbn [fst user_roles set_user_roles].
      rewrite has_role_added.
      case_bool_decide as Heq; [injection Heq as -> ->; by rewrite Hh|].
      apply orb_false_r.
Qed.

Lemma toggle_flips_one_role_witness :
  (∀ u' r',
     has_role
       (user_roles (handleToggleAdmin in_force accounts
                      (signed_in in_force store "root") "bob"
                      (fetched_roles_of in_force
                         (signed_in in_force store "root") "bob" store)
                      store).1)
       (Some u') r'
     = if bool_decide ((u', r') = ("bob", admin))
       then negb (has_role (user_roles store) (Some u') r')
       else has_role (user_roles store) (Some u') r')
  ∧ (∀ u' r',
       has_role
         (user_roles (handleToggleResponder in_force accounts
                        (signed_in in_force store "root") "bob"
                        (fetched_roles_of in_force
                           (signed_in in_force store "root") "bob" store)
                        store).1)
         (Some u') r'
       = if bool_decide ((u', r') = ("bob", responder))
         then negb (has_role (user_roles store) (Some u') r')
         else has_role (user_roles store) (Some u') r').
Proof.
  apply (toggle_flips_one_role accounts (signed_in in_force store "root")
           "bob" store).
  - vm_compute. reflexivity.
  - set_solver.
Defined.

(** ** Question status and deletion *)

Lemma questions_checks_status q st :
  questions_checks q = true →
  questions_checks (set_status (Some st) q)
  = bool_decide (st ∈ ["open"; "answered"; "closed"]).
Proof.
  unfold questions_checks. cbn [set_status q_title q_content q_status].
  intros [[-> ->]%andb_true_iff _]%andb_true_iff. done.
Qed.

Lemma session_of_user st u : user st = Some u → session_of st = authenticated_as u.
Proof. unfold session_of. by intros ->. Qed.

(** An accepted answer moves the question to 'answered' only when its
    author is an admin: for a responder the UPDATE that follows the
    INSERT is skipped by the store, the question keeps the status it
    had, and the handler reports success all the same. *)
Theorem answered_status_needs_admin (st : auth) (u qid : uuid) (q : question)
    (newAnswer : string) (new_id : uuid) (s : db) :
  user st = Some u → isResponder st = true →
  is_admin_or_responder (user_roles s) (Some u) = true →
  questions s !! qid = Some q → questions_checks q = true →
  truthy (trim newAnswer) = true → truthy qid = true →
  (Z.of_nat (char_length (trim newAnswer)) ≤ 10000)%Z →
  answers s !! new_id = None →
  (handleSubmitAnswer in_force st (Some qid) newAnswer new_id s).2
  = Some "Answer posted successfully!"
  ∧ answers (handleSubmitAnswer in_force st (Some qid) newAnswer new_id s).1
      !! new_id
    = Some {| a_question_id := qid; a_content := trim newAnswer;
              a_author_id := u; a_is_official := true |}
  ∧ q_status <$>
      questions (handleSubmitAnswer in_force st (Some qid) newAnswer new_id s).1
        !! qid
    = Some (if has_role (user_roles s) (Some u) admin
            then Some "answered" else q_status q)
  ∧ (has_role (user_roles s) (Some u) admin = false →
     questions (handleSubmitAnswer in_force st (Some qid) newAnswer new_id s).1
     = questions s).
Proof.
  intros Hu Hflag Hrole Hq Hchk Hta Htq Hlen Hnew. unfold handleSubmitAnswer.
  rewrite Hflag, Hu, Hta, Htq. cbn [andb negb].
  rewrite (session_of_user st u Hu).
  rewrite (insert_answer_with_role u new_id _ s) by (done || by rewrite Hq).
  unfold update_question_status. cbn [questions set_answers user_roles].
  rewrite Hq, questions_update_permitted. unfold is_admin.
  cbn [sess_role sess_uid authenticated_as].
  rewrite bool_decide_eq_true_2 by done. cbn [andb].
  destruct (has_role (user_roles s) (Some u) admin).
  - rewrite questions_checks_status by done. cbn [bool_decide].
    rewrite bool_decide_eq_true_2 by (repeat constructor).
    cbn [fst snd answers questions set_questions set_answers].
    rewrite !lookup_insert_eq. by split_and!.
  - cbn [fst snd answers questions set_answers].
    rewrite lookup_insert_eq, Hq. by split_and!.
Qed.

Lemma answered_status_needs_admin_witness :
  (handleSubmitAnswer in_force (signed_in in_force store "carol") (Some "q1")
     "Ask the platform team." "a1" store).2
  = Some "Answer posted successfully!"
  ∧ answers (handleSubmitAnswer in_force (signed_in in_force store "carol")
               (Some "q1") "Ask the platform team." "a1" store).1 !! "a1"
    = Some {| a_question_id := "q1";
              a_content := trim "Ask the platform team.";
              a_author_id := "carol"; a_is_official := true |}
  ∧ q_status <$>
      questions (handleSubmitAnswer in_force (signed_in in_force store "carol")
                   (Some "q1") "Ask the platform team." "a1" store).1 !! "q1"
    = Some (if has_role (user_roles store) (Some "carol") admin
            then Some "answered"
            else q_status (asked "Build farm" false (Some "alice")
                             (Some "d-eng")))
  ∧ (has_role (user_roles store) (Some "carol") admin = false →
     questions (handleSubmitAnswer in_force (signed_in in_force store "carol")
                  (Some "q1") "Ask the platform team." "a1" store).1
     = questions store).
Proof.
  apply (answered_status_needs_admin (signed_in in_force store "carol")
           "carol" "q1"
           (asked "Build farm" false (Some "alice") (Some "d-eng"))
           "Ask the platform team." "a1" store);
    first [ apply Z.leb_le; vm_compute; reflexivity | vm_compute; reflexivity ].
Defined.

(** An admin's status change on a stored question goes through for the
    three statuses the table allows and is reported as failed for any
    other text; either way the vote counters and the ledger are the same
    afterwards. *)
Theorem status_update_by_admin (st : auth) (id : uuid) (status : string)
    (q : question) (s : db) :
  is_admin (session_of st) (user_roles s) = true →
  questions s !! id = Some q → questions_checks q = true →
  handleUpdateQuestionStatus in_force st id status s
  = (if bool_decide (status ∈ ["open"; "answered"; "closed"])
     then (set_questions (<[id := set_status (Some status) q]> (questions s)) s,
           "Status updated")
     else (s, "Failed to update status"))
  ∧ (counters_match s →
     counters_match (handleUpdateQuestionStatus in_force st id status s).1).
Proof.
  intros Had Hq Hchk.
  assert (Heq : handleUpdateQuestionStatus in_force st id status s
                = (if bool_decide (status ∈ ["open"; "answered"; "closed"])
                   then (set_questions
                           (<[id := set_status (Some status) q]> (questions s)) s,
                         "Status updated")
                   else (s, "Failed to update status"))).
  { unfold handleUpdateQuestionStatus, update_question_status.
    rewrite Hq, questions_update_permitted, Had.
    rewrite questions_checks_status by done. by case_bool_decide. }
  split; [done|]. rewrite Heq. intros Hm. case_bool_decide; [|done].
  cbn [fst]. intros k q' Hk. cbn [questions votes set_questions] in *.
  destruct (decide (k = id)) as [->|Hne].
  - rewrite lookup_insert_eq in Hk. injection Hk as <-.
    apply (Hm id q Hq).
  - rewrite lookup_insert_ne in Hk by done. by apply Hm.
Qed.

Lemma status_update_by_admin_witness :
  handleUpdateQuestionStatus in_force (signed_in in_force store "root") "q1"
    "resolved" store
  = (if bool_decide ("resolved" ∈ ["open"; "answered"; "closed"])
     then (set_questions
             (<["q1" := set_status (Some "resolved")
                          (asked "Build farm" false (Some "alice")
                             (Some "d-eng"))]> (questions store)) store,
           "Status updated")
     else (store, "Failed to update status"))
  ∧ (counters_match store →
     counters_match
       (handleUpdateQuestionStatus in_force (signed_in in_force store "root")
          "q1" "resolved" store).1).
Proof.
  apply (status_update_by_admin (signed_in in_force store "root") "q1"
           "resolved" (asked "Build farm" false (Some "alice") (Some "d-eng"))
           store);
    vm_compute; reflexivity.
Defined.

Lemma count_votes_without t k id (vs : gmap uuid vote) :
  k ≠ id →
  count_votes t k (filter (λ kv : uuid * vote, v_question_id kv.2 ≠ id) vs)
  = count_votes t k vs.
Proof.
  intros Hne. unfold count_votes. f_equal.
  apply map_filter_filter_l. intros i x _ [Hk _]. cbn in *. congruence.
Qed.

(** Deleting a question, whoever asks for it, leaves counters that agree
    with the ledger and a ledger that satisfies its constraints; when an
    admin asks, the question is gone together with every vote and every
    answer that referred to it. *)
Theorem delete_question_preserves (st : auth) (id : uuid) (s : db) :
  counters_match s → wf s →
  counters_match (handleDeleteQuestion in_force st id s).1
  ∧ wf (handleDeleteQuestion in_force st id s).1
  ∧ (is_admin (session_of st) (user_roles s) = true →
     is_Some (questions s !! id) →
     questions (handleDeleteQuestion in_force st id s).1 !! id = None
     ∧ (∀ k v, votes (handleDeleteQuestion in_force st id s).1 !! k = Some v →
          v_question_id v ≠ id)
     ∧ (∀ k a, answers (handleDeleteQuestion in_force st id s).1 !! k = Some a →
          a_question_id a ≠ id)).
Proof.
  intros Hm Hwf. unfold handleDeleteQuestion, delete_question. cbn [fst].
  destruct (questions s !! id) as [q|] eqn:Hq;
    [|split_and!; try done; by intros _ [? ?]].
  rewrite questions_delete_permitted.
  destruct (is_admin _ _); [|by split_and!].
  unfold counters_match, wf. cbn [questions votes answers]. split_and!.
  - intros k q' Hk. apply lookup_delete_Some in Hk as [Hne Hk].
    rewrite !count_votes_without by done. by apply Hm.
  - intros k v [Hv Hvq]%map_lookup_filter_Some. cbn in Hvq.
    pose proof (Hwf k v Hv) as Hc.
    apply vote_constraints_spec in Hc as (Ht & Hex & Hfree).
    apply vote_constraints_spec. cbn [questions votes]. split_and!.
    + done.
    + by rewrite lookup_delete_ne.
    + intros k' w [Hw _]%map_lookup_filter_Some. by apply (Hfree k' w).
  - intros _ _. split_and!.
    + apply lookup_delete_eq.
    + by intros k v [_ ?]%map_lookup_filter_Some.
    + by intros k a [_ ?]%map_lookup_filter_Some.
Qed.

Lemma delete_question_preserves_witness :
  counters_match (handleDeleteQuestion in_force root_session "q1"
                    poll_with_admin).1
  ∧ wf (handleDeleteQuestion in_force root_session "q1" poll_with_admin).1
  ∧ (is_admin (session_of root_session) (user_roles poll_with_admin) = true →
     is_Some (questions poll_with_admin !! "q1") →
     questions (handleDeleteQuestion in_force root_session "q1"
                  poll_with_admin).1 !! "q1" = None
     ∧ (∀ k v,
          votes (handleDeleteQuestion in_force root_session "q1"
                   poll_with_admin).1 !! k = Some v →
          v_question_id v ≠ "q1")
     ∧ (∀ k a,
          answers (handleDeleteQuestion in_force root_session "q1"
                     poll_with_admin).1 !! k = Some a →
          a_question_id a ≠ "q1")).
Proof.
  apply (delete_question_preserves root_session "q1" poll_with_admin).
  - change (counters_match poll_one_up).
    apply (run_preserves _ poll); apply (fresh_invariants poll);
      vm_compute; reflexivity.
  - apply ledger_wf_spec. vm_compute. reflexivity.
Defined.

End AccountsFacts.

(** * Properties of the question form, and of a client without a session *)

Module AskQuestionFacts.
Import Schema Js Rls Migrations Votes Client Notify Accounts AskQuestion Demo.
Import VotesAccess OtherTables DemoAccounts.
Import RlsFacts VotesFacts NotifyFacts AccountsFacts VotesAccessFacts.

Lemma form_row_permitted u rs title content departmentId isAnonymous :
  insert_permitted (cat_questions in_force) (authenticated_as u) rs
    (form_row u title content departmentId isAnonymous) = true.
Proof.
  rewrite questions_insert_permitted. unfold form_row.
  cbn [q_is_anonymous q_author_id].
  destruct isAnonymous; cbn [negb andb orb];
    rewrite bool_decide_eq_true_2 by done; done.
Qed.

(** Whatever a signed-in user enters in the form, the row it sends is
    never refused by the creation policy: with a title and a text that
    are not blank and within the table's limits, a fresh key and a
    department that exists (or none), the store afterwards holds the
    question under the new key, with the trimmed title and text, the
    author recorded exactly when the question is not anonymous, status
    'open' and both counters at zero; every other question is as it was;
    and the function is invoked exactly when a department was chosen. *)
Theorem form_submission_accepted (st : auth) (u : uuid)
    (authHeader title content departmentId : string) (isAnonymous : bool)
    (new_id : uuid) (s : db) :
  user st = Some u →
  truthy (trim title) = true → truthy (trim content) = true →
  (Z.of_nat (char_length (trim title)) ≤ 500)%Z →
  (Z.of_nat (char_length (trim content)) ≤ 10000)%Z →
  questions s !! new_id = None →
  departmentId = "" ∨ is_Some (departments s !! departmentId) →
  toast (handleSubmit in_force st authHeader title content departmentId
           isAnonymous new_id s)
  = Some "Question submitted successfully!"
  ∧ questions (store_after (handleSubmit in_force st authHeader title content
                              departmentId isAnonymous new_id s)) !! new_id
    = Some {| q_title := trim title; q_content := trim content;
              q_department_id :=
                if truthy departmentId then Some departmentId else None;
              q_is_anonymous := isAnonymous;
              q_author_id := if isAnonymous then None else Some u;
              q_status := Some "open"; q_upvotes := 0; q_downvotes := 0 |}
  ∧ (∀ k, k ≠ new_id →
       questions (store_after (handleSubmit in_force st authHeader title
                                 content departmentId isAnonymous new_id s))
         !! k
       = questions s !! k)
  ∧ invoked (handleSubmit in_force st authHeader title content departmentId
               isAnonymous new_id s)
    = if truthy departmentId
      then Some {| method := "POST"; authorization := Some authHeader;
                   json := Some (Some (payload_of new_id
                             (form_row u title content departmentId
                                isAnonymous))) |}
      else None.
Proof.
  intros Hu Ht Hc Hlt Hlc Hnew Hdep.
  assert (Heq : handleSubmit in_force st authHeader title content departmentId
                  isAnonymous new_id s
                = {| store_after :=
                       inserted new_id
                         (form_row u title content departmentId isAnonymous) s;
                     toast := Some "Question submitted successfully!";
                     invoked :=
                       if truthy departmentId
                       then Some {| method := "POST";
                                    authorization := Some authHeader;
                                    json := Some (Some (payload_of new_id
                                              (form_row u title content
                                                 departmentId isAnonymous))) |}
                       else None |}).
  { unfold handleSubmit.
    rewrite Hu, Ht, Hc. cbn [negb orb]. rewrite (session_of_user st u Hu).
    unfold insert_question. rewrite form_row_permitted. cbn [negb].
    assert (Hchk : questions_checks
                     (form_row u title content departmentId isAnonymous) = true).
    { unfold questions_checks, form_row. cbn [q_title q_content q_status].
      rewrite !bool_decide_eq_true_2 by done. done. }
    rewrite Hchk. cbn [negb].
    rewrite bool_decide_eq_false_2 by (rewrite Hnew; by intros [? ?]).
    assert (Hvis : ∀ rs row, visible (cat_questions in_force)
                     (authenticated_as u) rs row = true)
      by (intros; by rewrite questions_visible).
    unfold inserted. cbn [form_row q_department_id].
    destruct (truthy departmentId) eqn:Htd; cbn [truthy_opt]; rewrite ?Htd.
    - destruct Hdep as [-> | Hex]; [done|].
      rewrite bool_decide_eq_true_2 by done. by rewrite Hvis.
    - by rewrite Hvis. }
  rewrite Heq. cbn [toast store_after invoked]. unfold inserted.
  cbn [questions set_questions]. split_and!.
  - done.
  - by rewrite lookup_insert_eq.
  - intros k Hk. by rewrite lookup_insert_ne.
  - done.
Qed.

Lemma form_submission_accepted_witness :
  toast (handleSubmit in_force (signed_in in_force store "bob") "Bearer t-bob"
           " VPN access " "How do I get a VPN account? " "d-eng" false "q9"
           store)
  = Some "Question submitted successfully!"
  ∧ questions (store_after (handleSubmit in_force
                              (signed_in in_force store "bob") "Bearer t-bob"
                              " VPN access " "How do I get a VPN account? "
                              "d-eng" false "q9" store)) !! "q9"
    = Some {| q_title := trim " VPN access ";
              q_content := trim "How do I get a VPN account? ";
              q_department_id :=
                if truthy "d-eng" then Some "d-eng" else None;
              q_is_anonymous := false;
              q_author_id := if false then None else Some "bob";
              q_status := Some "open"; q_upvotes := 0; q_downvotes := 0 |}
  ∧ (∀ k, k ≠ "q9" →
       questions (store_after (handleSubmit in_force
                                 (signed_in in_force store "bob")
                                 "Bearer t-bob" " VPN access "
                                 "How do I get a VPN account? " "d-eng" false
                                 "q9" store)) !! k
       = questions store !! k)
  ∧ invoked (handleSubmit in_force (signed_in in_force store "bob")
               "Bearer t-bob" " VPN access " "How do I get a VPN account? "
               "d-eng" false "q9" store)
    = if truthy "d-eng"
      then Some {| method := "POST"; authorization := Some "Bearer t-bob";
                   json := Some (Some (payload_of "q9"
                             (form_row "bob" " VPN access "
                                "How do I get a VPN account? " "d-eng"
                                false))) |}
      else None.
Proof.
  apply (form_submission_accepted (signed_in in_force store "bob") "bob"
           "Bearer t-bob" " VPN access " "How do I get a VPN account? "
           "d-eng" false "q9" store);
    first [ apply Z.leb_le; vm_compute; reflexivity
          | right; eexists; vm_compute; reflexivity
          | vm_compute; reflexivity ].
Defined.

Lemma insert_question_done c se id row s s' :
  insert_question c se id row s = done_with s' →
  s' = inserted id row s ∧ questions s !! id = None.
Proof.
  unfold insert_question, inserted.
  destruct (negb (insert_permitted _ _ _ _)); [done|].
  destruct (negb (questions_checks row)); [done|].
  case_bool_decide as Hid; [done|].
  assert (questions s !! id = None) as Hnone
    by (destruct (questions s !! id) eqn:E; [by destruct Hid|done]).
  destruct (q_department_id row) as [d|].
  - case_bool_decide; [|done]. by intros [= <-].
  - by intros [= <-].
Qed.

Lemma count_votes_unreferenced t id s :
  wf s → questions s !! id = None → count_votes t id (votes s) = 0.
Proof.
  intros Hwf Hid. unfold count_votes.
  apply map_size_empty_iff, map_empty_filter.
  intros k v Hv [Hq _]. cbn in Hq.
  pose proof (Hwf k v Hv) as Hc.
  apply vote_constraints_spec in Hc as (_ & Hex & _).
  rewrite Hq, Hid in Hex. by destruct Hex.
Qed.

Lemma inserted_preserves id row s :
  questions s !! id = None → q_upvotes row = 0%Z → q_downvotes row = 0%Z →
  counters_match s → wf s →
  counters_match (inserted id row s) ∧ wf (inserted id row s).
Proof.
  intros Hid Hup Hdown Hm Hwf. unfold counters_match, wf, inserted.
  cbn [questions votes set_questions]. split.
  - intros k q Hk. destruct (decide (k = id)) as [->|Hne].
    + rewrite lookup_insert_eq in Hk. injection Hk as <-.
      rewrite !count_votes_unreferenced by done. by rewrite Hup, Hdown.
    + rewrite lookup_insert_ne in Hk by done. by apply Hm.
  - intros k v Hv. pose proof (Hwf k v Hv) as Hc.
    apply vote_constraints_spec in Hc as (Ht & Hex & Hfree).
    apply vote_constraints_spec. cbn [questions votes set_questions].
    split_and!; [done| |done].
    destruct (decide (v_question_id v = id)) as [->|Hne].
    + by rewrite lookup_insert_eq.
    + by rewrite lookup_insert_ne.
Qed.

(** Whatever is entered in the form and whoever submits it, the store
    afterwards has counters that agree with the ledger and a ledger that
    satisfies its constraints: a new question starts at zero votes. *)
Theorem form_submission_preserves (st : auth)
    (authHeader title content departmentId : string) (isAnonymous : bool)
    (new_id : uuid) (s : db) :
  counters_match s → wf s →
  counters_match
    (store_after (handleSubmit in_force st authHeader title content
                    departmentId isAnonymous new_id s))
  ∧ wf (store_after (handleSubmit in_force st authHeader title content
                       departmentId isAnonymous new_id s)).
Proof.
  intros Hm Hwf. unfold handleSubmit.
  destruct (user st) as [u|]; [|by split].
  destruct (negb _ || negb _); [by split|].
  destruct (insert_question _ _ _ _ _) as [s'|e] eqn:Hins;
    [|cbn [store_after]; by split].
  destruct (visible _ _ _ _); cbn [store_after]; [|by split].
  apply insert_question_done in Hins as [-> Hid].
  by apply inserted_preserves.
Qed.

Lemma form_submission_preserves_witness :
  counters_match
    (store_after (handleSubmit in_force
                    {| user := Some "alice"; isAdmin := false;
                       isResponder := false |}
                    "Bearer t-alice" "third" "body" "" true "q3" poll_one_up))
  ∧ wf (store_after (handleSubmit in_force
                       {| user := Some "alice"; isAdmin := false;
                          isResponder := false |}
                       "Bearer t-alice" "third" "body" "" true "q3"
                       poll_one_up)).
Proof.
  apply (form_submission_preserves _ "Bearer t-alice" "third" "body" "" true
           "q3" poll_one_up).
  - apply (run_preserves _ poll); apply (fresh_invariants poll);
      vm_compute; reflexivity.
  - apply ledger_wf_spec. vm_compute. reflexivity.
Defined.

(** The request the form makes after storing a question reaches the
    function as a request of the signed-in user for the stored row.  For
    a question asked with the name shown, the author check passes and the
    function goes on to look up the department's admins; for a question
    asked anonymously the form's own request is refused with 403 and
    nobody is written to. *)
Theorem form_notification (st : auth) (u : uuid)
    (authHeader title content departmentId : string) (isAnonymous : bool)
    (new_id : uuid) (s : db) (tokens : gmap string uuid)
    (mail : email → outcome) (req : Request) :
  user st = Some u →
  invoked (handleSubmit in_force st authHeader title content departmentId
             isAnonymous new_id s) = Some req →
  tokens !! authHeader = Some u → truthy authHeader = true →
  truthy new_id = true →
  let E := store_env
             (store_after (handleSubmit in_force st authHeader title content
                             departmentId isAnonymous new_id s))
             tokens mail in
  handler E req ()
  = if isAnonymous
    then reply_only E (json_response 403 "error"
                         "Unauthorized - not the question author") ()
    else notify E
           (select_columns new_id
              (form_row u title content departmentId isAnonymous)) ().
Proof.
  intros Hu Hinv Htok Hth Htid. cbv zeta. revert Hinv.
  unfold handleSubmit. rewrite Hu.
  destruct (negb _ || negb _); [by cbn [invoked]|].
  destruct (insert_question _ _ _ _ _) as [s'|e] eqn:Hins;
    [|by cbn [invoked]].
  destruct (visible _ _ _ _); cbn [store_after invoked]; [|discriminate].
  destruct (truthy_opt _); [|discriminate]. intros [= <-].
  apply insert_question_done in Hins as [-> Hid].
  set (row := form_row u title content departmentId isAnonymous).
  set (E := store_env (inserted new_id row s) tokens mail).
  assert (Hinvoked : invoked_for E
            {| method := "POST"; authorization := Some authHeader;
               json := Some (Some (payload_of new_id row)) |}
            u new_id (select_columns new_id row)).
  { split.
    - done.
    - done.
    - unfold E, store_env. cbn [getUser authorization default].
      unfold id. by rewrite Htok.
    - by eexists.
    - done.
    - unfold E, store_env, inserted.
      cbn [questions_single questions set_questions].
      by rewrite lookup_insert_eq. }
  rewrite (handler_verified E _ () u new_id _ Hinvoked).
  unfold row, form_row. cbn [select_columns qd_author_id q_author_id].
  destruct isAnonymous.
  - by rewrite bool_decide_eq_false_2.
  - by rewrite bool_decide_eq_true_2.
Qed.

Lemma form_notification_witness :
  let E := store_env
             (store_after (handleSubmit in_force
                             (signed_in in_force store "bob") "Bearer t-bob"
                             "Pay" "Why?" "d-eng" true "q9" store))
             tokens mail in
  handler E
    {| method := "POST"; authorization := Some "Bearer t-bob";
       json := Some (Some (payload_of "q9"
                             (form_row "bob" "Pay" "Why?" "d-eng" true))) |}
    ()
  = if true
    then reply_only E (json_response 403 "error"
                         "Unauthorized - not the question author") ()
    else notify E
           (select_columns "q9" (form_row "bob" "Pay" "Why?" "d-eng" true)) ().
Proof.
  apply (form_notification (signed_in in_force store "bob") "bob"
           "Bearer t-bob" "Pay" "Why?" "d-eng" true "q9" store tokens mail);
    vm_compute; reflexivity.
Defined.

(** ** Without a session *)

Lemma departments_in_force_eq :
  departments_in_force
  = [departments_admin_manage; departments_viewable_by_everyone].
Proof. vm_compute. reflexivity. Qed.

Lemma comments_in_force_eq :
  comments_in_force
  = [comments_viewable; comments_create; comments_admin_delete].
Proof. vm_compute. reflexivity. Qed.

Lemma department_admins_in_force_eq :
  department_admins_in_force
  = [department_admins_manage; department_admins_admin_view].
Proof. vm_compute. reflexivity. Qed.

(** What the policies in force leave to a client without a session, on
    the eight tables and the view: it can read every row of departments,
    and nothing else.  On departments no policy lets it insert, update or
    delete; on profiles, user_roles, questions, answers, comments, votes
    and department_admins no policy lets a row through for any command;
    and the public view of the profiles is empty for it. *)
Theorem signed_out_access (st : auth) (cond : profile_public → bool)
    (s : db) :
  user st = None →
  read_only departments_in_force (session_of st) (user_roles s)
  ∧ no_access (cat_profiles in_force) (session_of st) (user_roles s)
  ∧ no_access (cat_user_roles in_force) (session_of st) (user_roles s)
  ∧ no_access (cat_questions in_force) (session_of st) (user_roles s)
  ∧ no_access (cat_answers in_force) (session_of st) (user_roles s)
  ∧ no_access comments_in_force (session_of st) (user_roles s)
  ∧ no_access votes_in_force (session_of st) (user_roles s)
  ∧ no_access department_admins_in_force (session_of st) (user_roles s)
  ∧ select_profiles_public in_force (session_of st) cond s = Some [].
Proof.
  intros Hu. unfold session_of. rewrite Hu.
  rewrite in_force_profiles, in_force_user_roles, in_force_questions,
    in_force_answers, votes_in_force_eq, departments_in_force_eq,
    comments_in_force_eq, department_admins_in_force_eq.
  split_and!; try (intros row; split_and!; reflexivity).
  unfold select_profiles_public. rewrite in_force_view, in_force_profiles.
  cbn [mbind option_bind security_invoker].
  induction (profiles s) as [|p l IH]; [done|].
  rewrite filter_cons_False; [exact IH|]. by intros [=].
Qed.

Lemma signed_out_access_witness :
  read_only departments_in_force (session_of signed_out) (user_roles store)
  ∧ no_access (cat_profiles in_force) (session_of signed_out)
      (user_roles store)
  ∧ no_access (cat_user_roles in_force) (session_of signed_out)
      (user_roles store)
  ∧ no_access (cat_questions in_force) (session_of signed_out)
      (user_roles store)
  ∧ no_access (cat_answers in_force) (session_of signed_out) (user_roles store)
  ∧ no_access comments_in_force (session_of signed_out) (user_roles store)
  ∧ no_access votes_in_force (session_of signed_out) (user_roles store)
  ∧ no_access department_admins_in_force (session_of signed_out)
      (user_roles store)
  ∧ select_profiles_public in_force (session_of signed_out) (λ _, true) store
    = Some [].
Proof.
  apply (signed_out_access signed_out (λ _, true) store).
  reflexivity.
Defined.

End AskQuestionFacts.

